(** * Job-board extractors: a shallow embedding and its checked properties

    The repository holds four independent Python scripts
    ([hays_extract.py], [job_extract.py], [judge_extract.py],
    [yoh_extract.py]).  Each one fetches postings from one site, keeps the
    ones posted at or after a cutoff, sorts them newest first and writes a
    text file and a spreadsheet.

    The embedding keeps Python's dynamic behaviour visible: decoded JSON is
    a value of type [json], every operation that can raise returns a
    [result], and code that talks to the network or the file system runs in
    the state monad [io] over an explicit [world]. *)

From Stdlib Require Import ZArith String Ascii List Sorted Permutation Lia.
From stdpp Require Import base tactics option list gmap strings pretty.

Local Set Warnings "-register-all".
Local Open Scope string_scope.
Local Open Scope Z_scope.

(** ** Exceptions and results *)

(** The exception classes the scripts can meet.  [HTTPError] is a subclass
    of [URLError] in [urllib.error]; [JSONDecodeError] is a subclass of
    [ValueError].  [ConnectionError] stands for the transport failures that
    [urllib] does not wrap in [URLError] (a reset while the body is read). *)
Inductive exn :=
  | URLError (reason : string)
  | HTTPError (reason : string)
  | ConnectionError (reason : string)
  | JSONDecodeError
  | AttributeError
  | TypeError
  | KeyError
  | IndexError
  | ValueError
  | OverflowError.

Inductive result (A : Type) :=
  | Ok (a : A)
  | Raise (e : exn).
Arguments Ok {A} a.
Arguments Raise {A} e.

Global Instance result_ret : MRet result := λ A a, Ok a.
Global Instance result_bind : MBind result := λ A B f m,
  match m with
  | Ok a => f a
  | Raise e => Raise e
  end.
Global Instance result_fmap : FMap result := λ A B f m,
  match m with
  | Ok a => Ok (f a)
  | Raise e => Raise e
  end.

(** [except urllib.error.URLError] catches the class and its subclasses. *)
Definition is_URLError (e : exn) : bool :=
  match e with
  | URLError _ | HTTPError _ => true
  | _ => false
  end.

(** [str(exc)] for the exceptions that carry a message; the [reason] of
    an [HTTPError] stands for its whole message. *)
Definition exn_str (e : exn) : string :=
  match e with
  | URLError r => "<urlopen error " +:+ r +:+ ">"
  | HTTPError r => r
  | ConnectionError r => r
  | _ => ""
  end.

(** ** Decoded JSON values *)

(** What [json.loads] returns: [None], [bool], [int], [str], [list], [dict].
    Numbers with a fraction or an exponent are left out; every number the
    scripts compute with (epoch milliseconds, counts, sizes) is integral.
    A [JDict] is read by first match, and its key list is duplicate-free
    as [json.loads] builds it. *)
Inductive json :=
  | JNull
  | JBool (b : bool)
  | JInt (n : Z)
  | JStr (s : string)
  | JList (xs : list json)
  | JDict (kvs : list (string * json)).

Fixpoint assoc (k : string) (kvs : list (string * json)) : option json :=
  match kvs with
  | [] => None
  | (k', v) :: rest => if String.eqb k k' then Some v else assoc k rest
  end.

(** Python truth value of a decoded JSON value. *)
Definition truthy (v : json) : bool :=
  match v with
  | JNull => false
  | JBool b => b
  | JInt n => negb (n =? 0)%Z
  | JStr s => negb (String.eqb s "")
  | JList xs => match xs with [] => false | _ => true end
  | JDict kvs => match kvs with [] => false | _ => true end
  end.

(** [a or b] on values. *)
Definition py_or (a b : json) : json := if truthy a then a else b.

(** [o.get(k, default)]: only a [dict] has [get]. *)
Definition py_get (o : json) (k : string) (dflt : json) : result json :=
  match o with
  | JDict kvs => Ok (default dflt (assoc k kvs))
  | _ => Raise AttributeError
  end.

(** [o[k]] with a [str] key: a missing key of a [dict] is a [KeyError];
    a [list] or [str] wants an integer index, and the other values are not
    subscriptable (both [TypeError]). *)
Definition py_getitem (o : json) (k : string) : result json :=
  match o with
  | JDict kvs =>
      match assoc k kvs with
      | Some v => Ok v
      | None => Raise KeyError
      end
  | _ => Raise TypeError
  end.

(** A [str] is held as its UTF-8 encoding, and its characters are the code
    points: a byte that is not a continuation byte ([10xxxxxx]) together
    with the continuation bytes that follow it. *)
Definition is_continuation (c : ascii) : bool :=
  match c with
  | Ascii _ _ _ _ _ _ b6 b7 => b7 && negb b6
  end.

(** The continuation bytes in front of the first character, and the
    characters after them. *)
Fixpoint code_points_from (cs : list ascii) : string * list string :=
  match cs with
  | [] => (EmptyString, [])
  | c :: rest =>
      let '(pending, chars) := code_points_from rest in
      if is_continuation c then (String c pending, chars)
      else (EmptyString, String c pending :: chars)
  end.

Definition code_points (s : string) : list string :=
  let '(pending, chars) := code_points_from (list_ascii_of_string s) in
  match pending with
  | EmptyString => chars
  | _ => pending :: chars
  end.

(** The items a [for] loop sees: the elements of a [list], the keys of a
    [dict], the characters of a [str]; the other values are not iterable. *)
Definition py_iter (o : json) : result (list json) :=
  match o with
  | JList xs => Ok xs
  | JDict kvs => Ok (map (λ kv, JStr (fst kv)) kvs)
  | JStr s => Ok (map JStr (code_points s))
  | _ => Raise TypeError
  end.

(** [o[-1]]: the last element of a [list], the last character of a [str]
    ([IndexError] when there is none); a [dict] has no key [-1]. *)
Definition py_last (o : json) : result json :=
  match o with
  | JList xs =>
      match last xs with
      | Some v => Ok v
      | None => Raise IndexError
      end
  | JStr s =>
      match last (code_points s) with
      | Some c => Ok (JStr c)
      | None => Raise IndexError
      end
  | JDict _ => Raise KeyError
  | _ => Raise TypeError
  end.

(** The integer behind a value in arithmetic and comparisons ([bool] is a
    subclass of [int]); [None] when the operation raises [TypeError]. *)
Definition as_int (v : json) : option Z :=
  match v with
  | JInt n => Some n
  | JBool b => Some (if b then 1 else 0)
  | _ => None
  end.

(** The receiver of a [str] method ([strip], [replace]): any other value
    has no such attribute. *)
Definition str_receiver (v : json) : result string :=
  match v with
  | JStr s => Ok s
  | _ => Raise AttributeError
  end.

(** [sep.join(items)]: every item must be a [str]. *)
Fixpoint strs_of (items : list json) : result (list string) :=
  match items with
  | [] => Ok []
  | JStr s :: rest => ss ← strs_of rest; Ok (s :: ss)
  | _ :: _ => Raise TypeError
  end.

Definition py_join (sep : string) (items : list json) : result string :=
  ss ← strs_of items; Ok (String.concat sep ss).

(** [s.replace("Z", "+00:00")]. *)
Fixpoint replace_Z (s : string) : string :=
  match s with
  | EmptyString => EmptyString
  | String c rest =>
      if Ascii.eqb c "Z"%char then "+00:00" +:+ replace_Z rest
      else String c (replace_Z rest)
  end.

(** [needle in hay] on strings. *)
Definition str_contains (needle hay : string) : bool :=
  match String.index 0 needle hay with
  | Some _ => true
  | None => false
  end.

(** ** Datetimes *)

(** A [datetime] is its wall-clock reading in microseconds since
    1970-01-01T00:00:00 on its own clock, and its [tzinfo]: [None] for a
    naive value, [Some off] for an aware one with UTC offset [off]
    microseconds. *)
Record datetime := DateTime { wall : Z; tzinfo : option Z }.

Definition aware (d : datetime) : Prop := is_Some (tzinfo d).

(** The instant of an aware datetime on the UTC time line. *)
Definition utc_instant (d : datetime) : option Z :=
  off ← tzinfo d; Some (wall d - off).

(** [a < b]: aware values compare by instant, naive ones by wall clock,
    and a naive value against an aware one raises [TypeError]. *)
Definition dt_lt (a b : datetime) : result bool :=
  match tzinfo a, tzinfo b with
  | Some oa, Some ob => Ok (bool_decide (wall a - oa < wall b - ob))
  | None, None => Ok (bool_decide (wall a < wall b))
  | _, _ => Raise TypeError
  end.

(** [a >= b]. *)
Definition dt_ge (a b : datetime) : result bool :=
  match tzinfo a, tzinfo b with
  | Some oa, Some ob => Ok (bool_decide (wall b - ob ≤ wall a - oa))
  | None, None => Ok (bool_decide (wall b ≤ wall a))
  | _, _ => Raise TypeError
  end.

(** [d.replace(tzinfo=dt.timezone.utc)]. *)
Definition replace_tzinfo_utc (d : datetime) : datetime :=
  DateTime (wall d) (Some 0).

(** [dt.datetime.min.replace(tzinfo=dt.timezone.utc)]:
    0001-01-01T00:00:00+00:00. *)
Definition datetime_min_utc : datetime :=
  DateTime (-62135596800000000) (Some 0).

Definition microseconds_per_hour : Z := 3600000000.

(** [d - dt.timedelta(hours=h)]. *)
Definition minus_hours (d : datetime) (h : Z) : datetime :=
  DateTime (wall d - h * microseconds_per_hour) (tzinfo d).

(** [dt.datetime.now(dt.timezone.utc)] when the clock reads [now_utc]
    microseconds since the epoch. *)
Definition datetime_now_utc (now_utc : Z) : datetime :=
  DateTime now_utc (Some 0).

(** ** Library functions taken as an interface

    These are functions of Python's standard library whose bodies are not
    part of the repository.  Each field records the call it stands for. *)
Class PyLib := {
  (** [dt.datetime.fromisoformat(s)]; [None] is [ValueError]. *)
  fromisoformat : string → option datetime;
  (** [dt.datetime.strptime(s, "%d-%m-%Y")]: the wall clock of the naive
      result; [None] is [ValueError]. *)
  strptime_dmy : string → option Z;
  (** [dt.datetime.fromtimestamp(ms / 1000, tz=dt.timezone.utc)]: the
      instant in microseconds, or the exception for a value out of range. *)
  fromtimestamp_ms : Z → result Z;
  (** [d.strftime(fmt)]. *)
  strftime : datetime → string → string;
  (** The UTC offset of the system's local zone at a naive wall clock,
      which [astimezone] assumes for a naive receiver. *)
  local_utcoffset : Z → Z;
  (** [s.strip()]. *)
  strip : string → string;
  (** How an f-string renders a value that is not a [str]. *)
  format_value : json → string;
  (** [JOB_BLOCK_RE.finditer(text)]: the groups [(title, href, data)] of
      the successive matches. *)
  job_block_finditer : string → list (string * string * string);
  (** [html.unescape(s)]. *)
  html_unescape : string → string;
  (** [json.loads(s)]; [None] is [json.JSONDecodeError]. *)
  json_loads : string → option json;
  (** [re.search(r"/Date\((\d+)\)/", s)] followed by [int(m.group(1))];
      [None] when there is no match. *)
  search_Date : string → option Z;
  (** [math.ceil(t / s)] for integers [t] and [s], [s] not zero: the
      quotient is rounded to a float before the ceiling is taken, and
      [OverflowError] is raised when it is too large for a float. *)
  ceil_truediv : Z → Z → result Z;
}.

Section DatetimeOps.
Context `{PyLib}.

(** The wall clocks a [datetime] can hold: 0001-01-01T00:00:00 to
    9999-12-31T23:59:59.999999. *)
Definition datetime_min_wall : Z := -62135596800000000.
Definition datetime_max_wall : Z := 253402300799999999.

(** The UTC value for an instant, or [OverflowError] when the instant is
    not one a [datetime] can hold. *)
Definition utc_datetime (t : Z) : result datetime :=
  if bool_decide (datetime_min_wall ≤ t ≤ datetime_max_wall)
  then Ok (DateTime t (Some 0))
  else Raise OverflowError.

(** [d.astimezone(dt.timezone.utc)]: a value that is in UTC already is
    returned as it is; any other one is moved by its offset, which raises
    [OverflowError] when the result leaves the range of [datetime]. *)
Definition astimezone_utc (d : datetime) : result datetime :=
  match tzinfo d with
  | Some 0 => Ok d
  | Some off => utc_datetime (wall d - off)
  | None => utc_datetime (wall d - local_utcoffset (wall d))
  end.

(** An f-string field [{v}]. *)
Definition fstr (v : json) : string :=
  match v with
  | JStr s => s
  | _ => format_value v
  end.
End DatetimeOps.

(** ** The world: requests sent, files, and the two output streams *)

Inductive request :=
  | HaysRequest (skip top : Z)   (** POST to [LOAD_URL] with [Skip], [Top] *)
  | JudgeRequest (page : Z)       (** POST to [ENDPOINT] with [page] *)
  | HttpGet (url : string).       (** GET of a URL *)

(** A workbook as [openpyxl] holds it: the sheet's title, its rows of cell
    values, and the column widths that were set. *)
Record workbook := Workbook {
  sheet_title : string;
  sheet_rows : list (list json);
  column_widths : list (string * Z)
}.

Inductive file :=
  | TextFile (content : string)
  | XlsxFile (wb : workbook).

Record world := World {
  requests : list request;
  files : gmap string file;
  stdout : list string;
  stderr : list string
}.

(** A computation on the world.  The first component is [None] when a
    [while True] loop used up the fuel it was given, and otherwise the
    value returned or the exception raised. *)
Definition io (A : Type) : Type := world → option (result A) * world.

Global Instance io_ret : MRet io := λ A a w, (Some (Ok a), w).
Global Instance io_bind : MBind io := λ A B f m w,
  match m w with
  | (Some (Ok a), w') => f a w'
  | (Some (Raise e), w') => (Some (Raise e), w')
  | (None, w') => (None, w')
  end.

Definition lift {A} (r : result A) : io A := λ w, (Some r, w).
Definition out_of_fuel {A} : io A := λ w, (None, w).

(** One request: it is logged, and the remote side's answer (or the
    exception the transport raised) comes back. *)
Definition send {A} (rq : request) (answer : result A) : io A := λ w,
  (Some answer, World (requests w ++ [rq])%list (files w) (stdout w) (stderr w)).

(** [with open(path, "w") as f: f.write(content)] and [wb.save(path)]:
    the file at [path] is created or replaced.  File-system failures are
    not modelled. *)
Definition write_file (path : string) (f : file) : io unit := λ w,
  (Some (Ok ()), World (requests w) (<[path := f]> (files w)) (stdout w) (stderr w)).

Definition print (line : string) : io unit := λ w,
  (Some (Ok ()), World (requests w) (files w) (stdout w ++ [line])%list (stderr w)).

Definition print_stderr (line : string) : io unit := λ w,
  (Some (Ok ()), World (requests w) (files w) (stdout w) (stderr w ++ [line])%list).

(** [try: m  except <classes>: handler]. *)
Definition try_except {A} (m : io A) (catches : exn → bool)
    (handler : exn → io A) : io A := λ w,
  match m w with
  | (Some (Raise e), w') =>
      if catches e then handler e w' else (Some (Raise e), w')
  | other => other
  end.

(** ** Sorting and spreadsheet cells *)

Definition newline : string := String (ascii_of_nat 10) EmptyString.

Definition sentinel : string := "No jobs found in the last 24 hours.".

(** [filter(None, parts)] on strings: the non-empty ones. *)
Definition nonempty (parts : list string) : list string :=
  filter (λ s, s ≠ "") parts.

(** ["\n".join(lines) if lines else "No jobs found in the last 24 hours."] *)
Definition text_output (lines : list string) : string :=
  match lines with
  | [] => sentinel
  | _ => String.concat newline lines
  end.

(** A value stored in a cell by [ws.append]: [openpyxl] refuses a [list]
    or a [dict] with [ValueError].  (Its refusal of control characters in
    a string is not modelled.) *)
Definition xlsx_cell (v : json) : result json :=
  match v with
  | JList _ | JDict _ => Raise ValueError
  | _ => Ok v
  end.

Definition xlsx_row (cells : list json) : result (list json) :=
  mapM xlsx_cell cells.

(** [l.sort(key=..., reverse=True)].  Python computes every key first and
    then sorts stably on the keys with [<]; with [reverse=True] the order
    is descending and equal keys keep their original order.  Insertion
    from the right gives that list whenever the keys are comparable. *)
Section Sort.
Context {A : Type}.

Fixpoint insert_desc (x : datetime * A) (l : list (datetime * A))
    : result (list (datetime * A)) :=
  match l with
  | [] => Ok [x]
  | y :: rest =>
      b ← dt_lt (fst x) (fst y);
      if b : bool then (r ← insert_desc x rest; Ok (y :: r))
      else Ok (x :: y :: rest)
  end.

Fixpoint sort_keyed (l : list (datetime * A)) : result (list (datetime * A)) :=
  match l with
  | [] => Ok []
  | x :: rest => s ← sort_keyed rest; insert_desc x s
  end.

Definition sort_desc (key : A → result datetime) (l : list A) : result (list A) :=
  keyed ← mapM (λ x, k ← key x; Ok (k, x)) l;
  s ← sort_keyed keyed;
  Ok (map snd s).
End Sort.

(** [unique = []; for item in parts: if item not in unique: unique.append(item)] *)
Definition unique (parts : list string) : list string :=
  fold_left (λ (acc : list string) item,
               if bool_decide (item ∈ acc) then acc else (acc ++ [item])%list)
            parts [].

(** [for item in items: state = body(state, item)], stopping at the first
    exception. *)
Fixpoint for_each {A S : Type} (body : S → A → result S) (items : list A)
    (s : S) : result S :=
  match items with
  | [] => Ok s
  | item :: rest => s' ← body s item; for_each body rest s'
  end.

(** ** [hays_extract.py] *)
Module Hays.
Section Hays.
Context `{PyLib}.
(** What [fetch_page(opener, skip, top)] returns or raises. *)
Variable server : Z → Z → result json.

Definition BASE_URL : string :=
  "https://recruiting.ultipro.com/HAY1004HAUS/JobBoard/bebb31cb-327e-46b6-80a7-e0033ffa4653".

Definition fetch_page (skip top : Z) : io json :=
  send (HaysRequest skip top) (server skip top).

Definition parse_posted_date (raw : json) : result (option datetime) :=
  if negb (truthy raw) then Ok None
  else
    s ← str_receiver raw;
    match fromisoformat (replace_Z s) with
    | None => Ok None
    | Some parsed =>
        Ok (Some (match tzinfo parsed with
                  | Some _ => parsed
                  | None => replace_tzinfo_utc parsed
                  end))
    end.

(** One turn of the loop over [locations] in [format_locations]. *)
Definition location_label (parts : list string) (loc : json)
    : result (list string) :=
  address ← (a ← py_get loc "Address" JNull; Ok (py_or a (JDict [])));
  city ← (c ← py_get address "City" JNull; Ok (py_or c (JStr "")));
  state ← (st ← py_get address "State" JNull;
           code ← py_get (py_or st (JDict [])) "Code" JNull;
           if truthy code then Ok code
           else
             name ← py_get (py_or st (JDict [])) "Name" JNull;
             Ok (py_or name (JStr "")));
  label ← py_join ", " (filter (λ v, truthy v = true) [city; state]);
  desc ← (d ← py_get loc "LocalizedDescription" JNull; Ok (py_or d (JStr "")));
  label ← (if truthy desc then
             match desc with
             | JStr d =>
                 if str_contains d label then Ok label
                 else Ok (if String.eqb label "" then d
                          else label +:+ " (" +:+ d +:+ ")")
             | _ => Raise TypeError
             end
           else Ok label);
  Ok (if String.eqb label "" then parts else (parts ++ [label])%list).

Definition format_locations (locations : json) : result string :=
  items ← py_iter (py_or locations (JList []));
  parts ← for_each location_label items [];
  Ok (String.concat "; " (unique parts)).

(** The dictionary appended to [recent]. *)
Record job := Job {
  job_id : json;
  title : string;
  category : string;
  full_time : json;
  location : string;
  posted : datetime;
  requisition : json;
  url : string
}.

Definition make_job (j : json) (posted_dt : datetime) : result job :=
  i ← py_get j "Id" JNull;
  t ← (v ← py_get j "Title" JNull; s ← str_receiver (py_or v (JStr "")); Ok (strip s));
  c ← (v ← py_get j "JobCategoryName" JNull;
       s ← str_receiver (py_or v (JStr "")); Ok (strip s));
  ft ← py_get j "FullTime" JNull;
  loc ← (v ← py_get j "Locations" JNull; format_locations (py_or v (JList [])));
  r ← py_get j "RequisitionNumber" JNull;
  Ok (Job i t c ft loc posted_dt r
          (BASE_URL +:+ "/OpportunityDetail?opportunityId=" +:+ fstr i)).

(** The body of [for job in opportunities]. *)
Definition keep_recent (cutoff : datetime) (recent : list job) (j : json)
    : result (list job) :=
  raw ← py_get j "PostedDate" JNull;
  posted_dt ← parse_posted_date raw;
  match posted_dt with
  | None => Ok recent
  | Some d =>
      older ← dt_lt d cutoff;
      if older : bool then Ok recent
      else (r ← make_job j d; Ok (recent ++ [r])%list)
  end.

(** [for job in reversed(opportunities)]: the first date that parses,
    from the end of the page. *)
Fixpoint oldest_of (reversed : list json) : result (option datetime) :=
  match reversed with
  | [] => Ok None
  | j :: rest =>
      raw ← py_get j "PostedDate" JNull;
      d ← parse_posted_date raw;
      match d with
      | Some _ => Ok d
      | None => oldest_of rest
      end
  end.

(** [(oldest and oldest < cutoff) or (total is not None and skip >= total)] *)
Definition stop_paging (cutoff : datetime) (oldest : option datetime)
    (total : json) (skip : Z) : result bool :=
  past ← match oldest with
         | Some d => dt_lt d cutoff
         | None => Ok false
         end;
  if past : bool then Ok true
  else match total with
       | JNull => Ok false
       | _ => match as_int total with
              | Some t => Ok (bool_decide (t ≤ skip))
              | None => Raise TypeError
              end
       end.

Definition top : Z := 50.

(** The [while True] loop of [collect_recent_jobs], from the state
    [(skip, total, recent)]. *)
Fixpoint paginate (fuel : nat) (cutoff : datetime) (skip : Z) (total : json)
    (recent : list job) : io (list job) :=
  match fuel with
  | O => out_of_fuel
  | S fuel' =>
      data ← fetch_page skip top;
      opportunities ← lift (py_get data "opportunities" (JList []));
      if negb (truthy opportunities) then mret recent
      else
        total ← match total with
                | JNull => lift (py_get data "totalCount" (JInt 0))
                | _ => mret total
                end;
        items ← lift (py_iter opportunities);
        recent ← lift (for_each (keep_recent cutoff) items recent);
        oldest ← lift (oldest_of (rev items));
        stop ← lift (stop_paging cutoff oldest total (skip + top));
        if stop : bool then mret recent
        else paginate fuel' cutoff (skip + top) total recent
  end.

Definition collect_recent_jobs (fuel : nat) (cutoff : datetime) : io (list job) :=
  recent ← paginate fuel cutoff 0 JNull [];
  lift (sort_desc (λ j, Ok (posted j)) recent).

Definition text_line (j : job) : result string :=
  posted_utc ← astimezone_utc (posted j);
  let posted_str := strftime posted_utc "%Y-%m-%d %H:%M:%SZ" in
  let full_time := if truthy (full_time j) then "Full Time" else "Part Time/Other" in
  let summary := String.concat " | " (nonempty [location j; category j; full_time]) in
  Ok (title j +:+ " | " +:+ summary +:+ " | Posted: " +:+ posted_str +:+ " | "
      +:+ url j).

Definition write_text (jobs : list job) (path : string) : io unit :=
  lines ← lift (mapM text_line jobs);
  write_file path (TextFile (text_output lines)).

Definition excel_header : list json :=
  map JStr ["Title"; "Location"; "Category"; "Full Time"; "Posted (UTC)";
            "URL"; "Job ID"; "Requisition"].

(** The list handed to [ws.append] for a posting. *)
Definition excel_cells (j : job) : result (list json) :=
  posted_utc ← astimezone_utc (posted j);
  Ok [JStr (title j); JStr (location j); JStr (category j);
      JStr (if truthy (full_time j) then "Yes" else "No");
      JStr (strftime posted_utc "%Y-%m-%d %H:%M:%S");
      JStr (url j); job_id j; requisition j].

Definition excel_row (j : job) : result (list json) :=
  cells ← excel_cells j; xlsx_row cells.

Definition excel_widths : list (string * Z) :=
  [("A", 60); ("B", 35); ("C", 20); ("D", 10); ("E", 20); ("F", 70); ("G", 36)].

Definition write_excel (jobs : list job) (path : string) : io unit :=
  rows ← lift (mapM excel_row jobs);
  write_file path
    (XlsxFile (Workbook "Hays Jobs (24h)" (excel_header :: rows) excel_widths)).

Definition txt_path : string := "hays_jobs_last_24h.txt".
Definition xlsx_path : string := "hays_jobs_last_24h.xlsx".

(** [main], when the clock reads [now_utc] at its first line. *)
Definition main (fuel : nat) (now_utc : Z) : io unit :=
  let cutoff := minus_hours (datetime_now_utc now_utc) (10 * 24) in
  jobs ← collect_recent_jobs fuel cutoff;
  _ ← write_text jobs txt_path;
  _ ← write_excel jobs xlsx_path;
  print ("Wrote " +:+ pretty (length jobs) +:+
         " Hays jobs to hays_jobs_last_24h.txt and hays_jobs_last_24h.xlsx").
End Hays.
End Hays.

(** ** [judge_extract.py] *)
Module Judge.
Section Judge.
Context `{PyLib}.
(** What [fetch_page(page)] returns or raises. *)
Variable server : Z → result json.

Definition fetch_page (page : Z) : io json :=
  send (JudgeRequest page) (server page).

(** [parse_opened(ts_ms)]: the division [ts_ms / 1000] wants a number. *)
Definition parse_opened (ts_ms : json) : result datetime :=
  match as_int ts_ms with
  | Some ms => t ← fromtimestamp_ms ms; Ok (DateTime t (Some 0))
  | None => Raise TypeError
  end.

Record job := Job {
  job_id : json;
  title : string;
  location : string;
  type : string;
  category : string;
  salary : string;
  opened : datetime;
  url : string
}.

(** [(v or "").strip()] *)
Definition or_empty_strip (v : json) : result string :=
  s ← str_receiver (py_or v (JStr "")); Ok (strip s).

Definition make_job (j : json) (opened_dt : datetime) : result job :=
  i ← py_get j "jobOrderId" JNull;
  t ← (v ← py_get j "title" (JStr ""); s ← str_receiver v; Ok (strip s));
  l ← (v ← py_get j "location" JNull; or_empty_strip v);
  ty ← (v ← py_get j "type" JNull; or_empty_strip v);
  c ← (cat ← py_get j "category" (JDict []);
       v ← py_get cat "description" JNull; or_empty_strip v);
  s ← (v ← py_get j "salary" JNull; or_empty_strip v);
  Ok (Job i t l ty c s opened_dt
          ("https://www.judge.com/jobs/details/" +:+ fstr i +:+ "/")).

(** The body of [for job in hits]. *)
Definition keep_recent (cutoff : datetime) (recent : list job) (j : json)
    : result (list job) :=
  ts ← py_getitem j "opened";
  opened_dt ← parse_opened ts;
  fresh ← dt_ge opened_dt cutoff;
  if fresh : bool then (r ← make_job j opened_dt; Ok (recent ++ [r])%list)
  else Ok recent.

(** [math.ceil(total / size) if size else 0]: the division wants two
    numbers, and the library computes the rest. *)
Definition max_pages_of (total size : json) : result Z :=
  if truthy size then
    match as_int total, as_int size with
    | Some t, Some s => ceil_truediv t s
    | _, _ => Raise TypeError
    end
  else Ok 0.

(** The [while True] loop of [collect_recent_jobs], from the state
    [(page, recent)]. *)
Fixpoint paginate (fuel : nat) (cutoff : datetime) (page : Z)
    (recent : list job) : io (list job) :=
  match fuel with
  | O => out_of_fuel
  | S fuel' =>
      data ← fetch_page page;
      hits ← lift (py_get data "hits" (JList []));
      if negb (truthy hits) then mret recent
      else
        items ← lift (py_iter hits);
        recent ← lift (for_each (keep_recent cutoff) items recent);
        oldest ← lift (lst ← py_last hits; ts ← py_getitem lst "opened";
                       parse_opened ts);
        total ← lift (py_get data "total" (JInt 0));
        size ← lift (py_get data "size" (JInt 20));
        max_pages ← lift (max_pages_of total size);
        past ← lift (dt_lt oldest cutoff);
        if (past : bool) || (negb (max_pages =? 0) && bool_decide (max_pages ≤ page + 1))
        then mret recent
        else paginate fuel' cutoff (page + 1) recent
  end.

Definition collect_recent_jobs (fuel : nat) (cutoff : datetime) : io (list job) :=
  recent ← paginate fuel cutoff 0 [];
  lift (sort_desc (λ j, Ok (opened j)) recent).

Definition text_line (j : job) : string :=
  let posted_str := strftime (opened j) "%Y-%m-%d %H:%M:%SZ" in
  let summary := String.concat " | " (nonempty [location j; type j; category j]) in
  title j +:+ " | " +:+ summary +:+ " | Posted: " +:+ posted_str +:+ " | " +:+ url j.

Definition write_text (jobs : list job) (path : string) : io unit :=
  write_file path (TextFile (text_output (map text_line jobs))).

Definition excel_header : list json :=
  map JStr ["Title"; "Location"; "Type"; "Category"; "Salary"; "Posted (UTC)";
            "URL"; "Job ID"].

(** The list handed to [ws.append] for a posting. *)
Definition excel_cells (j : job) : list json :=
  [JStr (title j); JStr (location j); JStr (type j); JStr (category j);
   JStr (salary j); JStr (strftime (opened j) "%Y-%m-%d %H:%M:%S");
   JStr (url j); job_id j].

Definition excel_row (j : job) : result (list json) :=
  xlsx_row (excel_cells j).

Definition excel_widths : list (string * Z) :=
  [("A", 60); ("B", 30); ("C", 15); ("D", 25); ("E", 15); ("F", 20); ("G", 70)].

Definition write_excel (jobs : list job) (path : string) : io unit :=
  rows ← lift (mapM excel_row jobs);
  write_file path
    (XlsxFile (Workbook "Judge Jobs (24h)" (excel_header :: rows) excel_widths)).

Definition txt_path : string := "judge_jobs_last_24h.txt".
Definition xlsx_path : string := "judge_jobs_last_24h.xlsx".

Definition main (fuel : nat) (now_utc : Z) : io unit :=
  let cutoff := minus_hours (datetime_now_utc now_utc) 24 in
  jobs ← collect_recent_jobs fuel cutoff;
  _ ← write_text jobs txt_path;
  _ ← write_excel jobs xlsx_path;
  print ("Wrote " +:+ pretty (length jobs) +:+
         " Judge jobs to judge_jobs_last_24h.txt and judge_jobs_last_24h.xlsx").
End Judge.
End Judge.

(** ** [job_extract.py] (Insight Global) *)
Module JobExtract.
Section JobExtract.
Context `{PyLib}.
(** What [fetch(url)] returns or raises. *)
Variable web : string → result string.

Definition SEARCH_TERM : string := "a".
Definition MAX_PAGES : nat := 50.

(** [BASE_URL.format(page=page_path)] with
    [page_path = "" if page == 1 else f"{page}/"]. *)
Definition page_url (page : nat) : string :=
  "https://jobs.insightglobal.com/find_a_job/" +:+
  (if Nat.eqb page 1 then "" else pretty page +:+ "/") +:+
  "/?orderby=recent&filterby=all&miles=False&remote=False&srch=" +:+ SEARCH_TERM.

Definition fetch (url : string) : io string :=
  send (HttpGet url) (web url).

(** The [(title, href, meta)] tuples of a page; a block whose JSON does
    not decode is skipped. *)
Definition parse_jobs (html_text : string) : list (string * string * json) :=
  omap (λ m : string * string * string,
          let '(title, href, data) := m in
          meta ← json_loads (html_unescape data);
          Some (title, href, meta))
       (job_block_finditer html_text).

(** [re.search] wants a [str]. *)
Definition parse_posted_date (raw : json) : result (option datetime) :=
  match raw with
  | JStr s =>
      match search_Date s with
      | None => Ok None
      | Some ts_ms => t ← fromtimestamp_ms ts_ms; Ok (Some (DateTime t (Some 0)))
      end
  | _ => Raise TypeError
  end.

Record job := Job {
  title : string;
  href : string;
  city : json;
  state : json;
  job_type : string;
  posted : datetime;
  job_id : json;
  salary_low : json;
  salary_high : json
}.

Definition make_job (title href : string) (meta : json) (posted_dt : datetime)
    : result job :=
  c ← py_get meta "City" (JStr "");
  st ← py_get meta "State" (JStr "");
  jt ← (v ← py_get meta "JobType" (JList []); items ← py_iter v; py_join ", " items);
  i ← py_get meta "JobID" JNull;
  lo ← py_get meta "SalaryLow" JNull;
  hi ← py_get meta "SalaryHigh" JNull;
  Ok (Job (strip title) ("https://jobs.insightglobal.com" +:+ href)
          c st jt posted_dt i lo hi).

(** The body of [for title, href, meta in jobs_on_page], on the state
    [(page_has_newer, recent)]. *)
Definition keep_recent (cutoff : datetime) (st : bool * list job)
    (entry : string * string * json) : result (bool * list job) :=
  let '(title, href, meta) := entry in
  raw ← py_get meta "PostedDate" (JStr "");
  posted_dt ← parse_posted_date raw;
  match posted_dt with
  | None => Ok st
  | Some d =>
      older ← dt_lt d cutoff;
      if older : bool then Ok st
      else (r ← make_job title href meta d; Ok (true, (snd st ++ [r])%list))
  end.

(** The [for page in range(1, MAX_PAGES + 1)] loop over the pages that
    are left. *)
Fixpoint scrape_pages (cutoff : datetime) (pages : list nat)
    (recent : list job) : io (list job) :=
  match pages with
  | [] => mret recent
  | page :: rest =>
      fetched ← try_except
                  (html_text ← fetch (page_url page); mret (Some html_text))
                  is_URLError
                  (λ exc, _ ← print_stderr ("Failed to fetch page " +:+ pretty page
                                             +:+ ": " +:+ exn_str exc);
                          mret None);
      match fetched with
      | None => mret recent
      | Some html_text =>
          match parse_jobs html_text with
          | [] => mret recent
          | jobs_on_page =>
              st ← lift (for_each (keep_recent cutoff) jobs_on_page (false, recent));
              if negb (fst st) then mret (snd st)
              else scrape_pages cutoff rest (snd st)
          end
      end
  end.

Definition scrape_recent_jobs (cutoff : datetime) : io (list job) :=
  recent ← scrape_pages cutoff (seq 1 MAX_PAGES) [];
  lift (sort_desc (λ j, Ok (posted j)) recent).

(** [", ".join(filter(None, [job["city"], job["state"]]))] *)
Definition location_of (j : job) : result string :=
  py_join ", " (filter (λ v, truthy v = true) [city j; state j]).

Definition text_line (j : job) : result string :=
  posted_utc ← astimezone_utc (posted j);
  let posted_str := strftime posted_utc "%Y-%m-%d %H:%M:%SZ" in
  location ← location_of j;
  Ok (title j +:+ " | " +:+ location +:+ " | " +:+ job_type j +:+ " | " +:+
      "Posted: " +:+ posted_str +:+ " | " +:+ href j).

Definition write_output (jobs : list job) (path : string) : io unit :=
  lines ← lift (mapM text_line jobs);
  write_file path (TextFile (text_output lines)).

Definition excel_header : list json :=
  map JStr ["Title"; "Location"; "Job Type"; "Posted (UTC)"; "URL"; "Job ID";
            "Salary Low"; "Salary High"].

(** The list handed to [ws.append] for a posting. *)
Definition excel_cells (j : job) : result (list json) :=
  location ← location_of j;
  posted_utc ← astimezone_utc (posted j);
  Ok [JStr (title j); JStr location; JStr (job_type j);
      JStr (strftime posted_utc "%Y-%m-%d %H:%M:%S");
      JStr (href j); job_id j; salary_low j; salary_high j].

Definition excel_row (j : job) : result (list json) :=
  cells ← excel_cells j; xlsx_row cells.

Definition excel_widths : list (string * Z) :=
  [("A", 60); ("B", 25); ("C", 18); ("D", 20); ("E", 60); ("F", 10);
   ("G", 12); ("H", 12)].

Definition write_excel (jobs : list job) (path : string) : io unit :=
  rows ← lift (mapM excel_row jobs);
  write_file path
    (XlsxFile (Workbook "Jobs (last 24h)" (excel_header :: rows) excel_widths)).

Definition txt_path : string := "jobs_last_24h.txt".
Definition xlsx_path : string := "jobs_last_24h.xlsx".

Definition main (now_utc : Z) : io unit :=
  let cutoff := minus_hours (datetime_now_utc now_utc) 24 in
  jobs ← scrape_recent_jobs cutoff;
  _ ← write_output jobs txt_path;
  _ ← write_excel jobs xlsx_path;
  print ("Wrote " +:+ pretty (length jobs) +:+
         " jobs to jobs_last_24h.txt and jobs_last_24h.xlsx").
End JobExtract.
End JobExtract.

(** ** [yoh_extract.py] *)
Module Yoh.
Section Yoh.
Context `{PyLib}.
(** What [fetch_jobs()] returns or raises. *)
Variable server : result json.

Definition ENDPOINT : string :=
  "https://shazamme.io/Job-Listing/src/php/actions?dudaSiteID=4b57ce0f&action=Get%20Jobs".

Definition fetch_jobs : io json := send (HttpGet ENDPOINT) server.

(** [parse_timestamp(job)]: only [ValueError] is caught in either
    [try] block. *)
Definition parse_timestamp (j : json) : result (option datetime) :=
  data ← py_getitem j "data";
  v ← py_get data "changedOnUTC" JNull;
  let ts := py_or v (JStr "") in
  iso ← (if truthy ts then
           s ← str_receiver ts;
           match fromisoformat (replace_Z s) with
           | Some dt_obj =>
               Ok (Some (match tzinfo dt_obj with
                         | Some _ => dt_obj
                         | None => replace_tzinfo_utc dt_obj
                         end))
           | None => Ok None
           end
         else Ok None);
  match iso with
  | Some d => Ok (Some d)
  | None =>
      data ← py_getitem j "data";
      v ← py_get data "postedDate" JNull;
      let posted := py_or v (JStr "") in
      if truthy posted then
        match posted with
        | JStr s =>
            match strptime_dmy s with
            | Some w => Ok (Some (replace_tzinfo_utc (DateTime w None)))
            | None => Ok None
            end
        | _ => Raise TypeError
        end
      else Ok None
  end.

(** The body of [for job in all_jobs] in [main]. *)
Definition keep_recent (cutoff : datetime) (recent : list json) (j : json)
    : result (list json) :=
  ts ← parse_timestamp j;
  match ts with
  | None => Ok recent
  | Some d =>
      fresh ← dt_ge d cutoff;
      if fresh : bool then Ok (recent ++ [j])%list else Ok recent
  end.

(** [parse_timestamp(j) or dt.datetime.min.replace(tzinfo=dt.timezone.utc)] *)
Definition sort_key (j : json) : result datetime :=
  ts ← parse_timestamp j; Ok (default datetime_min_utc ts).

(** [", ".join([part for part in (city, state, country) if part])] *)
Definition location_of (data : json) : result string :=
  c ← py_get data "city" JNull;
  s ← py_get data "state" JNull;
  k ← py_get data "country" JNull;
  py_join ", " (filter (λ v, truthy v = true) [c; s; k]).

(** [posted_dt.astimezone(dt.timezone.utc).strftime(fmt) if posted_dt else ""] *)
Definition posted_str_of (posted_dt : option datetime) (fmt : string)
    : result string :=
  match posted_dt with
  | Some d => posted_utc ← astimezone_utc d; Ok (strftime posted_utc fmt)
  | None => Ok ""
  end.

Definition text_line (j : json) : result string :=
  data ← py_getitem j "data";
  posted_dt ← parse_timestamp j;
  posted_str ← posted_str_of posted_dt "%Y-%m-%d %H:%M:%SZ";
  location ← location_of data;
  name ← py_get data "jobName" (JStr "");
  work ← py_get data "workType" (JStr "");
  link ← py_get data "jobURL" JNull;
  Ok (fstr name +:+ " | " +:+ location +:+ " | " +:+ fstr work +:+ " | " +:+
      "Posted: " +:+ posted_str +:+ " | " +:+ fstr (py_or link (JStr ""))).

Definition write_text (jobs : list json) (path : string) : io unit :=
  lines ← lift (mapM text_line jobs);
  write_file path (TextFile (text_output lines)).

Definition excel_header : list json :=
  map JStr ["Title"; "Location"; "Work Type"; "Posted (UTC)"; "URL"; "Job ID";
            "Reference"].

(** The list handed to [ws.append] for a posting. *)
Definition excel_cells (j : json) : result (list json) :=
  data ← py_getitem j "data";
  posted_dt ← parse_timestamp j;
  posted_str ← posted_str_of posted_dt "%Y-%m-%d %H:%M:%S";
  location ← location_of data;
  name ← py_get data "jobName" JNull;
  work ← py_get data "workType" JNull;
  link ← py_get data "jobURL" JNull;
  i ← py_get data "jobID" JNull;
  ref ← py_get data "referenceNumber" JNull;
  Ok [name; JStr location; work; JStr posted_str; link; i; ref].

Definition excel_row (j : json) : result (list json) :=
  cells ← excel_cells j; xlsx_row cells.

Definition excel_widths : list (string * Z) :=
  [("A", 60); ("B", 30); ("C", 15); ("D", 20); ("E", 70)].

Definition write_excel (jobs : list json) (path : string) : io unit :=
  rows ← lift (mapM excel_row jobs);
  write_file path
    (XlsxFile (Workbook "Yoh Jobs (24h)" (excel_header :: rows) excel_widths)).

Definition txt_path : string := "yoh_jobs_last_24h.txt".
Definition xlsx_path : string := "yoh_jobs_last_24h.xlsx".

(** The postings [main] keeps and sorts, before it writes them. *)
Definition recent_jobs (cutoff : datetime) : io (list json) :=
  all_jobs ← fetch_jobs;
  items ← lift (py_iter all_jobs);
  recent ← lift (for_each (keep_recent cutoff) items []);
  lift (sort_desc sort_key recent).

Definition main (now_utc : Z) : io unit :=
  let now := datetime_now_utc now_utc in
  let cutoff := minus_hours now 24 in
  recent ← recent_jobs cutoff;
  _ ← write_text recent txt_path;
  _ ← write_excel recent xlsx_path;
  print ("Wrote " +:+ pretty (length recent) +:+
         " Yoh jobs to yoh_jobs_last_24h.txt and yoh_jobs_last_24h.xlsx").
End Yoh.
End Yoh.


(** ** Vocabulary of the properties *)

(** [a] is at or after [b] on the UTC time line; both are aware. *)
Definition newer_or_equal (a b : datetime) : Prop :=
  ∃ ta tb, utc_instant a = Some ta ∧ utc_instant b = Some tb ∧ tb ≤ ta.

(** [a] is strictly before [b] on the UTC time line; both are aware. *)
Definition older_than (a b : datetime) : Prop :=
  ∃ ta tb, utc_instant a = Some ta ∧ utc_instant b = Some tb ∧ ta < tb.

(** The world after one more request, everything else untouched. *)
Definition after_request (w : world) (rq : request) : world :=
  World (requests w ++ [rq])%list (files w) (stdout w) (stderr w).

(** The order of a list of [(key, item)] pairs, newest key first. *)
Definition keyed_desc {A : Type} : relation (datetime * A) :=
  λ x y, newer_or_equal (fst x) (fst y).

(** A computation leaves a component of the world as it found it,
    whatever it returns. *)
Definition preserves {A B : Type} (proj : world → B) (m : io A) : Prop :=
  ∀ w, proj (snd (m w)) = proj w.

Section Outputs.
Context `{PyLib}.

(** The cutoffs [main] computes from the clock. *)
Definition hays_cutoff (now_utc : Z) : datetime :=
  minus_hours (datetime_now_utc now_utc) (10 * 24).
Definition day_cutoff (now_utc : Z) : datetime :=
  minus_hours (datetime_now_utc now_utc) 24.

(** The two output files of a script hold the rendering of [jobs], in the
    order of the list. *)
Definition hays_output (w : world) (jobs : list Hays.job) : Prop :=
  (∃ lines, mapM Hays.text_line jobs = Ok lines ∧
     files w !! "hays_jobs_last_24h.txt" = Some (TextFile (text_output lines))) ∧
  ∃ rows, mapM Hays.excel_row jobs = Ok rows ∧
    files w !! "hays_jobs_last_24h.xlsx"
      = Some (XlsxFile (Workbook "Hays Jobs (24h)" (Hays.excel_header :: rows)
                                 Hays.excel_widths)).

Definition judge_output (w : world) (jobs : list Judge.job) : Prop :=
  files w !! "judge_jobs_last_24h.txt"
    = Some (TextFile (text_output (map Judge.text_line jobs))) ∧
  ∃ rows, mapM Judge.excel_row jobs = Ok rows ∧
    files w !! "judge_jobs_last_24h.xlsx"
      = Some (XlsxFile (Workbook "Judge Jobs (24h)" (Judge.excel_header :: rows)
                                 Judge.excel_widths)).

Definition insight_output (w : world) (jobs : list JobExtract.job) : Prop :=
  (∃ lines, mapM JobExtract.text_line jobs = Ok lines ∧
     files w !! "jobs_last_24h.txt" = Some (TextFile (text_output lines))) ∧
  ∃ rows, mapM JobExtract.excel_row jobs = Ok rows ∧
    files w !! "jobs_last_24h.xlsx"
      = Some (XlsxFile (Workbook "Jobs (last 24h)" (JobExtract.excel_header :: rows)
                                 JobExtract.excel_widths)).

Definition yoh_output (w : world) (jobs : list json) : Prop :=
  (∃ lines, mapM Yoh.text_line jobs = Ok lines ∧
     files w !! "yoh_jobs_last_24h.txt" = Some (TextFile (text_output lines))) ∧
  ∃ rows, mapM Yoh.excel_row jobs = Ok rows ∧
    files w !! "yoh_jobs_last_24h.xlsx"
      = Some (XlsxFile (Workbook "Yoh Jobs (24h)" (Yoh.excel_header :: rows)
                                 Yoh.excel_widths)).
End Outputs.

(** The files after [path1] and then [path2] were written over [fs]. *)
Definition two_files_written (fs fs' : gmap string file) (txt xlsx : string) : Prop :=
  ∃ content wb, fs' = <[xlsx := XlsxFile wb]> (<[txt := TextFile content]> fs).

(** ** Fixtures

    A small stand-in for the library interface and canned remote sides,
    used to run the model on concrete inputs. *)

Fixpoint table_lookup {A : Type} (k : string) (t : list (string * A)) : option A :=
  match t with
  | [] => None
  | (k', v) :: rest => if String.eqb k k' then Some v else table_lookup k rest
  end.

Fixpoint lstrip_spaces (s : string) : string :=
  match s with
  | String c rest => if Ascii.eqb c " "%char then lstrip_spaces rest else s
  | EmptyString => EmptyString
  end.

Definition reverse_string (s : string) : string :=
  string_of_list_ascii (rev (list_ascii_of_string s)).

Definition strip_spaces (s : string) : string :=
  reverse_string (lstrip_spaces (reverse_string (lstrip_spaces s))).

Definition sample_format_value (v : json) : string :=
  match v with
  | JNull => "None"
  | JBool true => "True"
  | JBool false => "False"
  | JInt n => pretty n
  | JStr s => s
  | JList _ => "[...]"
  | JDict _ => "{...}"
  end.

(** The clock of the sample runs: 2024-05-03T12:00:00Z. *)
Definition sample_now : Z := 1714737600000000.

Definition sample_iso_table : list (string * datetime) :=
  [ ("2024-05-03T09:30:00+00:00", DateTime 1714728600000000 (Some 0));
    ("2024-05-03T11:00:00", DateTime 1714734000000000 None);
    ("2024-04-30T08:00:00+00:00", DateTime 1714464000000000 (Some 0));
    ("2024-04-01T00:00:00+00:00", DateTime 1711929600000000 (Some 0)) ].

Definition sample_dmy_table : list (string * Z) :=
  [ ("03-05-2024", 1714694400000000); ("01-04-2024", 1711929600000000) ].

Definition sample_Date_table : list (string * Z) :=
  [ ("/Date(1714728600000)/", 1714728600000);
    ("/Date(1711929600000)/", 1711929600000) ].

(** Milliseconds that [fromtimestamp] accepts: years 1 to 9999. *)
Definition sample_fromtimestamp_ms (ms : Z) : result Z :=
  if bool_decide (-62135596800000 ≤ ms ≤ 253402300799999) then Ok (ms * 1000)
  else Raise OverflowError.

Definition sample_blocks : list (string * list (string * string * string)) :=
  [ ("<page 1>", [ (" Data Engineer ", "/jobs/41", "meta-fresh");
                   ("Broken", "/jobs/42", "{not json");
                   ("Analyst", "/jobs/43", "meta-undated") ]);
    ("<page 2>", [ ("Clerk", "/jobs/7", "meta-old") ]) ].

Definition sample_json_table : list (string * json) :=
  [ ("meta-fresh", JDict [("PostedDate", JStr "/Date(1714728600000)/");
                          ("City", JStr "Austin"); ("State", JStr "TX");
                          ("JobType", JList [JStr "Contract"]); ("JobID", JInt 41)]);
    ("meta-undated", JDict [("City", JStr "Reno")]);
    ("meta-old", JDict [("PostedDate", JStr "/Date(1711929600000)/")]) ].

(** The page count for numbers below 2^52 in size, where the float
    quotient has the exact ceiling; larger ones are refused here. *)
Definition sample_ceil_truediv (t s : Z) : result Z :=
  if bool_decide (Z.abs t < 2 ^ 52 ∧ Z.abs s < 2 ^ 52) then Ok (- ((- t) `div` s))
  else Raise OverflowError.

Definition sample_lib : PyLib := {|
  fromisoformat := λ s, table_lookup s sample_iso_table;
  strptime_dmy := λ s, table_lookup s sample_dmy_table;
  fromtimestamp_ms := sample_fromtimestamp_ms;
  strftime := λ d fmt, fmt +:+ "@" +:+ pretty (wall d);
  local_utcoffset := λ _, 0;
  strip := strip_spaces;
  format_value := sample_format_value;
  job_block_finditer := λ text, default [] (table_lookup text sample_blocks);
  html_unescape := λ s, s;
  json_loads := λ s, table_lookup s sample_json_table;
  search_Date := λ s, table_lookup s sample_Date_table;
  ceil_truediv := sample_ceil_truediv
|}.

Definition empty_world : world := World [] ∅ [] [].

(** A Hays board of three postings: a fresh one, one without a date, and
    one from a month before. *)
Definition sample_hays_records : list json :=
  [ JDict [("Id", JStr "a1"); ("Title", JStr " Site Manager ");
           ("PostedDate", JStr "2024-05-03T09:30:00Z");
           ("FullTime", JBool true);
           ("Locations",
            JList [JDict [("Address",
                           JDict [("City", JStr "Tampa");
                                  ("State", JDict [("Code", JStr "FL")])])]])];
    JDict [("Id", JStr "a2"); ("Title", JStr "Undated")];
    JDict [("Id", JStr "a3"); ("Title", JStr "Old");
           ("PostedDate", JStr "2024-04-01T00:00:00Z")] ].

Definition sample_hays_page : json :=
  JDict [ ("opportunities", JList sample_hays_records); ("totalCount", JInt 120) ].

Definition sample_hays_server (skip top : Z) : result json :=
  if (skip =? 0)%Z then Ok sample_hays_page else Ok (JDict [("opportunities", JList [])]).

(** A Judge board: a fresh posting, then one from a month before. *)
Definition sample_judge_records : list json :=
  [ JDict [("jobOrderId", JInt 900); ("title", JStr "Welder");
           ("opened", JInt 1714728600000)];
    JDict [("jobOrderId", JInt 901); ("title", JStr "Fitter");
           ("opened", JInt 1711929600000)] ].

Definition sample_judge_page : json :=
  JDict [ ("hits", JList sample_judge_records); ("total", JInt 2); ("size", JInt 20) ].

Definition sample_judge_server (page : Z) : result json :=
  if (page =? 0)%Z then Ok sample_judge_page else Ok (JDict [("hits", JList [])]).

(** The Insight Global site: a first page, and a connection that fails on
    the second. *)
Definition sample_web (url : string) : result string :=
  if String.eqb url (JobExtract.page_url 1) then Ok "<page 1>"
  else Raise (URLError "timed out").

(** The Yoh feed: a fresh posting, one dated by [postedDate] only, one
    without any date. *)
Definition sample_yoh_feed : json :=
  JList [ JDict [("data", JDict [("jobName", JStr "Tester");
                                 ("changedOnUTC", JStr "2024-05-03T09:30:00Z")])];
          JDict [("data", JDict [("jobName", JStr "Buyer");
                                 ("postedDate", JStr "03-05-2024")])];
          JDict [("data", JDict [("jobName", JStr "Undated")])] ].

(** The four sample runs, from an empty world. *)
Definition sample_hays_run : option (result ()) * world :=
  Hays.main (H:=sample_lib) sample_hays_server 3 sample_now empty_world.
Definition sample_judge_run : option (result ()) * world :=
  Judge.main (H:=sample_lib) sample_judge_server 3 sample_now empty_world.
Definition sample_insight_run : option (result ()) * world :=
  JobExtract.main (H:=sample_lib) sample_web sample_now empty_world.
Definition sample_yoh_run : option (result ()) * world :=
  Yoh.main (H:=sample_lib) (Ok sample_yoh_feed) sample_now empty_world.

(** A Hays run whose first request fails in the transport. *)
Definition unreachable_hays_server (skip top : Z) : result json :=
  Raise (URLError "unreachable").
Definition unreachable_hays_run : option (result ()) * world :=
  Hays.main (H:=sample_lib) unreachable_hays_server 3 sample_now empty_world.

Section Pages.
Context `{PyLib}.

(** A fetched page yields no posting record. *)
Definition hays_page_empty (data : json) : Prop :=
  ∃ opportunities,
    py_get data "opportunities" (JList []) = Ok opportunities ∧
    truthy opportunities = false.

Definition judge_page_empty (data : json) : Prop :=
  ∃ hits, py_get data "hits" (JList []) = Ok hits ∧ truthy hits = false.

(** Every record of a fetched page carries a timestamp, and each one is
    before the cutoff. *)
Definition hays_record_older (cutoff : datetime) (j : json) : Prop :=
  ∃ raw d, py_get j "PostedDate" JNull = Ok raw ∧
           Hays.parse_posted_date raw = Ok (Some d) ∧ older_than d cutoff.

Definition hays_page_all_older (cutoff : datetime) (data : json) : Prop :=
  ∃ items, py_get data "opportunities" (JList []) = Ok (JList items) ∧
           items ≠ [] ∧ Forall (hays_record_older cutoff) items.

Definition judge_record_older (cutoff : datetime) (j : json) : Prop :=
  ∃ ts d, py_getitem j "opened" = Ok ts ∧
          Judge.parse_opened ts = Ok d ∧ older_than d cutoff.

Definition judge_page_all_older (cutoff : datetime) (data : json) : Prop :=
  ∃ items, py_get data "hits" (JList []) = Ok (JList items) ∧
           items ≠ [] ∧ Forall (judge_record_older cutoff) items.

(** The page count the Judge loop computes from a page, or the exception
    that computing it raises. *)
Definition judge_page_count (data : json) : result Z :=
  total ← py_get data "total" (JInt 0);
  size ← py_get data "size" (JInt 20);
  Judge.max_pages_of total size.

Definition insight_record_older (cutoff : datetime)
    (entry : string * string * json) : Prop :=
  ∃ raw d, py_get (snd entry) "PostedDate" (JStr "") = Ok raw ∧
           JobExtract.parse_posted_date raw = Ok (Some d) ∧ older_than d cutoff.

Definition insight_page_all_older (cutoff : datetime) (html_text : string) : Prop :=
  JobExtract.parse_jobs html_text ≠ [] ∧
  Forall (insight_record_older cutoff) (JobExtract.parse_jobs html_text).
End Pages.

(** A Judge page whose only posting is a month old, and a server that
    would go on serving it for ever. *)
Definition stale_judge_page : json :=
  JDict [ ("hits", JList [ JDict [("jobOrderId", JInt 901); ("title", JStr "Fitter");
                                  ("opened", JInt 1711929600000)] ]) ].
Definition stale_judge_server (page : Z) : result json := Ok stale_judge_page.

(** What is left of a run after the collection: the two writers and the
    closing [print] send no request. *)
Definition rest_of_run_sends_nothing `{PyLib} : Prop :=
  (∀ jobs path line,
     preserves requests (Hays.write_text jobs path) ∧
     preserves requests (Hays.write_excel jobs path) ∧
     preserves requests (print line)) ∧
  (∀ jobs path,
     preserves requests (Judge.write_text jobs path) ∧
     preserves requests (Judge.write_excel jobs path)) ∧
  (∀ jobs path,
     preserves requests (JobExtract.write_output jobs path) ∧
     preserves requests (JobExtract.write_excel jobs path)).

(** A computation sends at most [n] requests, whatever it returns. *)
Definition sends_at_most {A : Type} (n : nat) (m : io A) : Prop :=
  ∀ w, (length (requests (snd (m w))) ≤ length (requests w) + n)%nat.



(** The posting each endless page adds to what was collected. *)
Definition endless_judge_job : Judge.job :=
  Judge.Job JNull "" "" "" "" "" (DateTime 1714728600000000 (Some 0))
            "https://www.judge.com/jobs/details/None/".


(** A computation returns or raises from every world: it never runs out
    of fuel. *)
Definition always_ends {A : Type} (m : io A) : Prop :=
  ∀ w, is_Some (fst (m w)).

Section Fresh.
Context `{PyLib}.

(** A record qualifies: its timestamp parses and is not before the
    cutoff, as the script's own comparison decides it. *)
Definition hays_fresh (cutoff : datetime) (j : json) : bool :=
  match raw ← py_get j "PostedDate" JNull; Hays.parse_posted_date raw with
  | Ok (Some d) => match dt_lt d cutoff with Ok false => true | _ => false end
  | _ => false
  end.

Definition judge_fresh (cutoff : datetime) (j : json) : bool :=
  match ts ← py_getitem j "opened"; Judge.parse_opened ts with
  | Ok d => match dt_ge d cutoff with Ok true => true | _ => false end
  | _ => false
  end.

Definition insight_fresh (cutoff : datetime) (entry : string * string * json) : bool :=
  match raw ← py_get (snd entry) "PostedDate" (JStr "");
        JobExtract.parse_posted_date raw with
  | Ok (Some d) => match dt_lt d cutoff with Ok false => true | _ => false end
  | _ => false
  end.

(** [r] is the posting the script builds from the record [j]. *)
Definition hays_posting_of (j : json) (r : Hays.job) : Prop :=
  ∃ raw d, py_get j "PostedDate" JNull = Ok raw ∧
           Hays.parse_posted_date raw = Ok (Some d) ∧ Hays.make_job j d = Ok r.

Definition judge_posting_of (j : json) (r : Judge.job) : Prop :=
  ∃ ts d, py_getitem j "opened" = Ok ts ∧
          Judge.parse_opened ts = Ok d ∧ Judge.make_job j d = Ok r.

Definition insight_posting_of (entry : string * string * json)
    (r : JobExtract.job) : Prop :=
  ∃ raw d, py_get (snd entry) "PostedDate" (JStr "") = Ok raw ∧
           JobExtract.parse_posted_date raw = Ok (Some d) ∧
           JobExtract.make_job (fst (fst entry)) (snd (fst entry)) (snd entry) d = Ok r.

(** Processing the record alone, from an empty collection, does not raise. *)
Definition hays_processable (cutoff : datetime) (j : json) : Prop :=
  ∃ kept, Hays.keep_recent cutoff [] j = Ok kept.

Definition judge_processable (cutoff : datetime) (j : json) : Prop :=
  ∃ kept, Judge.keep_recent cutoff [] j = Ok kept.

Definition insight_processable (cutoff : datetime)
    (entry : string * string * json) : Prop :=
  ∃ st, JobExtract.keep_recent cutoff (false, []) entry = Ok st.
End Fresh.

(** A Judge page of two records: a fresh posting, and one that has no
    [opened] field. *)
Definition judge_page_with_undated : list json :=
  [ JDict [("jobOrderId", JInt 900); ("title", JStr "Welder");
           ("opened", JInt 1714728600000)];
    JDict [("jobOrderId", JInt 902); ("title", JStr "Rigger")] ].

Section Unparsed.
Context `{PyLib}.

(** The script's parser returns [None] for the record's timestamp. *)
Definition hays_unparsed (j : json) : Prop :=
  ∃ raw, py_get j "PostedDate" JNull = Ok raw ∧ Hays.parse_posted_date raw = Ok None.

Definition insight_unparsed (entry : string * string * json) : Prop :=
  ∃ raw, py_get (snd entry) "PostedDate" (JStr "") = Ok raw ∧
         JobExtract.parse_posted_date raw = Ok None.

Definition yoh_unparsed (j : json) : Prop := Yoh.parse_timestamp j = Ok None.

(** A timestamp field that is absent, null or empty, or a string that the
    library parser refuses. *)
Definition missing_or_malformed (refused : string → Prop) (v : json) : Prop :=
  truthy v = false ∨ ∃ s, v = JStr s ∧ refused s.

(** A value that is neither falsy nor a string. *)
Definition truthy_non_string (v : json) : Prop :=
  truthy v = true ∧ ∀ s, v ≠ JStr s.
End Unparsed.

(** The collection of a script writes to neither output stream. *)
Definition silent {A : Type} (m : io A) : Prop :=
  preserves stdout m ∧ preserves stderr m.

(** A Hays record without any date, between a fresh one and an old one,
    and records whose timestamp has a JSON type the parsers do not expect. *)
Definition undated_hays_record : json :=
  JDict [("Id", JStr "a2"); ("Title", JStr "Undated")].
Definition hays_record_with_numeric_date : json :=
  JDict [("Id", JStr "a9"); ("PostedDate", JInt 20240503)].
Definition insight_entry_with_null_date : string * string * json :=
  ("Fitter", "/jobs/9", JDict [("PostedDate", JNull)]).
Definition yoh_record_with_numeric_date : json :=
  JDict [("data", JDict [("jobName", JStr "Buyer"); ("changedOnUTC", JInt 1714728600)])].
Definition judge_record_with_text_date : json :=
  JDict [("jobOrderId", JInt 903); ("opened", JStr "yesterday")].

(** Remote sides with nothing to offer: an empty first page, an empty
    feed. *)
Definition empty_hays_server (skip top : Z) : result json :=
  Ok (JDict [("opportunities", JList []); ("totalCount", JInt 0)]).
Definition empty_judge_server (page : Z) : result json :=
  Ok (JDict [("hits", JList []); ("total", JInt 0)]).
Definition empty_web (url : string) : result string := Ok "<no results>".
Definition empty_yoh_feed : result json := Ok (JList []).

Section SinglePage.
Context `{PyLib}.

(** A board that has one page of records: the first request is answered
    with [page] and the second one with an empty page; the Hays page
    carries a total that is null or a number, the Judge page a total and a
    size from which the page count is computed without an exception. *)
Definition hays_single_page_board (server : Z → Z → result json)
    (page : list json) : Prop :=
  ∃ data total data2,
    server 0 Hays.top = Ok data ∧
    py_get data "opportunities" (JList []) = Ok (JList page) ∧
    py_get data "totalCount" (JInt 0) = Ok total ∧
    (total = JNull ∨ is_Some (as_int total)) ∧
    server Hays.top Hays.top = Ok data2 ∧ hays_page_empty data2.

Definition judge_single_page_board (server : Z → result json)
    (page : list json) : Prop :=
  ∃ data total size max_pages data2,
    server 0 = Ok data ∧
    py_get data "hits" (JList []) = Ok (JList page) ∧
    py_get data "total" (JInt 0) = Ok total ∧
    py_get data "size" (JInt 20) = Ok size ∧
    Judge.max_pages_of total size = Ok max_pages ∧
    server 1 = Ok data2 ∧ judge_page_empty data2.

Definition insight_single_page_site (web : string → result string)
    (page : list (string * string * json)) : Prop :=
  ∃ html_text html_text2,
    web (JobExtract.page_url 1) = Ok html_text ∧
    JobExtract.parse_jobs html_text = page ∧
    web (JobExtract.page_url 2) = Ok html_text2 ∧
    JobExtract.parse_jobs html_text2 = [].
End SinglePage.

(** The Insight Global site with the sample first page and nothing after. *)
Definition one_page_web (url : string) : result string :=
  if String.eqb url (JobExtract.page_url 1) then Ok "<page 1>" else Ok "<no results>".

(** The [Locations] value of the first sample record, and one that names
    the same place twice. *)
Definition sample_locations : json :=
  JList [JDict [("Address", JDict [("City", JStr "Tampa");
                                   ("State", JDict [("Code", JStr "FL")])])]].
Definition repeated_locations : json :=
  JList [JDict [("Address", JDict [("City", JStr "Tampa");
                                   ("State", JDict [("Code", JStr "FL")])])];
         JDict [("LocalizedDescription", JStr "Remote")];
         JDict [("Address", JDict [("City", JStr "Tampa");
                                   ("State", JDict [("Name", JStr "Florida");
                                                    ("Code", JStr "FL")])])]].

(** A location as the Hays board sends it: a city, a state with its code
    and its name, and a description. *)
Definition hays_location (city code name desc : string) : json :=
  JDict [ ("Address",
           JDict [("City", JStr city);
                  ("State", JDict [("Code", JStr code); ("Name", JStr name)])]);
          ("LocalizedDescription", JStr desc) ].

(** A Hays board whose only posting has a list where its identifier
    should be, and an Insight Global page whose posting has a number for
    its city. *)
Definition hays_page_with_list_id : json :=
  JDict [ ("opportunities",
           JList [ JDict [("Id", JList [JInt 1; JInt 2]); ("Title", JStr "Planner");
                          ("PostedDate", JStr "2024-05-03T09:30:00Z")] ]);
          ("totalCount", JInt 1) ].
Definition hays_server_with_list_id (skip top : Z) : result json :=
  Ok hays_page_with_list_id.

Definition insight_job_with_numeric_city : JobExtract.job :=
  JobExtract.Job "Fitter" "https://jobs.insightglobal.com/jobs/9" (JInt 5) (JStr "TX")
                 "" (DateTime 1714728600000000 (Some 0)) JNull JNull JNull.

(** A Yoh feed whose only posting has a number for its city. *)
Definition yoh_feed_with_numeric_city : json :=
  JList [ JDict [("data", JDict [("jobName", JStr "Tester"); ("city", JInt 5);
                                 ("changedOnUTC", JStr "2024-05-03T09:30:00Z")])] ].

(** The requests of a paged run, in the order they are sent. *)
Definition hays_requests (first n : nat) : list request :=
  map (λ k : nat, HaysRequest (Hays.top * Z.of_nat k) Hays.top) (seq first n).
Definition judge_requests (first n : nat) : list request :=
  map (λ k : nat, JudgeRequest (Z.of_nat k)) (seq first n).
Definition insight_requests (pages : list nat) : list request :=
  map (λ page, HttpGet (JobExtract.page_url page)) pages.

(** A Judge search whose every page holds one fresh posting and reports
    forty postings in pages of twenty. *)
Definition counted_judge_page : json :=
  JDict [ ("hits", JList [ JDict [("jobOrderId", JInt 900); ("title", JStr "Welder");
                                  ("opened", JInt 1714728600000)] ]);
          ("total", JInt 40); ("size", JInt 20) ].
Definition counted_judge_server (page : Z) : result json := Ok counted_judge_page.

Section Dated.
Context `{PyLib}.

(** The Hays parser reads the timestamp [d] off the record. *)
Definition hays_dated (j : json) (d : datetime) : Prop :=
  ∃ raw, py_get j "PostedDate" JNull = Ok raw ∧
         Hays.parse_posted_date raw = Ok (Some d).

(** A Yoh posting qualifies: its timestamp parses and is not before the
    cutoff, as the script's own comparison decides it. *)
Definition yoh_fresh (cutoff : datetime) (j : json) : bool :=
  match Yoh.parse_timestamp j with
  | Ok (Some d) => match dt_ge d cutoff with Ok true => true | _ => false end
  | _ => false
  end.
End Dated.

(** A Hays page of a fresh posting, one from a month before, and one
    without a date at its end. *)
Definition mixed_hays_records : list json :=
  [ JDict [("Id", JStr "a1"); ("Title", JStr "Site Manager");
           ("PostedDate", JStr "2024-05-03T09:30:00Z")];
    JDict [("Id", JStr "a3"); ("Title", JStr "Old");
           ("PostedDate", JStr "2024-04-01T00:00:00Z")];
    JDict [("Id", JStr "a2"); ("Title", JStr "Undated")] ].

Section Crawl.
Context `{PyLib}.
Variable web : string → result string.

(** The Insight Global loop has read the pages [pages] one after the
    other, each of them had postings and contributed at least one, and it
    is about to ask for the page after them: from the collection [recent]
    in the world [w] it has come to [recent'] in [w']. *)
Inductive insight_crawl (cutoff : datetime)
    : list nat → list JobExtract.job → world → list JobExtract.job → world → Prop :=
  | crawl_done recent w : insight_crawl cutoff [] recent w recent w
  | crawl_page page pages recent w html_text recent1 recent' w' :
      web (JobExtract.page_url page) = Ok html_text →
      JobExtract.parse_jobs html_text ≠ [] →
      for_each (JobExtract.keep_recent cutoff) (JobExtract.parse_jobs html_text)
        (false, recent) = Ok (true, recent1) →
      insight_crawl cutoff pages recent1
        (after_request w (HttpGet (JobExtract.page_url page))) recent' w' →
      insight_crawl cutoff (page :: pages) recent w recent' w'.
End Crawl.

(** An Insight Global site whose connection is reset while the body of
    the first page is read: [urllib] does not wrap that in [URLError]. *)
Definition reset_web (url : string) : result string :=
  Raise (ConnectionError "[Errno 104] Connection reset by peer").
Definition reset_insight_run : option (result ()) * world :=
  JobExtract.main (H:=sample_lib) reset_web sample_now empty_world.

(** A Hays board whose every page is the mixed page, without a total. *)
Definition mixed_hays_page : json :=
  JDict [("opportunities", JList mixed_hays_records)].
Definition mixed_hays_server (skip top : Z) : result json := Ok mixed_hays_page.

(** * Properties *)

(** ** Inversion of the two monads *)

Lemma result_bind_Ok {A B} (r : result A) (k : A → result B) (b : B) :
  r ≫= k = Ok b → ∃ a, r = Ok a ∧ k a = Ok b.
Proof. destruct r as [a|e]; simpl; [eauto | discriminate]. Qed.

Lemma io_bind_Ok {A B} (m : io A) (k : A → io B) (w w' : world) (b : B) :
  (m ≫= k) w = (Some (Ok b), w') →
  ∃ a w1, m w = (Some (Ok a), w1) ∧ k a w1 = (Some (Ok b), w').
Proof.
  unfold mbind, io_bind. destruct (m w) as [[[a|e]|] w1]; intros Hk.
  - eauto.
  - discriminate.
  - discriminate.
Qed.

Lemma io_bind_run {A B} (m : io A) (k : A → io B) (w w1 : world) (a : A) :
  m w = (Some (Ok a), w1) → (m ≫= k) w = k a w1.
Proof. intros Hm. unfold mbind, io_bind. by rewrite Hm. Qed.

Lemma io_bind_raise {A B} (m : io A) (k : A → io B) (w w1 : world) (e : exn) :
  m w = (Some (Raise e), w1) → (m ≫= k) w = (Some (Raise e), w1).
Proof. intros Hm. unfold mbind, io_bind. by rewrite Hm. Qed.


Lemma lift_Ok {A} (r : result A) (w w' : world) (a : A) :
  lift r w = (Some (Ok a), w') → r = Ok a ∧ w' = w.
Proof. unfold lift. intros [= -> ->]. done. Qed.

Lemma io_ret_Ok {A} (a b : A) (w w' : world) :
  (mret a : io A) w = (Some (Ok b), w') → b = a ∧ w' = w.
Proof. unfold mret, io_ret. intros [= -> ->]. done. Qed.

(** ** Datetime comparisons *)

Lemma aware_instant (d : datetime) : aware d → ∃ t, utc_instant d = Some t.
Proof.
  intros [off Hoff]. exists (wall d - off). unfold utc_instant. by rewrite Hoff.
Qed.

Lemma dt_lt_false_newer (d c : datetime) :
  aware c → dt_lt d c = Ok false → newer_or_equal d c.
Proof.
  intros [oc Hc]. unfold dt_lt, newer_or_equal, utc_instant. rewrite Hc.
  destruct (tzinfo d) as [od|]; [|discriminate].
  intros [= Hlt]. apply bool_decide_eq_false in Hlt.
  exists (wall d - od), (wall c - oc). simpl. repeat split; lia.
Qed.

Lemma dt_ge_true_newer (d c : datetime) :
  aware c → dt_ge d c = Ok true → newer_or_equal d c.
Proof.
  intros [oc Hc]. unfold dt_ge, newer_or_equal, utc_instant. rewrite Hc.
  destruct (tzinfo d) as [od|]; [|discriminate].
  intros [= Hge]. apply bool_decide_eq_true in Hge.
  exists (wall d - od), (wall c - oc). simpl. repeat split; lia.
Qed.

Lemma newer_or_equal_aware_l (a b : datetime) : newer_or_equal a b → aware a.
Proof.
  intros (ta & tb & Ha & _). unfold utc_instant in Ha. unfold aware.
  destruct (tzinfo a); [eauto | discriminate].
Qed.

Lemma newer_or_equal_trans (a b c : datetime) :
  newer_or_equal a b → newer_or_equal b c → newer_or_equal a c.
Proof.
  intros (ta & tb & Ha & Hb & Hab) (tb' & tc & Hb' & Hc & Hbc).
  rewrite Hb in Hb'. injection Hb' as <-.
  exists ta, tc. repeat split; [done | done | lia].
Qed.

Lemma dt_lt_aware (a b : datetime) :
  aware a → aware b → ∃ flag, dt_lt a b = Ok flag.
Proof. intros [oa Ha] [ob Hb]. unfold dt_lt. rewrite Ha, Hb. eauto. Qed.

Lemma dt_lt_true_older (a b : datetime) :
  aware b → dt_lt a b = Ok true → older_than a b.
Proof.
  intros [ob Hb]. unfold dt_lt, older_than, utc_instant. rewrite Hb.
  destruct (tzinfo a) as [oa|]; [|discriminate].
  intros [= Hlt]. apply bool_decide_eq_true in Hlt.
  exists (wall a - oa), (wall b - ob). simpl. repeat split; lia.
Qed.

Lemma dt_lt_true_ge_false (a b : datetime) :
  dt_lt a b = Ok true → dt_ge a b = Ok false.
Proof.
  unfold dt_lt, dt_ge.
  destruct (tzinfo a), (tzinfo b); try discriminate; intros [= Hlt];
    apply bool_decide_eq_true in Hlt; f_equal; apply bool_decide_eq_false; lia.
Qed.

(** ** The sort *)

Lemma Sorted_weaken {A} (R R' : A → A → Prop) (l : list A) :
  (∀ a b, R a b → R' a b) → Sorted R l → Sorted R' l.
Proof.
  intros Himpl. induction 1 as [|a l _ IH Hhd]; constructor; [done|].
  destruct Hhd; constructor. by apply Himpl.
Qed.

Section SortFacts.
Context {A : Type}.
Implicit Types (x : datetime * A) (l : list (datetime * A)).

Lemma insert_desc_perm x l r : insert_desc x l = Ok r → r ≡ₚ x :: l.
Proof.
  revert r. induction l as [|y rest IH]; simpl; intros r.
  - intros [= <-]. done.
  - intros Hins. apply result_bind_Ok in Hins as (flag & _ & Hins).
    destruct flag.
    + apply result_bind_Ok in Hins as (r' & Hr' & [= <-]).
      rewrite (IH _ Hr'). apply Permutation_swap.
    + injection Hins as <-. done.
Qed.

Lemma sort_keyed_perm l s : sort_keyed l = Ok s → s ≡ₚ l.
Proof.
  revert s. induction l as [|x rest IH]; simpl; intros s.
  - intros [= <-]. done.
  - intros Hs. apply result_bind_Ok in Hs as (s' & Hs' & Hins).
    rewrite (insert_desc_perm _ _ _ Hins). by rewrite (IH _ Hs').
Qed.

Lemma insert_desc_sorted x l :
  aware (fst x) → Forall (λ y, aware (fst y)) l → StronglySorted keyed_desc l →
  ∃ r, insert_desc x l = Ok r ∧ StronglySorted keyed_desc r.
Proof.
  intros Hx. induction l as [|y rest IH]; simpl; intros Hall Hsorted.
  - eexists. split; [done|]. repeat constructor.
  - apply Forall_cons in Hall as [Hy Hall].
    apply StronglySorted_inv in Hsorted as [Hsorted Hhd].
    destruct (dt_lt_aware (fst x) (fst y) Hx Hy) as [flag Hflag].
    rewrite Hflag. simpl. destruct flag.
    + destruct (IH Hall Hsorted) as (r & Hr & Hr_sorted). rewrite Hr. simpl.
      eexists. split; [done|]. constructor; [done|].
      rewrite (insert_desc_perm _ _ _ Hr). constructor; [|done].
      unfold keyed_desc.
      destruct (dt_lt_true_older _ _ Hy Hflag) as (tx & ty & Htx & Hty & Hlt).
      exists ty, tx. repeat split; [done | done | lia].
    + eexists. split; [done|].
      assert (keyed_desc x y) as Hxy by (by apply dt_lt_false_newer).
      constructor; [by constructor|]. constructor; [done|].
      eapply Forall_impl; [exact Hhd|]. intros z Hyz.
      by eapply newer_or_equal_trans.
Qed.

Lemma sort_keyed_sorted l :
  Forall (λ y, aware (fst y)) l →
  ∃ s, sort_keyed l = Ok s ∧ StronglySorted keyed_desc s.
Proof.
  induction l as [|x rest IH]; simpl; intros Hall.
  - eexists. split; [done|]. constructor.
  - apply Forall_cons in Hall as [Hx Hall].
    destruct (IH Hall) as (s & Hs & Hsorted). rewrite Hs. simpl.
    apply insert_desc_sorted; [done | | done].
    by rewrite (sort_keyed_perm _ _ Hs).
Qed.

Lemma mapM_keyed (key : A → result datetime) (items : list A) keyed :
  mapM (λ a, k ← key a; Ok (k, a)) items = Ok keyed →
  map snd keyed = items ∧ Forall (λ p, key (snd p) = Ok (fst p)) keyed.
Proof.
  revert keyed. induction items as [|a rest IH]; simpl; intros keyed.
  - intros [= <-]. done.
  - intros Hm. apply result_bind_Ok in Hm as ([k a'] & Hk & Hm).
    apply result_bind_Ok in Hk as (k' & Hkey & [= <- <-]).
    apply result_bind_Ok in Hm as (keyed' & Hrest & [= <-]).
    destruct (IH _ Hrest) as [Hmap Hall]. simpl. split.
    + by rewrite Hmap.
    + by constructor.
Qed.

(** A sort that returns gives a permutation of its input, in descending
    order of the keys whenever the keys are aware. *)
Lemma sort_desc_spec (key : A → result datetime) (items out : list A) :
  sort_desc key items = Ok out →
  out ≡ₚ items ∧
  (Forall (λ a, ∃ k, key a = Ok k ∧ aware k) items →
   Sorted (λ a b, ∃ ka kb, key a = Ok ka ∧ key b = Ok kb ∧ newer_or_equal ka kb) out).
Proof.
  unfold sort_desc. intros Hsort.
  apply result_bind_Ok in Hsort as (keyed & Hkeyed & Hsort).
  apply result_bind_Ok in Hsort as (s & Hs & [= <-]).
  destruct (mapM_keyed _ _ _ Hkeyed) as [Hmap Hkeys].
  pose proof (sort_keyed_perm _ _ Hs) as Hperm.
  split.
  - rewrite <- Hmap. by apply Permutation_map.
  - intros Haware.
    assert (Forall (λ y, aware (fst y)) keyed) as Hall.
    { rewrite <- Hmap in Haware. clear -Haware Hkeys.
      induction Hkeys as [|p rest Hp _ IH]; [constructor|].
      simpl in Haware. apply Forall_cons in Haware as [(k & Hk & Hak) Hrest].
      constructor; [|by apply IH]. rewrite Hp in Hk. by injection Hk as <-. }
    destruct (sort_keyed_sorted _ Hall) as (s' & Hs' & Hsorted).
    rewrite Hs in Hs'. injection Hs' as <-.
    assert (Forall (λ p, key (snd p) = Ok (fst p)) s) as Hkeys_s
      by (by rewrite Hperm).
    apply StronglySorted_Sorted in Hsorted.
    clear -Hsorted Hkeys_s.
    induction Hsorted as [|p rest Hrest IH Hhd]; simpl; [constructor|].
    apply Forall_cons in Hkeys_s as [Hp Hkeys_rest].
    constructor; [by apply IH|].
    destruct Hhd as [|q rest' Hpq]; simpl; constructor.
    apply Forall_cons in Hkeys_rest as [Hq _].
    exists (fst p), (fst q). done.
Qed.

(** The sort returns when every key is computed and aware. *)
Lemma sort_desc_total (key : A → result datetime) (items : list A) :
  Forall (λ a, ∃ k, key a = Ok k ∧ aware k) items →
  ∃ out, sort_desc key items = Ok out.
Proof.
  intros Hall. unfold sort_desc.
  assert (∃ keyed, mapM (λ a, k ← key a; Ok (k, a)) items = Ok keyed ∧
                   Forall (λ y, aware (fst y)) keyed) as (keyed & -> & Haware).
  { induction Hall as [|a rest (k & Hk & Hak) _ (keyed & Hkeyed & Haware)].
    - exists []. split; [done|constructor].
    - exists ((k, a) :: keyed). simpl. rewrite Hk. simpl. rewrite Hkeyed.
      split; [done|]. by constructor. }
  simpl. destruct (sort_keyed_sorted _ Haware) as (s & -> & _). simpl. eauto.
Qed.
End SortFacts.

(** ** Loops *)

Lemma for_each_invariant {A S : Type} (P : S → Prop) (body : S → A → result S)
    (items : list A) (s s' : S) :
  (∀ s0 x s1, P s0 → body s0 x = Ok s1 → P s1) →
  P s → for_each body items s = Ok s' → P s'.
Proof.
  intros Hbody. revert s. induction items as [|x rest IH]; simpl; intros s Hs.
  - by intros [= <-].
  - intros Hrun. apply result_bind_Ok in Hrun as (s1 & Hs1 & Hrun).
    eapply IH; [|exact Hrun]. by eapply Hbody.
Qed.

Lemma send_Ok {A} (rq : request) (answer : result A) (w w' : world) (a : A) :
  send rq answer w = (Some (Ok a), w') → answer = Ok a ∧ w' = after_request w rq.
Proof. unfold send, after_request. intros [= -> <-]. done. Qed.

Ltac io_inv :=
  repeat match goal with
  | H : (_ ≫= _) _ = (Some (Ok _), _) |- _ =>
      let a := fresh "a" in let w := fresh "w" in let Ha := fresh "Hstep" in
      apply io_bind_Ok in H as (a & w & Ha & H)
  | H : lift _ _ = (Some (Ok _), _) |- _ => apply lift_Ok in H as [H ->]
  | H : mret _ _ = (Some (Ok _), _) |- _ => apply io_ret_Ok in H as [-> ->]
  | H : send _ _ _ = (Some (Ok _), _) |- _ => apply send_Ok in H as [H ->]
  end.

Section HaysFacts.
Context `{PyLib}.
Variable server : Z → Z → result json.

Lemma hays_make_job_posted (j : json) (d : datetime) (r : Hays.job) :
  Hays.make_job j d = Ok r → Hays.posted r = d.
Proof.
  unfold Hays.make_job. intros Hr.
  repeat (apply result_bind_Ok in Hr as (? & _ & Hr)).
  by injection Hr as <-.
Qed.

Lemma hays_keep_recent_inv (cutoff : datetime) (recent recent' : list Hays.job)
    (j : json) :
  Hays.keep_recent cutoff recent j = Ok recent' →
  recent' = recent ∨
  ∃ r, recent' = (recent ++ [r])%list ∧ dt_lt (Hays.posted r) cutoff = Ok false.
Proof.
  unfold Hays.keep_recent. intros Hk.
  apply result_bind_Ok in Hk as (raw & _ & Hk).
  apply result_bind_Ok in Hk as ([d|] & _ & Hk).
  - apply result_bind_Ok in Hk as ([|] & Hlt & Hk).
    + left. by injection Hk.
    + right. apply result_bind_Ok in Hk as (r & Hr & [= <-]).
      exists r. split; [done|]. by rewrite (hays_make_job_posted _ _ _ Hr).
  - left. by injection Hk.
Qed.

Lemma hays_paginate_invariant (P : list Hays.job → Prop) (cutoff : datetime) :
  (∀ recent j recent', P recent → Hays.keep_recent cutoff recent j = Ok recent' →
                       P recent') →
  ∀ fuel skip total recent w out w',
    P recent →
    Hays.paginate server fuel cutoff skip total recent w = (Some (Ok out), w') →
    P out.
Proof.
  intros Hbody. induction fuel as [|fuel IH]; simpl; intros skip total recent w out w' HP Hrun.
  - discriminate.
  - io_inv. destruct (negb (truthy _)).
    + io_inv. done.
    + io_inv.
      match goal with
      | Hloop : for_each _ _ recent = Ok ?r |- _ =>
          assert (P r) as HP'
            by (eapply for_each_invariant; [exact Hbody | exact HP | exact Hloop])
      end.
      match goal with
      | Hr : (if ?stop then _ else _) _ = _ |- _ => destruct stop
      end.
      * io_inv. done.
      * eapply IH; [exact HP' | exact Hrun].
Qed.
End HaysFacts.

(** ** What a computation leaves alone *)

Lemma preserves_bind {A B C} (proj : world → C) (m : io A) (k : A → io B) :
  preserves proj m → (∀ a, preserves proj (k a)) → preserves proj (m ≫= k).
Proof.
  intros Hm Hk w. unfold mbind, io_bind. specialize (Hm w).
  destruct (m w) as [[[a|e]|] w1]; simpl in *; [|done|done].
  by rewrite Hk.
Qed.

Lemma preserves_ret {A C} (proj : world → C) (a : A) : preserves proj (mret a).
Proof. done. Qed.

Lemma preserves_lift {A C} (proj : world → C) (r : result A) :
  preserves proj (lift r).
Proof. done. Qed.

Lemma preserves_out_of_fuel {A C} (proj : world → C) :
  preserves proj (@out_of_fuel A).
Proof. done. Qed.

Lemma send_preserves_files {A} rq (answer : result A) :
  preserves files (send rq answer).
Proof. done. Qed.

Lemma send_preserves_stdout {A} rq (answer : result A) :
  preserves stdout (send rq answer).
Proof. done. Qed.

Lemma send_preserves_stderr {A} rq (answer : result A) :
  preserves stderr (send rq answer).
Proof. done. Qed.

Lemma print_preserves_files line : preserves files (print line).
Proof. done. Qed.

Lemma print_stderr_preserves_files line : preserves files (print_stderr line).
Proof. done. Qed.

Lemma print_stderr_preserves_stdout line : preserves stdout (print_stderr line).
Proof. done. Qed.

Create HintDb quiet discriminated.
#[local] Hint Resolve preserves_ret preserves_lift preserves_out_of_fuel
  send_preserves_files send_preserves_stdout send_preserves_stderr
  print_preserves_files print_stderr_preserves_files
  print_stderr_preserves_stdout : quiet.

(** A proof that a chain of binds leaves a component alone: split at each
    bind, decide each branch, close the leaves from the hint database. *)
Ltac quiet_step :=
  match goal with
  | |- preserves _ (_ ≫= _) => apply preserves_bind; [|intros ?]
  | |- preserves _ (if ?c then _ else _) => destruct c
  | |- preserves _ (match ?x with _ => _ end) => destruct x
  | |- preserves _ _ => solve [auto with quiet]
  end.

Section HaysRuns.
Context `{PyLib}.
Variable server : Z → Z → result json.

Lemma hays_paginate_quiet {C} (proj : world → C) fuel cutoff skip total recent :
  (∀ rq (answer : result json), preserves proj (send rq answer)) →
  preserves proj (Hays.paginate server fuel cutoff skip total recent).
Proof.
  intros Hsend. revert skip total recent.
  induction fuel as [|fuel IH]; simpl; intros skip total recent.
  - auto with quiet.
  - unfold Hays.fetch_page. repeat quiet_step; auto.
Qed.

Lemma hays_collect_quiet {C} (proj : world → C) fuel cutoff :
  (∀ rq (answer : result json), preserves proj (send rq answer)) →
  preserves proj (Hays.collect_recent_jobs server fuel cutoff).
Proof.
  intros Hsend. unfold Hays.collect_recent_jobs.
  apply preserves_bind; [by apply hays_paginate_quiet|]. auto with quiet.
Qed.

Lemma hays_collect_spec fuel cutoff w out w' :
  aware cutoff →
  Hays.collect_recent_jobs server fuel cutoff w = (Some (Ok out), w') →
  Forall (λ j, newer_or_equal (Hays.posted j) cutoff) out ∧
  Sorted (λ a b, newer_or_equal (Hays.posted a) (Hays.posted b)) out.
Proof.
  intros Hcut Hrun. unfold Hays.collect_recent_jobs in Hrun. io_inv.
  rename a into recent.
  assert (Forall (λ j, newer_or_equal (Hays.posted j) cutoff) recent) as Hfresh.
  { eapply (hays_paginate_invariant server
              (Forall (λ j, newer_or_equal (Hays.posted j) cutoff)));
      [| |exact Hstep].
    - intros r0 j r1 Hr0 Hkeep.
      apply hays_keep_recent_inv in Hkeep as [->|(r & -> & Hlt)]; [done|].
      apply Forall_app. split; [done|]. constructor; [|done].
      by apply dt_lt_false_newer.
    - constructor. }
  destruct (sort_desc_spec _ _ _ Hrun) as [Hperm Hsorted]. split.
  - by rewrite Hperm.
  - eapply Sorted_weaken; [|apply Hsorted].
    + intros a b (ka & kb & [= <-] & [= <-] & Hab). done.
    + eapply Forall_impl; [exact Hfresh|]. intros j Hj. simpl.
      exists (Hays.posted j). split; [done|].
      eapply newer_or_equal_aware_l, Hj.
Qed.
End HaysRuns.

Lemma write_file_Ok path f w w' u :
  write_file path f w = (Some (Ok u), w') →
  w' = World (requests w) (<[path := f]> (files w)) (stdout w) (stderr w).
Proof. unfold write_file. by intros [= _ <-]. Qed.

Lemma print_Ok line w w' u :
  print line w = (Some (Ok u), w') →
  w' = World (requests w) (files w) (stdout w ++ [line])%list (stderr w).
Proof. unfold print. by intros [= _ <-]. Qed.

Ltac main_inv H :=
  io_inv;
  repeat match goal with
  | Hw : write_file _ _ _ = (Some (Ok _), _) |- _ => apply write_file_Ok in Hw
  | Hp : print _ _ = (Some (Ok _), _) |- _ => apply print_Ok in Hp
  end;
  subst; simpl in *.

Section HaysMain.
Context `{PyLib}.
Variable server : Z → Z → result json.

Lemma hays_main_Ok fuel now w w' :
  Hays.main server fuel now w = (Some (Ok ()), w') →
  ∃ jobs w1,
    Hays.collect_recent_jobs server fuel (hays_cutoff now) w = (Some (Ok jobs), w1) ∧
    hays_output w' jobs ∧
    two_files_written (files w) (files w')
      "hays_jobs_last_24h.txt" "hays_jobs_last_24h.xlsx".
Proof.
  unfold Hays.main, Hays.write_text, Hays.write_excel. intros Hrun.
  main_inv Hrun.
  match goal with
  | Hc : Hays.collect_recent_jobs _ _ _ _ = (Some (Ok ?jobs), ?w1),
    Hl : mapM Hays.text_line _ = Ok ?lines,
    Hr : mapM Hays.excel_row _ = Ok ?rows |- _ =>
      pose proof (hays_collect_quiet server files fuel (hays_cutoff now)
                    (λ rq answer, send_preserves_files rq answer) w) as Hfiles;
      unfold hays_cutoff in *; rewrite Hc in Hfiles; simpl in Hfiles;
      exists jobs, w1; split; [done|]; unfold hays_output, two_files_written;
      cbn [files]; unfold Hays.txt_path, Hays.xlsx_path; split; [split|]
  end.
  - eexists. split; [done|].
    rewrite lookup_insert_ne by done. by rewrite lookup_insert_eq.
  - eexists. split; [done|]. by rewrite lookup_insert_eq.
  - rewrite Hfiles. by eexists _, _.
Qed.
End HaysMain.

Section JudgeRuns.
Context `{PyLib}.
Variable server : Z → result json.

Lemma judge_parse_opened_aware (ts : json) (d : datetime) :
  Judge.parse_opened ts = Ok d → aware d.
Proof.
  unfold Judge.parse_opened. destruct (as_int ts); [|discriminate].
  intros Hd. apply result_bind_Ok in Hd as (t & _ & [= <-]). by eexists.
Qed.

Lemma judge_make_job_opened (j : json) (d : datetime) (r : Judge.job) :
  Judge.make_job j d = Ok r → Judge.opened r = d.
Proof.
  unfold Judge.make_job. intros Hr.
  repeat (apply result_bind_Ok in Hr as (? & _ & Hr)).
  by injection Hr as <-.
Qed.

Lemma judge_keep_recent_inv (cutoff : datetime) (recent recent' : list Judge.job)
    (j : json) :
  Judge.keep_recent cutoff recent j = Ok recent' →
  recent' = recent ∨
  ∃ r, recent' = (recent ++ [r])%list ∧ dt_ge (Judge.opened r) cutoff = Ok true.
Proof.
  unfold Judge.keep_recent. intros Hk.
  apply result_bind_Ok in Hk as (ts & _ & Hk).
  apply result_bind_Ok in Hk as (d & _ & Hk).
  apply result_bind_Ok in Hk as ([|] & Hge & Hk).
  - right. apply result_bind_Ok in Hk as (r & Hr & [= <-]).
    exists r. split; [done|]. by rewrite (judge_make_job_opened _ _ _ Hr).
  - left. by injection Hk.
Qed.

Lemma judge_paginate_invariant (P : list Judge.job → Prop) (cutoff : datetime) :
  (∀ recent j recent', P recent → Judge.keep_recent cutoff recent j = Ok recent' →
                       P recent') →
  ∀ fuel page recent w out w',
    P recent →
    Judge.paginate server fuel cutoff page recent w = (Some (Ok out), w') →
    P out.
Proof.
  intros Hbody. induction fuel as [|fuel IH]; simpl; intros page recent w out w' HP Hrun.
  - discriminate.
  - io_inv. destruct (negb (truthy _)).
    + io_inv. done.
    + io_inv.
      match goal with
      | Hloop : for_each _ _ recent = Ok ?r |- _ =>
          assert (P r) as HP'
            by (eapply for_each_invariant; [exact Hbody | exact HP | exact Hloop])
      end.
      destruct (_ || _).
      * io_inv. done.
      * eapply IH; [exact HP' | exact Hrun].
Qed.

Lemma judge_paginate_quiet {C} (proj : world → C) fuel cutoff page recent :
  (∀ rq (answer : result json), preserves proj (send rq answer)) →
  preserves proj (Judge.paginate server fuel cutoff page recent).
Proof.
  intros Hsend. revert page recent.
  induction fuel as [|fuel IH]; simpl; intros page recent.
  - auto with quiet.
  - unfold Judge.fetch_page. repeat quiet_step; auto.
Qed.

Lemma judge_collect_quiet {C} (proj : world → C) fuel cutoff :
  (∀ rq (answer : result json), preserves proj (send rq answer)) →
  preserves proj (Judge.collect_recent_jobs server fuel cutoff).
Proof.
  intros Hsend. unfold Judge.collect_recent_jobs.
  apply preserves_bind; [by apply judge_paginate_quiet|]. auto with quiet.
Qed.

Lemma judge_collect_spec fuel cutoff w out w' :
  aware cutoff →
  Judge.collect_recent_jobs server fuel cutoff w = (Some (Ok out), w') →
  Forall (λ j, newer_or_equal (Judge.opened j) cutoff) out ∧
  Sorted (λ a b, newer_or_equal (Judge.opened a) (Judge.opened b)) out.
Proof.
  intros Hcut Hrun. unfold Judge.collect_recent_jobs in Hrun. io_inv.
  rename a into recent.
  assert (Forall (λ j, newer_or_equal (Judge.opened j) cutoff) recent) as Hfresh.
  { eapply (judge_paginate_invariant
              (Forall (λ j, newer_or_equal (Judge.opened j) cutoff)));
      [| |exact Hstep].
    - intros r0 j r1 Hr0 Hkeep.
      apply judge_keep_recent_inv in Hkeep as [->|(r & -> & Hge)]; [done|].
      apply Forall_app. split; [done|]. constructor; [|done].
      by apply dt_ge_true_newer.
    - constructor. }
  destruct (sort_desc_spec _ _ _ Hrun) as [Hperm Hsorted]. split.
  - by rewrite Hperm.
  - eapply Sorted_weaken; [|apply Hsorted].
    + intros a b (ka & kb & [= <-] & [= <-] & Hab). done.
    + eapply Forall_impl; [exact Hfresh|]. intros j Hj. simpl.
      exists (Judge.opened j). split; [done|].
      eapply newer_or_equal_aware_l, Hj.
Qed.

Lemma judge_main_Ok fuel now w w' :
  Judge.main server fuel now w = (Some (Ok ()), w') →
  ∃ jobs w1,
    Judge.collect_recent_jobs server fuel (day_cutoff now) w = (Some (Ok jobs), w1) ∧
    judge_output w' jobs ∧
    two_files_written (files w) (files w')
      "judge_jobs_last_24h.txt" "judge_jobs_last_24h.xlsx".
Proof.
  unfold Judge.main, Judge.write_text, Judge.write_excel. intros Hrun.
  main_inv Hrun.
  match goal with
  | Hc : Judge.collect_recent_jobs _ _ _ _ = (Some (Ok ?jobs), ?w1),
    Hr : mapM Judge.excel_row _ = Ok ?rows |- _ =>
      pose proof (judge_collect_quiet files fuel (day_cutoff now)
                    (λ rq answer, send_preserves_files rq answer) w) as Hfiles;
      unfold day_cutoff in *; rewrite Hc in Hfiles; simpl in Hfiles;
      exists jobs, w1; split; [done|]; unfold judge_output, two_files_written;
      cbn [files]; unfold Judge.txt_path, Judge.xlsx_path; split; [split|]
  end.
  - rewrite lookup_insert_ne by done. by rewrite lookup_insert_eq.
  - eexists. split; [done|]. by rewrite lookup_insert_eq.
  - rewrite Hfiles. by eexists _, _.
Qed.
End JudgeRuns.

Lemma preserves_try_except {A C} (proj : world → C) (m : io A) catches handler :
  preserves proj m → (∀ e, preserves proj (handler e)) →
  preserves proj (try_except m catches handler).
Proof.
  intros Hm Hh w. unfold try_except. specialize (Hm w).
  destruct (m w) as [[[a|e]|] w1]; simpl in *; [done| |done].
  destruct (catches e); [|done]. by rewrite Hh.
Qed.

Section InsightRuns.
Context `{PyLib}.
Variable web : string → result string.

Lemma insight_make_job_posted title href meta (d : datetime) (r : JobExtract.job) :
  JobExtract.make_job title href meta d = Ok r → JobExtract.posted r = d.
Proof.
  unfold JobExtract.make_job. intros Hr.
  repeat (apply result_bind_Ok in Hr as (? & _ & Hr)).
  by injection Hr as <-.
Qed.

Lemma insight_keep_recent_inv (cutoff : datetime) st st' entry :
  JobExtract.keep_recent cutoff st entry = Ok st' →
  st' = st ∨
  ∃ r, st' = (true, (snd st ++ [r])%list) ∧
       dt_lt (JobExtract.posted r) cutoff = Ok false.
Proof.
  unfold JobExtract.keep_recent. destruct entry as [[title href] meta]. intros Hk.
  apply result_bind_Ok in Hk as (raw & _ & Hk).
  apply result_bind_Ok in Hk as ([d|] & _ & Hk).
  - apply result_bind_Ok in Hk as ([|] & Hlt & Hk).
    + left. by injection Hk.
    + right. apply result_bind_Ok in Hk as (r & Hr & [= <-]).
      exists r. split; [done|]. by rewrite (insight_make_job_posted _ _ _ _ _ Hr).
  - left. by injection Hk.
Qed.

Lemma insight_scrape_pages_invariant (P : list JobExtract.job → Prop) cutoff :
  (∀ st entry st', P (snd st) → JobExtract.keep_recent cutoff st entry = Ok st' →
                   P (snd st')) →
  ∀ pages recent w out w',
    P recent →
    JobExtract.scrape_pages web cutoff pages recent w = (Some (Ok out), w') →
    P out.
Proof.
  intros Hbody. induction pages as [|page rest IH]; simpl; intros recent w out w' HP Hrun.
  - io_inv. done.
  - io_inv. destruct a as [html_text|]; [|io_inv; done].
    destruct (JobExtract.parse_jobs html_text) as [|entry entries]; [io_inv; done|].
    io_inv.
    match goal with
    | Hloop : _ = Ok ?st |- _ =>
        pose proof (for_each_invariant (λ s, P (snd s)) _ (entry :: entries)
                      (false, recent) st Hbody HP Hloop) as HP'
    end.
    destruct (negb _).
    + io_inv. done.
    + eapply IH; [exact HP' | exact Hrun].
Qed.

Lemma insight_scrape_pages_quiet {C} (proj : world → C) cutoff pages recent :
  (∀ rq (answer : result string), preserves proj (send rq answer)) →
  (∀ line, preserves proj (print_stderr line)) →
  preserves proj (JobExtract.scrape_pages web cutoff pages recent).
Proof.
  intros Hsend Hprint. revert recent.
  induction pages as [|page rest IH]; simpl; intros recent.
  - auto with quiet.
  - apply preserves_bind.
    + apply preserves_try_except.
      * unfold JobExtract.fetch. repeat quiet_step; auto.
      * intros e. repeat quiet_step; auto.
    + intros fetched. repeat quiet_step; auto.
Qed.

Lemma insight_scrape_quiet {C} (proj : world → C) cutoff :
  (∀ rq (answer : result string), preserves proj (send rq answer)) →
  (∀ line, preserves proj (print_stderr line)) →
  preserves proj (JobExtract.scrape_recent_jobs web cutoff).
Proof.
  intros Hsend Hprint. unfold JobExtract.scrape_recent_jobs.
  apply preserves_bind; [by apply insight_scrape_pages_quiet|]. auto with quiet.
Qed.

Lemma insight_scrape_spec cutoff w out w' :
  aware cutoff →
  JobExtract.scrape_recent_jobs web cutoff w = (Some (Ok out), w') →
  Forall (λ j, newer_or_equal (JobExtract.posted j) cutoff) out ∧
  Sorted (λ a b, newer_or_equal (JobExtract.posted a) (JobExtract.posted b)) out.
Proof.
  intros Hcut Hrun. unfold JobExtract.scrape_recent_jobs in Hrun. io_inv.
  rename a into recent.
  assert (Forall (λ j, newer_or_equal (JobExtract.posted j) cutoff) recent) as Hfresh.
  { eapply (insight_scrape_pages_invariant
              (Forall (λ j, newer_or_equal (JobExtract.posted j) cutoff)));
      [| |exact Hstep].
    - intros st entry st' Hst Hkeep.
      apply insight_keep_recent_inv in Hkeep as [->|(r & -> & Hlt)]; [done|].
      simpl. apply Forall_app. split; [done|]. constructor; [|done].
      by apply dt_lt_false_newer.
    - constructor. }
  destruct (sort_desc_spec _ _ _ Hrun) as [Hperm Hsorted]. split.
  - by rewrite Hperm.
  - eapply Sorted_weaken; [|apply Hsorted].
    + intros a b (ka & kb & [= <-] & [= <-] & Hab). done.
    + eapply Forall_impl; [exact Hfresh|]. intros j Hj. simpl.
      exists (JobExtract.posted j). split; [done|].
      eapply newer_or_equal_aware_l, Hj.
Qed.

Lemma insight_main_Ok now w w' :
  JobExtract.main web now w = (Some (Ok ()), w') →
  ∃ jobs w1,
    JobExtract.scrape_recent_jobs web (day_cutoff now) w = (Some (Ok jobs), w1) ∧
    insight_output w' jobs ∧
    two_files_written (files w) (files w') "jobs_last_24h.txt" "jobs_last_24h.xlsx".
Proof.
  unfold JobExtract.main, JobExtract.write_output, JobExtract.write_excel.
  intros Hrun. main_inv Hrun.
  match goal with
  | Hc : JobExtract.scrape_recent_jobs _ _ _ = (Some (Ok ?jobs), ?w1),
    Hl : mapM JobExtract.text_line _ = Ok ?lines,
    Hr : mapM JobExtract.excel_row _ = Ok ?rows |- _ =>
      pose proof (insight_scrape_quiet files (day_cutoff now)
                    (λ rq answer, send_preserves_files rq answer)
                    print_stderr_preserves_files w) as Hfiles;
      unfold day_cutoff in *; rewrite Hc in Hfiles; simpl in Hfiles;
      exists jobs, w1; split; [done|]; unfold insight_output, two_files_written;
      cbn [files]; unfold JobExtract.txt_path, JobExtract.xlsx_path; split; [split|]
  end.
  - eexists. split; [done|].
    rewrite lookup_insert_ne by done. by rewrite lookup_insert_eq.
  - eexists. split; [done|]. by rewrite lookup_insert_eq.
  - rewrite Hfiles. by eexists _, _.
Qed.
End InsightRuns.

Section YohRuns.
Context `{PyLib}.
Variable server : result json.

Lemma yoh_parse_timestamp_aware (j : json) (d : datetime) :
  Yoh.parse_timestamp j = Ok (Some d) → aware d.
Proof.
  unfold Yoh.parse_timestamp. intros Hp.
  apply result_bind_Ok in Hp as (data & _ & Hp).
  apply result_bind_Ok in Hp as (v & _ & Hp).
  apply result_bind_Ok in Hp as (iso & Hiso & Hp).
  destruct iso as [d'|].
  - injection Hp as ->.
    destruct (truthy (py_or v (JStr ""))); [|discriminate].
    apply result_bind_Ok in Hiso as (s & _ & Hiso).
    destruct (fromisoformat (replace_Z s)) as [dt_obj|]; [|discriminate].
    injection Hiso as <-. unfold aware.
    destruct (tzinfo dt_obj) eqn:Htz; [by rewrite Htz | by eexists].
  - apply result_bind_Ok in Hp as (data' & _ & Hp).
    apply result_bind_Ok in Hp as (v' & _ & Hp).
    destruct (truthy (py_or v' (JStr ""))); [|discriminate].
    destruct (py_or v' (JStr "")); try discriminate.
    destruct (strptime_dmy s); [|discriminate].
    injection Hp as <-. by eexists.
Qed.

Lemma yoh_keep_recent_inv (cutoff : datetime) (recent recent' : list json) (j : json) :
  Yoh.keep_recent cutoff recent j = Ok recent' →
  recent' = recent ∨
  (recent' = (recent ++ [j])%list ∧
   ∃ d, Yoh.parse_timestamp j = Ok (Some d) ∧ dt_ge d cutoff = Ok true).
Proof.
  unfold Yoh.keep_recent. intros Hk.
  apply result_bind_Ok in Hk as ([d|] & Hparse & Hk).
  - apply result_bind_Ok in Hk as ([|] & Hge & Hk).
    + right. injection Hk as <-. eauto.
    + left. by injection Hk.
  - left. by injection Hk.
Qed.

Lemma yoh_recent_jobs_quiet {C} (proj : world → C) cutoff :
  (∀ rq (answer : result json), preserves proj (send rq answer)) →
  preserves proj (Yoh.recent_jobs server cutoff).
Proof.
  intros Hsend. unfold Yoh.recent_jobs, Yoh.fetch_jobs. repeat quiet_step; auto.
Qed.

Lemma yoh_recent_jobs_spec cutoff w out w' :
  aware cutoff →
  Yoh.recent_jobs server cutoff w = (Some (Ok out), w') →
  Forall (λ j, ∃ d, Yoh.parse_timestamp j = Ok (Some d) ∧ newer_or_equal d cutoff) out ∧
  Sorted (λ a b, ∃ da db, Yoh.parse_timestamp a = Ok (Some da) ∧
                          Yoh.parse_timestamp b = Ok (Some db) ∧
                          newer_or_equal da db) out.
Proof.
  intros Hcut Hrun. unfold Yoh.recent_jobs in Hrun. io_inv.
  match goal with
  | Hloop : for_each _ ?items [] = Ok ?recent |- _ =>
      assert (Forall (λ j, ∃ d, Yoh.parse_timestamp j = Ok (Some d) ∧
                               newer_or_equal d cutoff) recent) as Hfresh
  end.
  { eapply (for_each_invariant
              (Forall (λ j, ∃ d, Yoh.parse_timestamp j = Ok (Some d) ∧
                                 newer_or_equal d cutoff))); [| |eassumption].
    - intros r0 j r1 Hr0 Hkeep.
      apply yoh_keep_recent_inv in Hkeep as [->|(-> & d & Hd & Hge)]; [done|].
      apply Forall_app. split; [done|]. constructor; [|done].
      exists d. split; [done|]. by apply dt_ge_true_newer.
    - constructor. }
  destruct (sort_desc_spec _ _ _ Hrun) as [Hperm Hsorted].
  assert (Forall (λ j, ∃ d, Yoh.parse_timestamp j = Ok (Some d) ∧
                           newer_or_equal d cutoff) out) as Hout
    by (by rewrite Hperm).
  split; [done|].
  assert (Sorted (λ a b, ∃ ka kb, Yoh.sort_key a = Ok ka ∧ Yoh.sort_key b = Ok kb ∧
                                 newer_or_equal ka kb) out) as Hs.
  { apply Hsorted. eapply Forall_impl; [exact Hfresh|].
    intros j (d & Hd & Hnew). exists d. unfold Yoh.sort_key. rewrite Hd. simpl.
    split; [done|]. eapply newer_or_equal_aware_l, Hnew. }
  clear -Hs Hout. induction Hs as [|a l _ IH Hhd]; [constructor|].
  apply Forall_cons in Hout as [(da & Hda & _) Hl].
  constructor; [by apply IH|].
  destruct Hhd as [|b l' (ka & kb & Hka & Hkb & Hab)]; constructor.
  apply Forall_cons in Hl as [(db & Hdb & _) _].
  unfold Yoh.sort_key in Hka, Hkb. rewrite Hda in Hka. rewrite Hdb in Hkb.
  simpl in Hka, Hkb. injection Hka as <-. injection Hkb as <-.
  exists da, db. done.
Qed.

Lemma yoh_main_Ok now w w' :
  Yoh.main server now w = (Some (Ok ()), w') →
  ∃ jobs w1,
    Yoh.recent_jobs server (day_cutoff now) w = (Some (Ok jobs), w1) ∧
    yoh_output w' jobs ∧
    two_files_written (files w) (files w')
      "yoh_jobs_last_24h.txt" "yoh_jobs_last_24h.xlsx".
Proof.
  unfold Yoh.main, Yoh.write_text, Yoh.write_excel.
  intros Hrun. main_inv Hrun.
  match goal with
  | Hc : Yoh.recent_jobs _ _ _ = (Some (Ok ?jobs), ?w1),
    Hl : mapM Yoh.text_line _ = Ok ?lines,
    Hr : mapM Yoh.excel_row _ = Ok ?rows |- _ =>
      pose proof (yoh_recent_jobs_quiet files (day_cutoff now)
                    (λ rq answer, send_preserves_files rq answer) w) as Hfiles;
      unfold day_cutoff in *; rewrite Hc in Hfiles; simpl in Hfiles;
      exists jobs, w1; split; [done|]; unfold yoh_output, two_files_written;
      cbn [files]; unfold Yoh.txt_path, Yoh.xlsx_path; split; [split|]
  end.
  - eexists. split; [done|].
    rewrite lookup_insert_ne by done. by rewrite lookup_insert_eq.
  - eexists. split; [done|]. by rewrite lookup_insert_eq.
  - rewrite Hfiles. by eexists _, _.
Qed.
End YohRuns.

(** * The claims *)

(** C1.  Whenever a script runs to its end, the postings rendered into its
    two files all carry a resolved, timezone-aware timestamp that is at or
    after the cutoff the run computed from the clock: none is older, and
    none is without a parsed timestamp.  (Hays takes the cutoff ten days
    back, the other three twenty-four hours.) *)
Theorem output_postings_at_or_after_cutoff `{PyLib} :
  (∀ server fuel now w w',
     Hays.main server fuel now w = (Some (Ok ()), w') →
     ∃ jobs, hays_output w' jobs ∧
       Forall (λ j, newer_or_equal (Hays.posted j) (hays_cutoff now)) jobs) ∧
  (∀ server fuel now w w',
     Judge.main server fuel now w = (Some (Ok ()), w') →
     ∃ jobs, judge_output w' jobs ∧
       Forall (λ j, newer_or_equal (Judge.opened j) (day_cutoff now)) jobs) ∧
  (∀ web now w w',
     JobExtract.main web now w = (Some (Ok ()), w') →
     ∃ jobs, insight_output w' jobs ∧
       Forall (λ j, newer_or_equal (JobExtract.posted j) (day_cutoff now)) jobs) ∧
  (∀ server now w w',
     Yoh.main server now w = (Some (Ok ()), w') →
     ∃ jobs, yoh_output w' jobs ∧
       Forall (λ j, ∃ d, Yoh.parse_timestamp j = Ok (Some d) ∧
                         newer_or_equal d (day_cutoff now)) jobs).
Proof.
  assert (∀ now h, aware (minus_hours (datetime_now_utc now) h)) as Haware
    by (intros; by eexists).
  repeat split.
  - intros server fuel now w w' Hrun.
    apply hays_main_Ok in Hrun as (jobs & w1 & Hcollect & Hout & _).
    exists jobs. split; [done|].
    by destruct (hays_collect_spec _ _ _ _ _ _ (Haware _ _) Hcollect).
  - intros server fuel now w w' Hrun.
    apply judge_main_Ok in Hrun as (jobs & w1 & Hcollect & Hout & _).
    exists jobs. split; [done|].
    by destruct (judge_collect_spec _ _ _ _ _ _ (Haware _ _) Hcollect).
  - intros web now w w' Hrun.
    apply insight_main_Ok in Hrun as (jobs & w1 & Hcollect & Hout & _).
    exists jobs. split; [done|].
    by destruct (insight_scrape_spec _ _ _ _ _ (Haware _ _) Hcollect).
  - intros server now w w' Hrun.
    apply yoh_main_Ok in Hrun as (jobs & w1 & Hcollect & Hout & _).
    exists jobs. split; [done|].
    by destruct (yoh_recent_jobs_spec _ _ _ _ _ (Haware _ _) Hcollect).
Qed.

(** C2.  Whenever a script runs to its end, the postings are rendered into
    the text file and into the spreadsheet in one order, and in that order
    every posting is at or after the one that follows it. *)
Theorem output_sorted_newest_first `{PyLib} :
  (∀ server fuel now w w',
     Hays.main server fuel now w = (Some (Ok ()), w') →
     ∃ jobs, hays_output w' jobs ∧
       Sorted (λ a b, newer_or_equal (Hays.posted a) (Hays.posted b)) jobs) ∧
  (∀ server fuel now w w',
     Judge.main server fuel now w = (Some (Ok ()), w') →
     ∃ jobs, judge_output w' jobs ∧
       Sorted (λ a b, newer_or_equal (Judge.opened a) (Judge.opened b)) jobs) ∧
  (∀ web now w w',
     JobExtract.main web now w = (Some (Ok ()), w') →
     ∃ jobs, insight_output w' jobs ∧
       Sorted (λ a b, newer_or_equal (JobExtract.posted a) (JobExtract.posted b)) jobs) ∧
  (∀ server now w w',
     Yoh.main server now w = (Some (Ok ()), w') →
     ∃ jobs, yoh_output w' jobs ∧
       Sorted (λ a b, ∃ da db, Yoh.parse_timestamp a = Ok (Some da) ∧
                               Yoh.parse_timestamp b = Ok (Some db) ∧
                               newer_or_equal da db) jobs).
Proof.
  assert (∀ now h, aware (minus_hours (datetime_now_utc now) h)) as Haware
    by (intros; by eexists).
  repeat split.
  - intros server fuel now w w' Hrun.
    apply hays_main_Ok in Hrun as (jobs & w1 & Hcollect & Hout & _).
    exists jobs. split; [done|].
    by destruct (hays_collect_spec _ _ _ _ _ _ (Haware _ _) Hcollect).
  - intros server fuel now w w' Hrun.
    apply judge_main_Ok in Hrun as (jobs & w1 & Hcollect & Hout & _).
    exists jobs. split; [done|].
    by destruct (judge_collect_spec _ _ _ _ _ _ (Haware _ _) Hcollect).
  - intros web now w w' Hrun.
    apply insight_main_Ok in Hrun as (jobs & w1 & Hcollect & Hout & _).
    exists jobs. split; [done|].
    by destruct (insight_scrape_spec _ _ _ _ _ (Haware _ _) Hcollect).
  - intros server now w w' Hrun.
    apply yoh_main_Ok in Hrun as (jobs & w1 & Hcollect & Hout & _).
    exists jobs. split; [done|].
    by destruct (yoh_recent_jobs_spec _ _ _ _ _ (Haware _ _) Hcollect).
Qed.

Lemma sample_runs_end :
  sample_hays_run = (Some (Ok ()), snd sample_hays_run) ∧
  sample_judge_run = (Some (Ok ()), snd sample_judge_run) ∧
  sample_insight_run = (Some (Ok ()), snd sample_insight_run) ∧
  sample_yoh_run = (Some (Ok ()), snd sample_yoh_run).
Proof. repeat split; vm_compute; reflexivity. Defined.

Lemma output_postings_at_or_after_cutoff_witness :
  (∃ jobs, hays_output (H:=sample_lib) (snd sample_hays_run) jobs ∧
     Forall (λ j, newer_or_equal (Hays.posted j) (hays_cutoff sample_now)) jobs) ∧
  (∃ jobs, judge_output (H:=sample_lib) (snd sample_judge_run) jobs ∧
     Forall (λ j, newer_or_equal (Judge.opened j) (day_cutoff sample_now)) jobs) ∧
  (∃ jobs, insight_output (H:=sample_lib) (snd sample_insight_run) jobs ∧
     Forall (λ j, newer_or_equal (JobExtract.posted j) (day_cutoff sample_now)) jobs) ∧
  (∃ jobs, yoh_output (H:=sample_lib) (snd sample_yoh_run) jobs ∧
     Forall (λ j, ∃ d, Yoh.parse_timestamp (H:=sample_lib) j = Ok (Some d) ∧
                       newer_or_equal d (day_cutoff sample_now)) jobs).
Proof.
  destruct (@output_postings_at_or_after_cutoff sample_lib) as (Hh & Hj & Hi & Hy).
  destruct sample_runs_end as (Rh & Rj & Ri & Ry).
  split; [|split; [|split]].
  - exact (Hh sample_hays_server 3%nat sample_now empty_world _ Rh).
  - exact (Hj sample_judge_server 3%nat sample_now empty_world _ Rj).
  - exact (Hi sample_web sample_now empty_world _ Ri).
  - exact (Hy (Ok sample_yoh_feed) sample_now empty_world _ Ry).
Defined.

Lemma output_sorted_newest_first_witness :
  (∃ jobs, hays_output (H:=sample_lib) (snd sample_hays_run) jobs ∧
     Sorted (λ a b, newer_or_equal (Hays.posted a) (Hays.posted b)) jobs) ∧
  (∃ jobs, judge_output (H:=sample_lib) (snd sample_judge_run) jobs ∧
     Sorted (λ a b, newer_or_equal (Judge.opened a) (Judge.opened b)) jobs) ∧
  (∃ jobs, insight_output (H:=sample_lib) (snd sample_insight_run) jobs ∧
     Sorted (λ a b, newer_or_equal (JobExtract.posted a) (JobExtract.posted b)) jobs) ∧
  (∃ jobs, yoh_output (H:=sample_lib) (snd sample_yoh_run) jobs ∧
     Sorted (λ a b, ∃ da db, Yoh.parse_timestamp (H:=sample_lib) a = Ok (Some da) ∧
                             Yoh.parse_timestamp (H:=sample_lib) b = Ok (Some db) ∧
                             newer_or_equal da db) jobs).
Proof.
  destruct (@output_sorted_newest_first sample_lib) as (Hh & Hj & Hi & Hy).
  destruct sample_runs_end as (Rh & Rj & Ri & Ry).
  split; [|split; [|split]].
  - exact (Hh sample_hays_server 3%nat sample_now empty_world _ Rh).
  - exact (Hj sample_judge_server 3%nat sample_now empty_world _ Rj).
  - exact (Hi sample_web sample_now empty_world _ Ri).
  - exact (Hy (Ok sample_yoh_feed) sample_now empty_world _ Ry).
Defined.

Section EmptyRuns.
Context `{PyLib}.

Lemma hays_empty_run server fuel now w w1 :
  Hays.collect_recent_jobs server fuel (hays_cutoff now) w = (Some (Ok []), w1) →
  fst (Hays.main server fuel now w) = Some (Ok ()) ∧
  files (snd (Hays.main server fuel now w)) !! "hays_jobs_last_24h.txt"
    = Some (TextFile sentinel).
Proof.
  intros Hcollect. unfold Hays.main.
  erewrite io_bind_run; [|exact Hcollect].
  unfold Hays.write_text, Hays.write_excel, mbind, io_bind, lift, write_file, print.
  simpl. split; [done|].
  rewrite lookup_insert_ne by done. apply lookup_insert_eq.
Qed.

Lemma judge_empty_run server fuel now w w1 :
  Judge.collect_recent_jobs server fuel (day_cutoff now) w = (Some (Ok []), w1) →
  fst (Judge.main server fuel now w) = Some (Ok ()) ∧
  files (snd (Judge.main server fuel now w)) !! "judge_jobs_last_24h.txt"
    = Some (TextFile sentinel).
Proof.
  intros Hcollect. unfold Judge.main.
  erewrite io_bind_run; [|exact Hcollect].
  unfold Judge.write_text, Judge.write_excel, mbind, io_bind, lift, write_file, print.
  simpl. split; [done|].
  rewrite lookup_insert_ne by done. apply lookup_insert_eq.
Qed.

Lemma insight_empty_run web now w w1 :
  JobExtract.scrape_recent_jobs web (day_cutoff now) w = (Some (Ok []), w1) →
  fst (JobExtract.main web now w) = Some (Ok ()) ∧
  files (snd (JobExtract.main web now w)) !! "jobs_last_24h.txt"
    = Some (TextFile sentinel).
Proof.
  intros Hcollect. unfold JobExtract.main.
  erewrite io_bind_run; [|exact Hcollect].
  unfold JobExtract.write_output, JobExtract.write_excel, mbind, io_bind, lift, write_file, print.
  simpl. split; [done|].
  rewrite lookup_insert_ne by done. apply lookup_insert_eq.
Qed.

Lemma yoh_empty_run server now w w1 :
  Yoh.recent_jobs server (day_cutoff now) w = (Some (Ok []), w1) →
  fst (Yoh.main server now w) = Some (Ok ()) ∧
  files (snd (Yoh.main server now w)) !! "yoh_jobs_last_24h.txt"
    = Some (TextFile sentinel).
Proof.
  intros Hcollect. unfold Yoh.main.
  erewrite io_bind_run; [|exact Hcollect].
  unfold Yoh.write_text, Yoh.write_excel, mbind, io_bind, lift, write_file, print.
  simpl. split; [done|].
  rewrite lookup_insert_ne by done. apply lookup_insert_eq.
Qed.
End EmptyRuns.

(** C8.  With no qualifying posting, the text writer of each script still
    writes its file, and the content is the sentinel line and not the
    empty string; so a run whose collection comes back empty ends normally
    with that line in its text file. *)
Theorem empty_result_writes_sentinel `{PyLib} :
  (∀ path w,
     files (snd (Hays.write_text [] path w)) !! path
       = Some (TextFile "No jobs found in the last 24 hours.") ∧
     files (snd (Judge.write_text [] path w)) !! path
       = Some (TextFile "No jobs found in the last 24 hours.") ∧
     files (snd (JobExtract.write_output [] path w)) !! path
       = Some (TextFile "No jobs found in the last 24 hours.") ∧
     files (snd (Yoh.write_text [] path w)) !! path
       = Some (TextFile "No jobs found in the last 24 hours.")) ∧
  (∀ server fuel now w w1,
     Hays.collect_recent_jobs server fuel (hays_cutoff now) w = (Some (Ok []), w1) →
     fst (Hays.main server fuel now w) = Some (Ok ()) ∧
     files (snd (Hays.main server fuel now w)) !! "hays_jobs_last_24h.txt"
       = Some (TextFile "No jobs found in the last 24 hours.")) ∧
  (∀ server fuel now w w1,
     Judge.collect_recent_jobs server fuel (day_cutoff now) w = (Some (Ok []), w1) →
     fst (Judge.main server fuel now w) = Some (Ok ()) ∧
     files (snd (Judge.main server fuel now w)) !! "judge_jobs_last_24h.txt"
       = Some (TextFile "No jobs found in the last 24 hours.")) ∧
  (∀ web now w w1,
     JobExtract.scrape_recent_jobs web (day_cutoff now) w = (Some (Ok []), w1) →
     fst (JobExtract.main web now w) = Some (Ok ()) ∧
     files (snd (JobExtract.main web now w)) !! "jobs_last_24h.txt"
       = Some (TextFile "No jobs found in the last 24 hours.")) ∧
  (∀ server now w w1,
     Yoh.recent_jobs server (day_cutoff now) w = (Some (Ok []), w1) →
     fst (Yoh.main server now w) = Some (Ok ()) ∧
     files (snd (Yoh.main server now w)) !! "yoh_jobs_last_24h.txt"
       = Some (TextFile "No jobs found in the last 24 hours.")).
Proof.
  split; [|split; [|split; [|split]]].
  - intros path w. repeat split; cbn; apply lookup_insert_eq.
  - apply @hays_empty_run.
  - apply @judge_empty_run.
  - apply @insight_empty_run.
  - apply @yoh_empty_run.
Qed.

Lemma empty_result_writes_sentinel_witness :
  files (snd (Hays.main (H:=sample_lib) empty_hays_server 2 sample_now empty_world))
    !! "hays_jobs_last_24h.txt"
    = Some (TextFile "No jobs found in the last 24 hours.") ∧
  files (snd (Judge.main (H:=sample_lib) empty_judge_server 2 sample_now empty_world))
    !! "judge_jobs_last_24h.txt"
    = Some (TextFile "No jobs found in the last 24 hours.") ∧
  files (snd (JobExtract.main (H:=sample_lib) empty_web sample_now empty_world))
    !! "jobs_last_24h.txt"
    = Some (TextFile "No jobs found in the last 24 hours.") ∧
  files (snd (Yoh.main (H:=sample_lib) empty_yoh_feed sample_now empty_world))
    !! "yoh_jobs_last_24h.txt"
    = Some (TextFile "No jobs found in the last 24 hours.").
Proof.
  destruct (@empty_result_writes_sentinel sample_lib) as (_ & Hh & Hj & Hi & Hy).
  split; [|split; [|split]].
  - apply (Hh empty_hays_server 2%nat sample_now empty_world
              (World [HaysRequest 0 50] ∅ [] [])). reflexivity.
  - apply (Hj empty_judge_server 2%nat sample_now empty_world
              (World [JudgeRequest 0] ∅ [] [])). reflexivity.
  - apply (Hi empty_web sample_now empty_world
              (World [HttpGet (JobExtract.page_url 1)] ∅ [] [])). reflexivity.
  - apply (Hy empty_yoh_feed sample_now empty_world
              (World [HttpGet Yoh.ENDPOINT] ∅ [] [])). reflexivity.
Defined.

Lemma hays_parse_posted_date_aware `{PyLib} (raw : json) (d : datetime) :
  Hays.parse_posted_date raw = Ok (Some d) → aware d.
Proof.
  unfold Hays.parse_posted_date. destruct (negb (truthy raw)); [discriminate|].
  intros Hp. apply result_bind_Ok in Hp as (s & _ & Hp).
  destruct (fromisoformat (replace_Z s)) as [parsed|]; [|discriminate].
  injection Hp as <-. unfold aware.
  destruct (tzinfo parsed) eqn:Htz; [by rewrite Htz | by eexists].
Qed.

Lemma insight_parse_posted_date_aware `{PyLib} (raw : json) (d : datetime) :
  JobExtract.parse_posted_date raw = Ok (Some d) → aware d.
Proof.
  unfold JobExtract.parse_posted_date. destruct raw; try discriminate.
  destruct (search_Date s); [|discriminate].
  intros Hp. apply result_bind_Ok in Hp as (t & _ & [= <-]). by eexists.
Qed.

Lemma dt_ge_aware (a b : datetime) :
  aware a → aware b → ∃ flag, dt_ge a b = Ok flag.
Proof. intros [oa Ha] [ob Hb]. unfold dt_ge. rewrite Ha, Hb. eauto. Qed.

(** C10.  Whatever its input, a timestamp parser that returns gives [None]
    or a timezone-aware datetime (the Judge parser, which has no [None]
    result, always an aware one); so comparing a parsed timestamp with an
    aware cutoff, by [<] or by [>=], yields a truth value and never the
    [TypeError] of a naive operand against an aware one. *)
Theorem parsed_timestamps_are_aware `{PyLib} :
  (∀ raw d, Hays.parse_posted_date raw = Ok (Some d) → aware d) ∧
  (∀ raw d, JobExtract.parse_posted_date raw = Ok (Some d) → aware d) ∧
  (∀ ts d, Judge.parse_opened ts = Ok d → aware d) ∧
  (∀ j d, Yoh.parse_timestamp j = Ok (Some d) → aware d) ∧
  (∀ d cutoff, aware d → aware cutoff →
     (∃ flag, dt_lt d cutoff = Ok flag) ∧ (∃ flag, dt_ge d cutoff = Ok flag)).
Proof.
  split; [|split; [|split; [|split]]].
  - apply hays_parse_posted_date_aware.
  - apply insight_parse_posted_date_aware.
  - apply judge_parse_opened_aware.
  - apply yoh_parse_timestamp_aware.
  - intros d cutoff Hd Hc. split; [by apply dt_lt_aware | by apply dt_ge_aware].
Qed.

Lemma parsed_timestamps_are_aware_witness :
  aware (DateTime 1714734000000000 (Some 0)) ∧
  aware (DateTime 1714728600000000 (Some 0)) ∧
  aware (DateTime 1714694400000000 (Some 0)) ∧
  (∃ flag, dt_lt (DateTime 1714734000000000 (Some 0)) (day_cutoff sample_now) = Ok flag).
Proof.
  destruct (@parsed_timestamps_are_aware sample_lib) as (Hh & Hi & Hj & Hy & Hcmp).
  split; [|split; [|split]].
  - apply (Hh (JStr "2024-05-03T11:00:00")). reflexivity.
  - apply (Hj (JInt 1714728600000)). reflexivity.
  - apply (Hy (JDict [("data", JDict [("postedDate", JStr "03-05-2024")])])).
    reflexivity.
  - apply Hcmp.
    + apply (Hh (JStr "2024-05-03T11:00:00")). reflexivity.
    + by eexists.
Defined.

Lemma string_length_app (s1 s2 : string) :
  String.length (s1 +:+ s2) = (String.length s1 + String.length s2)%nat.
Proof. induction s1 as [|c s1 IH]; simpl; [done | by rewrite IH]. Qed.

(** C9, as stated, fails twice: the Insight Global script names its files
    without any source prefix, and a run that ends in an exception writes
    no file at all. *)
Lemma output_names_counterexample :
  (fst sample_insight_run = Some (Ok ()) ∧
   ¬ ∃ source, is_Some (files (snd sample_insight_run)
                          !! (source +:+ "_jobs_last_24h.txt"))) ∧
  (fst unreachable_hays_run = Some (Raise (URLError "unreachable")) ∧
   files (snd unreachable_hays_run) = ∅).
Proof.
  split; split.
  - vm_compute. reflexivity.
  - intros [source [f Hf]].
    destruct sample_runs_end as (_ & _ & Hrun & _).
    apply insight_main_Ok in Hrun as (jobs & w1 & _ & _ & (content & wb & Hfiles)).
    rewrite Hfiles in Hf.
    apply lookup_insert_Some in Hf as [[Heq _]|[_ Hf]].
    + clear -Heq. destruct source as [|c source]; [discriminate Heq|].
      apply (f_equal String.length) in Heq. rewrite string_length_app in Heq.
      simpl in Heq. lia.
    + apply lookup_insert_Some in Hf as [[Heq _]|[_ Hf]].
      * clear -Heq. apply (f_equal String.length) in Heq.
        rewrite string_length_app in Heq. simpl in Heq. lia.
      * clear -Hf. change (files empty_world) with (∅ : gmap string file) in Hf.
        rewrite lookup_empty in Hf. discriminate Hf.
  - vm_compute. reflexivity.
  - vm_compute. reflexivity.
Qed.

(** C9, amended.  Every run that ends without an exception has written
    exactly two files over whatever was there, a text file and a workbook:
    [hays_jobs_last_24h], [judge_jobs_last_24h] and [yoh_jobs_last_24h]
    with the extensions [.txt] and [.xlsx], and for the Insight Global
    script [jobs_last_24h.txt] and [jobs_last_24h.xlsx]. *)
Theorem completed_run_writes_two_files `{PyLib} :
  (∀ server fuel now w w',
     Hays.main server fuel now w = (Some (Ok ()), w') →
     two_files_written (files w) (files w')
       "hays_jobs_last_24h.txt" "hays_jobs_last_24h.xlsx") ∧
  (∀ server fuel now w w',
     Judge.main server fuel now w = (Some (Ok ()), w') →
     two_files_written (files w) (files w')
       "judge_jobs_last_24h.txt" "judge_jobs_last_24h.xlsx") ∧
  (∀ web now w w',
     JobExtract.main web now w = (Some (Ok ()), w') →
     two_files_written (files w) (files w')
       "jobs_last_24h.txt" "jobs_last_24h.xlsx") ∧
  (∀ server now w w',
     Yoh.main server now w = (Some (Ok ()), w') →
     two_files_written (files w) (files w')
       "yoh_jobs_last_24h.txt" "yoh_jobs_last_24h.xlsx").
Proof.
  split; [|split; [|split]].
  - intros server fuel now w w' Hrun.
    by apply hays_main_Ok in Hrun as (jobs & w1 & _ & _ & Hfiles).
  - intros server fuel now w w' Hrun.
    by apply judge_main_Ok in Hrun as (jobs & w1 & _ & _ & Hfiles).
  - intros web now w w' Hrun.
    by apply insight_main_Ok in Hrun as (jobs & w1 & _ & _ & Hfiles).
  - intros server now w w' Hrun.
    by apply yoh_main_Ok in Hrun as (jobs & w1 & _ & _ & Hfiles).
Qed.

Lemma completed_run_writes_two_files_witness :
  two_files_written ∅ (files (snd sample_hays_run))
    "hays_jobs_last_24h.txt" "hays_jobs_last_24h.xlsx" ∧
  two_files_written ∅ (files (snd sample_judge_run))
    "judge_jobs_last_24h.txt" "judge_jobs_last_24h.xlsx" ∧
  two_files_written ∅ (files (snd sample_insight_run))
    "jobs_last_24h.txt" "jobs_last_24h.xlsx" ∧
  two_files_written ∅ (files (snd sample_yoh_run))
    "yoh_jobs_last_24h.txt" "yoh_jobs_last_24h.xlsx".
Proof.
  destruct (@completed_run_writes_two_files sample_lib) as (Hh & Hj & Hi & Hy).
  destruct sample_runs_end as (Rh & Rj & Ri & Ry).
  split; [|split; [|split]].
  - exact (Hh sample_hays_server 3%nat sample_now empty_world _ Rh).
  - exact (Hj sample_judge_server 3%nat sample_now empty_world _ Rj).
  - exact (Hi sample_web sample_now empty_world _ Ri).
  - exact (Hy (Ok sample_yoh_feed) sample_now empty_world _ Ry).
Defined.

(** ** Transport failures *)

Section TransportFailures.
Context `{PyLib}.

Lemma insight_fetch_failure_stops web cutoff page rest recent w e :
  web (JobExtract.page_url page) = Raise e → is_URLError e = true →
  JobExtract.scrape_pages web cutoff (page :: rest) recent w
  = (Some (Ok recent),
     World (requests w ++ [HttpGet (JobExtract.page_url page)])%list (files w)
           (stdout w)
           (stderr w ++ ["Failed to fetch page " +:+ pretty page +:+ ": "
                         +:+ exn_str e])%list).
Proof.
  intros Hweb Hcatch. simpl.
  unfold mbind, io_bind, try_except, JobExtract.fetch, send.
  rewrite Hweb, Hcatch. reflexivity.
Qed.

Lemma hays_fetch_failure_raises server fuel cutoff skip total recent w e :
  server skip Hays.top = Raise e →
  Hays.paginate server (S fuel) cutoff skip total recent w
  = (Some (Raise e), after_request w (HaysRequest skip Hays.top)).
Proof.
  intros Hserver. simpl. unfold mbind, io_bind, Hays.fetch_page, send.
  rewrite Hserver. reflexivity.
Qed.

Lemma judge_fetch_failure_raises server fuel cutoff page recent w e :
  server page = Raise e →
  Judge.paginate server (S fuel) cutoff page recent w
  = (Some (Raise e), after_request w (JudgeRequest page)).
Proof.
  intros Hserver. simpl. unfold mbind, io_bind, Judge.fetch_page, send.
  rewrite Hserver. reflexivity.
Qed.

Lemma hays_collect_failure_no_output server fuel now w e w1 :
  Hays.collect_recent_jobs server fuel (hays_cutoff now) w = (Some (Raise e), w1) →
  Hays.main server fuel now w = (Some (Raise e), w1) ∧
  files w1 = files w ∧ stdout w1 = stdout w ∧ stderr w1 = stderr w.
Proof.
  intros Hcollect. split.
  - unfold Hays.main. unfold hays_cutoff in Hcollect.
    unfold mbind at 1. unfold io_bind. by rewrite Hcollect.
  - pose proof (hays_collect_quiet server files fuel (hays_cutoff now)
                  (λ rq answer, send_preserves_files rq answer) w) as Hf.
    pose proof (hays_collect_quiet server stdout fuel (hays_cutoff now)
                  (λ rq answer, send_preserves_stdout rq answer) w) as Ho.
    pose proof (hays_collect_quiet server stderr fuel (hays_cutoff now)
                  (λ rq answer, send_preserves_stderr rq answer) w) as He.
    rewrite Hcollect in Hf, Ho, He. done.
Qed.

Lemma judge_collect_failure_no_output server fuel now w e w1 :
  Judge.collect_recent_jobs server fuel (day_cutoff now) w = (Some (Raise e), w1) →
  Judge.main server fuel now w = (Some (Raise e), w1) ∧
  files w1 = files w ∧ stdout w1 = stdout w ∧ stderr w1 = stderr w.
Proof.
  intros Hcollect. split.
  - unfold Judge.main. unfold day_cutoff in Hcollect.
    unfold mbind at 1. unfold io_bind. by rewrite Hcollect.
  - pose proof (judge_collect_quiet server files fuel (day_cutoff now)
                  (λ rq answer, send_preserves_files rq answer) w) as Hf.
    pose proof (judge_collect_quiet server stdout fuel (day_cutoff now)
                  (λ rq answer, send_preserves_stdout rq answer) w) as Ho.
    pose proof (judge_collect_quiet server stderr fuel (day_cutoff now)
                  (λ rq answer, send_preserves_stderr rq answer) w) as He.
    rewrite Hcollect in Hf, Ho, He. done.
Qed.
End TransportFailures.

Lemma insight_first_fetch_failure `{PyLib} web now w e :
  web (JobExtract.page_url 1) = Raise e → is_URLError e = true →
  JobExtract.main web now w
  = (Some (Ok ()),
     World (requests w ++ [HttpGet (JobExtract.page_url 1)])%list
           (<["jobs_last_24h.xlsx" :=
                XlsxFile (Workbook "Jobs (last 24h)" [JobExtract.excel_header]
                                   JobExtract.excel_widths)]>
              (<["jobs_last_24h.txt" := TextFile sentinel]> (files w)))
           (stdout w ++ ["Wrote 0 jobs to jobs_last_24h.txt and jobs_last_24h.xlsx"])%list
           (stderr w ++ ["Failed to fetch page 1: " +:+ exn_str e])%list).
Proof.
  intros Hweb Hcatch.
  unfold JobExtract.main, JobExtract.scrape_recent_jobs.
  change (seq 1 JobExtract.MAX_PAGES) with (1%nat :: seq 2 49).
  erewrite io_bind_run; cycle 1.
  { erewrite io_bind_run; [|by apply insight_fetch_failure_stops]. reflexivity. }
  reflexivity.
Qed.

Lemma yoh_fetch_failure_raises `{PyLib} now w e :
  Yoh.main (Raise e) now w = (Some (Raise e), after_request w (HttpGet Yoh.ENDPOINT)).
Proof. reflexivity. Qed.

(** A run of the Insight Global script whose second fetch fails: two
    requests were sent, the failure is on the diagnostic stream, and the
    text file holds the posting of the first page. *)
Example insight_failure_on_second_page :
  fst sample_insight_run = Some (Ok ()) ∧
  requests (snd sample_insight_run)
    = [HttpGet (JobExtract.page_url 1); HttpGet (JobExtract.page_url 2)] ∧
  stderr (snd sample_insight_run)
    = ["Failed to fetch page 2: <urlopen error timed out>"] ∧
  files (snd sample_insight_run) !! "jobs_last_24h.txt"
    = Some (TextFile
              ("Data Engineer | Austin, TX | Contract | Posted: "
               +:+ "%Y-%m-%d %H:%M:%SZ@1714728600000000"
               +:+ " | https://jobs.insightglobal.com/jobs/41")).
Proof. repeat split; vm_compute; reflexivity. Qed.

Section InsightFailures.
Context `{PyLib}.
Variable web : string → result string.

Lemma insight_crawl_continues cutoff pages rest recent w recent' w' :
  insight_crawl web cutoff pages recent w recent' w' →
  JobExtract.scrape_pages web cutoff (pages ++ rest) recent w
  = JobExtract.scrape_pages web cutoff rest recent' w'.
Proof.
  induction 1 as [|page pages recent w html_text recent1 recent' w' Hweb Hne Hfor _ IH];
    [done|].
  rewrite <- IH. cbn [app JobExtract.scrape_pages].
  erewrite io_bind_run; cycle 1.
  { unfold try_except, JobExtract.fetch, send, mbind, io_bind.
    rewrite Hweb. reflexivity. }
  fold (after_request w (HttpGet (JobExtract.page_url page))). cbv beta iota.
  destruct (JobExtract.parse_jobs html_text) as [|entry entries] eqn:Hparse; [done|].
  erewrite io_bind_run; [|by unfold lift; rewrite Hfor]. reflexivity.
Qed.

Lemma insight_crawl_fresh cutoff pages recent w recent' w' :
  aware cutoff →
  insight_crawl web cutoff pages recent w recent' w' →
  Forall (λ r, newer_or_equal (JobExtract.posted r) cutoff) recent →
  Forall (λ r, newer_or_equal (JobExtract.posted r) cutoff) recent'.
Proof.
  intros Hcut.
  induction 1 as [|page pages recent w html_text recent1 recent' w' _ _ Hfor _ IH];
    [done|].
  intros Hrecent. apply IH.
  change recent1 with (snd (true, recent1)).
  eapply (for_each_invariant
            (λ s, Forall (λ r, newer_or_equal (JobExtract.posted r) cutoff) (snd s)));
    [| |exact Hfor]; [|exact Hrecent].
  intros s0 entry s1 Hs0 Hkeep.
  apply insight_keep_recent_inv in Hkeep as [->|(r & -> & Hlt)]; [done|].
  simpl. apply Forall_app. split; [done|]. constructor; [|done].
  by apply dt_lt_false_newer.
Qed.

Lemma insight_crawl_quiet {C} (proj : world → C) cutoff pages recent w recent' w' :
  (∀ w0 rq, proj (after_request w0 rq) = proj w0) →
  insight_crawl web cutoff pages recent w recent' w' → proj w' = proj w.
Proof.
  intros Hrq.
  induction 1 as [|page pages recent w html_text recent1 recent' w' _ _ _ _ IH];
    [done|].
  by rewrite IH, Hrq.
Qed.

Lemma insight_failure_after_crawl now w pre page rest recent w1 e :
  seq 1 JobExtract.MAX_PAGES = (pre ++ page :: rest)%list →
  insight_crawl web (day_cutoff now) pre [] w recent w1 →
  web (JobExtract.page_url page) = Raise e → is_URLError e = true →
  ∃ jobs,
    sort_desc (λ j, Ok (JobExtract.posted j)) recent = Ok jobs ∧
    ∀ lines rows,
      mapM JobExtract.text_line jobs = Ok lines →
      mapM JobExtract.excel_row jobs = Ok rows →
      JobExtract.main web now w
      = (Some (Ok ()),
         World (requests w1 ++ [HttpGet (JobExtract.page_url page)])%list
               (<["jobs_last_24h.xlsx" :=
                    XlsxFile (Workbook "Jobs (last 24h)"
                                (JobExtract.excel_header :: rows)
                                JobExtract.excel_widths)]>
                  (<["jobs_last_24h.txt" := TextFile (text_output lines)]> (files w)))
               (stdout w ++ ["Wrote " +:+ pretty (length jobs) +:+
                             " jobs to jobs_last_24h.txt and jobs_last_24h.xlsx"])%list
               (stderr w ++ ["Failed to fetch page " +:+ pretty page +:+ ": "
                             +:+ exn_str e])%list).
Proof.
  intros Hseq Hcrawl Hweb Hcatch.
  assert (aware (day_cutoff now)) as Hcut by (by eexists).
  destruct (sort_desc_total (λ j, Ok (JobExtract.posted j)) recent) as [jobs Hsort].
  { eapply Forall_impl;
      [apply (insight_crawl_fresh _ _ _ _ _ _ Hcut Hcrawl); constructor|].
    intros r Hr. exists (JobExtract.posted r). split; [done|].
    eapply newer_or_equal_aware_l, Hr. }
  exists jobs. split; [done|]. intros lines rows Hlines Hrows.
  pose proof (insight_crawl_quiet files _ _ _ _ _ _ (λ _ _, eq_refl) Hcrawl) as Hfiles.
  pose proof (insight_crawl_quiet stdout _ _ _ _ _ _ (λ _ _, eq_refl) Hcrawl) as Hout.
  pose proof (insight_crawl_quiet stderr _ _ _ _ _ _ (λ _ _, eq_refl) Hcrawl) as Herr.
  rewrite <- Hfiles, <- Hout, <- Herr.
  unfold JobExtract.main, JobExtract.scrape_recent_jobs. rewrite Hseq.
  erewrite io_bind_run; cycle 1.
  { erewrite io_bind_run; cycle 1.
    { rewrite (insight_crawl_continues _ _ _ _ _ _ _ Hcrawl).
      unfold day_cutoff.
      cbn [JobExtract.scrape_pages].
      unfold mbind, io_bind, try_except, JobExtract.fetch, send.
      rewrite Hweb, Hcatch. reflexivity. }
    unfold lift. rewrite Hsort. reflexivity. }
  erewrite io_bind_run; cycle 1.
  { unfold JobExtract.write_output. erewrite io_bind_run; [reflexivity|].
    unfold lift. by rewrite Hlines. }
  erewrite io_bind_run; cycle 1.
  { unfold JobExtract.write_excel. erewrite io_bind_run; [reflexivity|].
    unfold lift. by rewrite Hrows. }
  reflexivity.
Qed.

Lemma insight_other_failure_raises cutoff page rest recent w e :
  web (JobExtract.page_url page) = Raise e → is_URLError e = false →
  JobExtract.scrape_pages web cutoff (page :: rest) recent w
  = (Some (Raise e), after_request w (HttpGet (JobExtract.page_url page))).
Proof.
  intros Hweb Hcatch. simpl.
  unfold mbind, io_bind, try_except, JobExtract.fetch, send.
  rewrite Hweb, Hcatch. reflexivity.
Qed.

Lemma insight_collect_failure_no_output now w e w1 :
  JobExtract.scrape_recent_jobs web (day_cutoff now) w = (Some (Raise e), w1) →
  JobExtract.main web now w = (Some (Raise e), w1) ∧
  files w1 = files w ∧ stdout w1 = stdout w.
Proof.
  intros Hcollect. split.
  - unfold JobExtract.main. unfold day_cutoff in Hcollect.
    unfold mbind at 1. unfold io_bind. by rewrite Hcollect.
  - pose proof (insight_scrape_quiet web files (day_cutoff now)
                  (λ rq answer, send_preserves_files rq answer)
                  print_stderr_preserves_files w) as Hf.
    pose proof (insight_scrape_quiet web stdout (day_cutoff now)
                  (λ rq answer, send_preserves_stdout rq answer)
                  print_stderr_preserves_stdout w) as Ho.
    rewrite Hcollect in Hf, Ho. done.
Qed.
End InsightFailures.

(** C7, as stated, fails for a transport failure that [urllib] does not
    wrap in [URLError]: a connection reset while the body of the first
    page is read is caught by no script, the Insight Global one included,
    and its run raises without a file written or a line printed. *)
Lemma transport_failure_counterexample :
  is_URLError (ConnectionError "[Errno 104] Connection reset by peer") = false ∧
  reset_insight_run
  = (Some (Raise (ConnectionError "[Errno 104] Connection reset by peer")),
     World [HttpGet (JobExtract.page_url 1)] ∅ [] []).
Proof. split; reflexivity. Qed.

(** C7, amended.  When a page fetch raises [URLError] (or its subclass
    [HTTPError]), only the Insight Global script catches it: from any
    point of its loop it writes the failure to the diagnostic stream,
    sends no further request and returns what it had collected; [main]
    then sorts that collection and, when every posting can be rendered,
    ends normally with both files holding it, and a run whose first fetch
    fails ends normally with both files written.  Any other exception of
    the fetch leaves the Insight Global loop, and a collection that raises
    makes its [main] raise with no file written.  In the Hays and Judge
    loops every exception of the fetch leaves the loop from any point, and
    a collection that raises makes [main] raise with no file written and
    nothing printed; the Yoh script raises from its single fetch before it
    writes anything. *)
Theorem transport_failure_handling `{PyLib} :
  (∀ web cutoff page rest recent w e,
     web (JobExtract.page_url page) = Raise e → is_URLError e = true →
     JobExtract.scrape_pages web cutoff (page :: rest) recent w
     = (Some (Ok recent),
        World (requests w ++ [HttpGet (JobExtract.page_url page)])%list (files w)
              (stdout w)
              (stderr w ++ ["Failed to fetch page " +:+ pretty page +:+ ": "
                            +:+ exn_str e])%list)) ∧
  (∀ web now w e,
     web (JobExtract.page_url 1) = Raise e → is_URLError e = true →
     fst (JobExtract.main web now w) = Some (Ok ()) ∧
     two_files_written (files w) (files (snd (JobExtract.main web now w)))
       "jobs_last_24h.txt" "jobs_last_24h.xlsx") ∧
  (∀ server fuel cutoff skip total recent w e,
     server skip Hays.top = Raise e →
     Hays.paginate server (S fuel) cutoff skip total recent w
     = (Some (Raise e), after_request w (HaysRequest skip Hays.top))) ∧
  (∀ server fuel now w e w1,
     Hays.collect_recent_jobs server fuel (hays_cutoff now) w = (Some (Raise e), w1) →
     Hays.main server fuel now w = (Some (Raise e), w1) ∧
     files w1 = files w ∧ stdout w1 = stdout w ∧ stderr w1 = stderr w) ∧
  (∀ server fuel cutoff page recent w e,
     server page = Raise e →
     Judge.paginate server (S fuel) cutoff page recent w
     = (Some (Raise e), after_request w (JudgeRequest page))) ∧
  (∀ server fuel now w e w1,
     Judge.collect_recent_jobs server fuel (day_cutoff now) w = (Some (Raise e), w1) →
     Judge.main server fuel now w = (Some (Raise e), w1) ∧
     files w1 = files w ∧ stdout w1 = stdout w ∧ stderr w1 = stderr w) ∧
  (∀ now w e,
     Yoh.main (Raise e) now w
     = (Some (Raise e), after_request w (HttpGet Yoh.ENDPOINT))) ∧
  (∀ web now w pre page rest recent w1 e,
     seq 1 JobExtract.MAX_PAGES = (pre ++ page :: rest)%list →
     insight_crawl web (day_cutoff now) pre [] w recent w1 →
     web (JobExtract.page_url page) = Raise e → is_URLError e = true →
     ∃ jobs,
       sort_desc (λ j, Ok (JobExtract.posted j)) recent = Ok jobs ∧
       ∀ lines rows,
         mapM JobExtract.text_line jobs = Ok lines →
         mapM JobExtract.excel_row jobs = Ok rows →
         JobExtract.main web now w
         = (Some (Ok ()),
            World (requests w1 ++ [HttpGet (JobExtract.page_url page)])%list
                  (<["jobs_last_24h.xlsx" :=
                       XlsxFile (Workbook "Jobs (last 24h)"
                                   (JobExtract.excel_header :: rows)
                                   JobExtract.excel_widths)]>
                     (<["jobs_last_24h.txt" := TextFile (text_output lines)]>
                        (files w)))
                  (stdout w ++ ["Wrote " +:+ pretty (length jobs) +:+
                                " jobs to jobs_last_24h.txt and jobs_last_24h.xlsx"])%list
                  (stderr w ++ ["Failed to fetch page " +:+ pretty page +:+ ": "
                                +:+ exn_str e])%list)) ∧
  (∀ web cutoff page rest recent w e,
     web (JobExtract.page_url page) = Raise e → is_URLError e = false →
     JobExtract.scrape_pages web cutoff (page :: rest) recent w
     = (Some (Raise e), after_request w (HttpGet (JobExtract.page_url page)))) ∧
  (∀ web now w e w1,
     JobExtract.scrape_recent_jobs web (day_cutoff now) w = (Some (Raise e), w1) →
     JobExtract.main web now w = (Some (Raise e), w1) ∧
     files w1 = files w ∧ stdout w1 = stdout w).
Proof.
  split; [|split; [|split; [|split; [|split; [|split; [|split; [|split; [|split]]]]]]]].
  - apply @insight_fetch_failure_stops.
  - intros web now w e Hweb Hcatch.
    rewrite (insight_first_fetch_failure web now w e Hweb Hcatch). simpl.
    split; [done|]. by eexists _, _.
  - apply @hays_fetch_failure_raises.
  - apply @hays_collect_failure_no_output.
  - apply @judge_fetch_failure_raises.
  - apply @judge_collect_failure_no_output.
  - apply @yoh_fetch_failure_raises.
  - apply @insight_failure_after_crawl.
  - apply @insight_other_failure_raises.
  - apply @insight_collect_failure_no_output.
Qed.

Lemma transport_failure_handling_witness :
  JobExtract.scrape_pages (H:=sample_lib) sample_web (day_cutoff sample_now)
    [2%nat; 3%nat] [] empty_world
  = (Some (Ok []),
     World [HttpGet (JobExtract.page_url 2)] ∅ []
           ["Failed to fetch page 2: <urlopen error timed out>"]) ∧
  Hays.paginate (H:=sample_lib) unreachable_hays_server 1 (hays_cutoff sample_now)
    0 JNull [] empty_world
  = (Some (Raise (URLError "unreachable")), World [HaysRequest 0 50] ∅ [] []) ∧
  (unreachable_hays_run
   = (Some (Raise (URLError "unreachable")), World [HaysRequest 0 50] ∅ [] []) ∧
   (∅ : gmap string file) = ∅ ∧ @nil string = [] ∧ @nil string = []) ∧
  (∃ jobs lines rows,
     length jobs = 1%nat ∧
     mapM (JobExtract.text_line (H:=sample_lib)) jobs = Ok lines ∧
     mapM (JobExtract.excel_row (H:=sample_lib)) jobs = Ok rows ∧
     sample_insight_run
     = (Some (Ok ()),
        World [HttpGet (JobExtract.page_url 1); HttpGet (JobExtract.page_url 2)]
              (<["jobs_last_24h.xlsx" :=
                   XlsxFile (Workbook "Jobs (last 24h)"
                               (JobExtract.excel_header :: rows)
                               JobExtract.excel_widths)]>
                 (<["jobs_last_24h.txt" := TextFile (text_output lines)]> ∅))
              ["Wrote 1 jobs to jobs_last_24h.txt and jobs_last_24h.xlsx"]
              ["Failed to fetch page 2: <urlopen error timed out>"])).
Proof.
  destruct (@transport_failure_handling sample_lib)
    as (Hcatch & _ & Hloop & Hmain & _ & _ & _ & Hafter & _).
  split; [|split; [|split]].
  - apply (Hcatch sample_web (day_cutoff sample_now) 2%nat [3%nat] [] empty_world
             (URLError "timed out")); reflexivity.
  - apply (Hloop unreachable_hays_server 0%nat (hays_cutoff sample_now) 0 JNull []
             empty_world (URLError "unreachable")). reflexivity.
  - apply (Hmain unreachable_hays_server 3%nat sample_now empty_world
             (URLError "unreachable") (World [HaysRequest 0 50] ∅ [] [])).
    reflexivity.
  - edestruct (Hafter sample_web sample_now empty_world [1%nat] 2%nat (seq 3 48))
      as (jobs & Hsort & Hrun).
    + reflexivity.
    + eapply crawl_page; [reflexivity| | |apply crawl_done].
      * intros Heq. vm_compute in Heq. discriminate Heq.
      * vm_compute. reflexivity.
    + reflexivity.
    + reflexivity.
    + vm_compute in Hsort. injection Hsort as <-.
      match type of Hrun with
      | ∀ lines rows, mapM _ ?jobs = Ok lines → _ => exists jobs
      end.
      eexists _, _. split; [reflexivity|].
      split; [vm_compute; reflexivity|]. split; [vm_compute; reflexivity|].
      apply Hrun; vm_compute; reflexivity.
Defined.

(** ** Pages that end the pagination *)

Lemma older_than_dt_lt (a b : datetime) : older_than a b → dt_lt a b = Ok true.
Proof.
  intros (ta & tb & Ha & Hb & Hlt). unfold dt_lt, utc_instant in *.
  destruct (tzinfo a) as [oa|]; [|discriminate].
  destruct (tzinfo b) as [ob|]; [|discriminate].
  simpl in Ha, Hb. injection Ha as <-. injection Hb as <-.
  f_equal. by apply bool_decide_eq_true.
Qed.

Lemma for_each_unchanged {A S : Type} (body : S → A → result S) (items : list A)
    (s : S) :
  Forall (λ x, body s x = Ok s) items → for_each body items s = Ok s.
Proof.
  induction 1 as [|x rest Hx _ IH]; simpl; [done|]. by rewrite Hx.
Qed.

Section StopPages.
Context `{PyLib}.

Lemma hays_older_not_kept cutoff recent j :
  hays_record_older cutoff j → Hays.keep_recent cutoff recent j = Ok recent.
Proof.
  intros (raw & d & Hraw & Hd & Hold). unfold Hays.keep_recent.
  rewrite Hraw. simpl. rewrite Hd. simpl.
  by rewrite (older_than_dt_lt _ _ Hold).
Qed.

Lemma hays_oldest_of_older cutoff j rest :
  hays_record_older cutoff j →
  ∃ d, Hays.oldest_of (j :: rest) = Ok (Some d) ∧ dt_lt d cutoff = Ok true.
Proof.
  intros (raw & d & Hraw & Hd & Hold). exists d. simpl.
  rewrite Hraw. simpl. rewrite Hd. simpl.
  split; [done|]. by apply older_than_dt_lt.
Qed.

Lemma hays_stale_page_stops server fuel cutoff skip total recent w data :
  server skip Hays.top = Ok data →
  hays_page_empty data ∨ hays_page_all_older cutoff data →
  Hays.paginate server (S fuel) cutoff skip total recent w
  = (Some (Ok recent), after_request w (HaysRequest skip Hays.top)).
Proof.
  intros Hserver Hpage. simpl.
  erewrite io_bind_run; [|by unfold Hays.fetch_page, send; rewrite Hserver].
  fold (after_request w (HaysRequest skip Hays.top)).
  destruct Hpage as [(opp & Hopp & Hfalsy)|(items & Hopp & Hne & Hall)].
  - rewrite Hopp. erewrite io_bind_run; [|reflexivity].
    by rewrite Hfalsy.
  - rewrite Hopp. erewrite io_bind_run; [|reflexivity].
    assert (truthy (JList items) = true) as -> by (by destruct items).
    change (negb true) with false. cbv iota.
    assert (∃ total', (match total with
                       | JNull => lift (py_get data "totalCount" (JInt 0))
                       | _ => mret total
                       end : io json) (after_request w (HaysRequest skip Hays.top))
                      = (Some (Ok total'), after_request w (HaysRequest skip Hays.top)))
      as [total' Htotal].
    { destruct data; try discriminate. destruct total; by eexists. }
    erewrite io_bind_run; [|exact Htotal].
    erewrite io_bind_run; [|reflexivity].
    erewrite io_bind_run; cycle 1.
    { unfold lift. rewrite for_each_unchanged; [reflexivity|].
      eapply Forall_impl; [exact Hall|]. intros j Hj.
      by apply hays_older_not_kept. }
    assert (∃ d, Hays.oldest_of (rev items) = Ok (Some d) ∧ dt_lt d cutoff = Ok true)
      as (d & Hd & Hlt).
    { assert (Forall (hays_record_older cutoff) (rev items)) as Hrev
        by (by apply Forall_rev).
      destruct (rev items) as [|j rest] eqn:Hr.
      - apply (f_equal (@rev json)) in Hr. rewrite rev_involutive in Hr. done.
      - apply Forall_cons in Hrev as [Hj _]. by apply hays_oldest_of_older. }
    erewrite io_bind_run; [|by unfold lift; rewrite Hd].
    erewrite io_bind_run; cycle 1.
    { unfold lift, Hays.stop_paging. rewrite Hlt. reflexivity. }
    reflexivity.
Qed.
End StopPages.

Lemma Forall_last {A} (P : A → Prop) (l : list A) :
  Forall P l → l ≠ [] → ∃ x, last l = Some x ∧ P x.
Proof.
  induction 1 as [|x rest Hx Hrest IH]; [done|]. intros _.
  destruct rest as [|y rest']; [by exists x|].
  destruct IH as (z & Hz & HPz); [done|]. by exists z.
Qed.

Section StopPagesJudge.
Context `{PyLib}.

Lemma judge_older_not_kept cutoff recent j :
  judge_record_older cutoff j → Judge.keep_recent cutoff recent j = Ok recent.
Proof.
  intros (ts & d & Hts & Hd & Hold). unfold Judge.keep_recent.
  rewrite Hts. simpl. rewrite Hd. simpl.
  by rewrite (dt_lt_true_ge_false _ _ (older_than_dt_lt _ _ Hold)).
Qed.

Lemma judge_stale_page_stops server fuel cutoff page recent w data :
  server page = Ok data →
  judge_page_empty data ∨ judge_page_all_older cutoff data →
  ∃ r, Judge.paginate server (S fuel) cutoff page recent w
       = (Some r, after_request w (JudgeRequest page)) ∧
       (r = Ok recent ∨ ∃ e, judge_page_count data = Raise e ∧ r = Raise e).
Proof.
  intros Hserver Hpage. simpl.
  erewrite io_bind_run; [|by unfold Judge.fetch_page, send; rewrite Hserver].
  fold (after_request w (JudgeRequest page)).
  destruct Hpage as [(hits & Hhits & Hfalsy)|(items & Hhits & Hne & Hall)].
  - rewrite Hhits. erewrite io_bind_run; [|reflexivity].
    rewrite Hfalsy. simpl. eauto.
  - rewrite Hhits. erewrite io_bind_run; [|reflexivity].
    assert (truthy (JList items) = true) as -> by (by destruct items).
    change (negb true) with false. cbv iota.
    erewrite io_bind_run; [|reflexivity].
    erewrite io_bind_run; cycle 1.
    { unfold lift. rewrite for_each_unchanged; [reflexivity|].
      eapply Forall_impl; [exact Hall|]. intros j Hj.
      by apply judge_older_not_kept. }
    destruct (Forall_last _ _ Hall Hne) as (lst & Hlast & ts & d & Hts & Hd & Hold).
    erewrite io_bind_run; cycle 1.
    { unfold lift, py_last. rewrite Hlast. simpl. rewrite Hts. simpl.
      rewrite Hd. reflexivity. }
    destruct data as [| | | | |kvs]; try discriminate.
    erewrite io_bind_run; [|reflexivity].
    erewrite io_bind_run; [|reflexivity].
    destruct (Judge.max_pages_of (default (JInt 0) (assoc "total" kvs))
                                 (default (JInt 20) (assoc "size" kvs)))
      as [max_pages|e] eqn:Hmax.
    + erewrite io_bind_run; [|reflexivity].
      erewrite io_bind_run;
        [|by unfold lift; rewrite (older_than_dt_lt _ _ Hold)].
      simpl. eauto.
    + erewrite io_bind_raise; [|reflexivity].
      eexists. split; [done|]. right. exists e. split; [exact Hmax | done].
Qed.
End StopPagesJudge.

Section StopPagesInsight.
Context `{PyLib}.

Lemma insight_older_not_kept cutoff st entry :
  insight_record_older cutoff entry → JobExtract.keep_recent cutoff st entry = Ok st.
Proof.
  destruct entry as [[title href] meta].
  intros (raw & d & Hraw & Hd & Hold). unfold JobExtract.keep_recent.
  simpl in Hraw. rewrite Hraw. simpl. rewrite Hd. simpl.
  by rewrite (older_than_dt_lt _ _ Hold).
Qed.

Lemma insight_stale_page_stops web cutoff page rest recent w html_text :
  web (JobExtract.page_url page) = Ok html_text →
  JobExtract.parse_jobs html_text = [] ∨ insight_page_all_older cutoff html_text →
  JobExtract.scrape_pages web cutoff (page :: rest) recent w
  = (Some (Ok recent), after_request w (HttpGet (JobExtract.page_url page))).
Proof.
  intros Hweb Hpage. simpl.
  erewrite io_bind_run; cycle 1.
  { unfold try_except. erewrite io_bind_run; [reflexivity|].
    unfold JobExtract.fetch, send. by rewrite Hweb. }
  fold (after_request w (HttpGet (JobExtract.page_url page))).
  destruct Hpage as [Hempty|[Hne Hall]].
  - by rewrite Hempty.
  - destruct (JobExtract.parse_jobs html_text) as [|entry entries] eqn:Hjobs; [done|].
    erewrite io_bind_run; cycle 1.
    { unfold lift.
      change (JobExtract.keep_recent cutoff (false, recent) entry ≫= _)
        with (for_each (JobExtract.keep_recent cutoff) (entry :: entries)
                (false, recent)).
      rewrite for_each_unchanged; [reflexivity|].
      eapply Forall_impl; [exact Hall|]. intros x Hx.
      by apply insight_older_not_kept. }
    reflexivity.
Qed.
End StopPagesInsight.

Lemma write_file_preserves_requests path f : preserves requests (write_file path f).
Proof. done. Qed.

Lemma print_preserves_requests line : preserves requests (print line).
Proof. done. Qed.

Lemma writers_send_no_request `{PyLib} : rest_of_run_sends_nothing.
Proof.
  pose proof write_file_preserves_requests as Hw.
  repeat split; try apply print_preserves_requests;
    first [ apply Hw | apply preserves_bind; [apply preserves_lift | intros; apply Hw] ].
Qed.

(** C4.  In each of the three paginated scripts, when the page just
    fetched yields no record, or every record on it is older than the
    cutoff, the loop returns at once, whatever fuel is left: the request
    for that page is the last one logged, and what had been collected is
    returned unchanged.  (On a page of older records the Judge loop
    computes the page count before it leaves, so it may leave with the
    exception of that computation instead, also without a further
    request.)  Nothing after the loop sends a request. *)
Theorem stale_page_ends_pagination `{PyLib} :
  (∀ server fuel cutoff skip total recent w data,
     server skip Hays.top = Ok data →
     hays_page_empty data ∨ hays_page_all_older cutoff data →
     Hays.paginate server (S fuel) cutoff skip total recent w
     = (Some (Ok recent), after_request w (HaysRequest skip Hays.top))) ∧
  (∀ server fuel cutoff page recent w data,
     server page = Ok data →
     judge_page_empty data ∨ judge_page_all_older cutoff data →
     ∃ r, Judge.paginate server (S fuel) cutoff page recent w
          = (Some r, after_request w (JudgeRequest page)) ∧
          (r = Ok recent ∨ ∃ e, judge_page_count data = Raise e ∧ r = Raise e)) ∧
  (∀ web cutoff page rest recent w html_text,
     web (JobExtract.page_url page) = Ok html_text →
     JobExtract.parse_jobs html_text = [] ∨ insight_page_all_older cutoff html_text →
     JobExtract.scrape_pages web cutoff (page :: rest) recent w
     = (Some (Ok recent), after_request w (HttpGet (JobExtract.page_url page)))) ∧
  rest_of_run_sends_nothing.
Proof.
  split; [|split; [|split]].
  - apply @hays_stale_page_stops.
  - apply @judge_stale_page_stops.
  - apply @insight_stale_page_stops.
  - apply writers_send_no_request.
Qed.

Lemma stale_page_ends_pagination_witness :
  Hays.paginate (H:=sample_lib) sample_hays_server 7 (hays_cutoff sample_now)
    50 (JInt 120) [] empty_world
  = (Some (Ok []), World [HaysRequest 50 50] ∅ [] []) ∧
  (∃ r, Judge.paginate (H:=sample_lib) stale_judge_server 7 (day_cutoff sample_now)
          0 [] empty_world
        = (Some r, World [JudgeRequest 0] ∅ [] []) ∧
        (r = Ok [] ∨
         ∃ e, judge_page_count (H:=sample_lib) stale_judge_page = Raise e ∧
              r = Raise e)) ∧
  JobExtract.scrape_pages (H:=sample_lib) (λ _, Ok "<page 2>") (day_cutoff sample_now)
    [4%nat; 5%nat] [] empty_world
  = (Some (Ok []), World [HttpGet (JobExtract.page_url 4)] ∅ [] []).
Proof.
  destruct (@stale_page_ends_pagination sample_lib) as (Hh & Hj & Hi & _).
  split; [|split].
  - apply (Hh sample_hays_server 6%nat (hays_cutoff sample_now) 50 (JInt 120) []
              empty_world (JDict [("opportunities", JList [])])); [reflexivity|].
    left. by eexists.
  - apply (Hj stale_judge_server 6%nat (day_cutoff sample_now) 0 [] empty_world
              stale_judge_page); [reflexivity|].
    right. eexists. split; [reflexivity|]. split; [done|].
    constructor; [|constructor].
    exists (JInt 1711929600000), (DateTime 1711929600000000 (Some 0)).
    split; [reflexivity|]. split; [reflexivity|].
    exists 1711929600000000, 1714651200000000. repeat split; lia.
  - apply (Hi (λ _, Ok "<page 2>") (day_cutoff sample_now) 4%nat [5%nat] []
              empty_world "<page 2>"); [reflexivity|].
    right. split; [done|].
    constructor; [|constructor].
    exists (JStr "/Date(1711929600000)/"), (DateTime 1711929600000000 (Some 0)).
    split; [reflexivity|]. split; [reflexivity|].
    exists 1711929600000000, 1714651200000000. repeat split; lia.
Defined.

(** ** Counting requests *)




Lemma send_sends_one {A} rq (answer : result A) : sends_at_most 1 (send rq answer).
Proof. intros w. simpl. rewrite length_app. simpl. lia. Qed.

Section InsightCeiling.
Context `{PyLib}.
Variable web : string → result string.



End InsightCeiling.

(** ** Runs without a ceiling *)





Lemma always_ends_bind {A B} (m : io A) (k : A → io B) :
  always_ends m → (∀ x, always_ends (k x)) → always_ends (m ≫= k).
Proof.
  intros Hm Hk w. unfold mbind, io_bind. specialize (Hm w).
  destruct (m w) as [[[x|e]|] w1]; simpl in *; [apply Hk | by eexists | done].
Qed.

Lemma always_ends_lift {A} (r : result A) : always_ends (lift r).
Proof. intros w. by eexists. Qed.







(** ** The collection step on one page *)

Section CollectionStep.
Context `{PyLib}.

Lemma hays_keep_recent_single cutoff recent j kept :
  Hays.keep_recent cutoff [] j = Ok kept →
  Hays.keep_recent cutoff recent j = Ok (recent ++ kept)%list ∧
  (if hays_fresh cutoff j then ∃ r, kept = [r] ∧ hays_posting_of j r
   else kept = []).
Proof.
  unfold Hays.keep_recent, hays_fresh, hays_posting_of.
  destruct (py_get j "PostedDate" JNull) as [raw|e]; simpl; [|discriminate].
  destruct (Hays.parse_posted_date raw) as [[d|]|e] eqn:Hd; simpl;
    [| |discriminate].
  - destruct (dt_lt d cutoff) as [[|]|e]; simpl; [| |discriminate].
    + intros [= <-]. by rewrite app_nil_r.
    + destruct (Hays.make_job j d) as [r|e] eqn:Hr; simpl; [|discriminate].
      intros [= <-]. split; [done|]. exists r. split; [done|]. by exists raw, d.
  - intros [= <-]. by rewrite app_nil_r.
Qed.

Lemma hays_collection_step cutoff page : ∀ recent,
  Forall (hays_processable cutoff) page →
  ∃ kept,
    for_each (Hays.keep_recent cutoff) page recent = Ok (recent ++ kept)%list ∧
    Forall2 hays_posting_of (filter (λ j, hays_fresh cutoff j = true) page) kept.
Proof.
  induction page as [|j rest IH]; intros recent Hall.
  - exists []. split; [by rewrite app_nil_r|]. constructor.
  - apply Forall_cons in Hall as [[kept_j Hj] Hrest].
    destruct (hays_keep_recent_single cutoff recent j kept_j Hj) as [Hstep Hkept].
    destruct (IH (recent ++ kept_j)%list Hrest) as (kept & Hrun & Hmade).
    exists (kept_j ++ kept)%list. split.
    + simpl. rewrite Hstep. simpl. by rewrite Hrun, app_assoc.
    + rewrite filter_cons. destruct (hays_fresh cutoff j).
      * destruct Hkept as (r & -> & Hr). rewrite decide_True by done.
        by constructor.
      * rewrite Hkept. by rewrite decide_False by done.
Qed.

Lemma judge_keep_recent_single cutoff recent j kept :
  Judge.keep_recent cutoff [] j = Ok kept →
  Judge.keep_recent cutoff recent j = Ok (recent ++ kept)%list ∧
  (if judge_fresh cutoff j then ∃ r, kept = [r] ∧ judge_posting_of j r
   else kept = []).
Proof.
  unfold Judge.keep_recent, judge_fresh, judge_posting_of.
  destruct (py_getitem j "opened") as [ts|e]; simpl; [|discriminate].
  destruct (Judge.parse_opened ts) as [d|e] eqn:Hd; simpl; [|discriminate].
  destruct (dt_ge d cutoff) as [[|]|e]; simpl; [| |discriminate].
  - destruct (Judge.make_job j d) as [r|e] eqn:Hr; simpl; [|discriminate].
    intros [= <-]. split; [done|]. exists r. split; [done|]. by exists ts, d.
  - intros [= <-]. by rewrite app_nil_r.
Qed.

Lemma judge_collection_step cutoff page : ∀ recent,
  Forall (judge_processable cutoff) page →
  ∃ kept,
    for_each (Judge.keep_recent cutoff) page recent = Ok (recent ++ kept)%list ∧
    Forall2 judge_posting_of (filter (λ j, judge_fresh cutoff j = true) page) kept.
Proof.
  induction page as [|j rest IH]; intros recent Hall.
  - exists []. split; [by rewrite app_nil_r|]. constructor.
  - apply Forall_cons in Hall as [[kept_j Hj] Hrest].
    destruct (judge_keep_recent_single cutoff recent j kept_j Hj) as [Hstep Hkept].
    destruct (IH (recent ++ kept_j)%list Hrest) as (kept & Hrun & Hmade).
    exists (kept_j ++ kept)%list. split.
    + simpl. rewrite Hstep. simpl. by rewrite Hrun, app_assoc.
    + rewrite filter_cons. destruct (judge_fresh cutoff j).
      * destruct Hkept as (r & -> & Hr). rewrite decide_True by done.
        by constructor.
      * rewrite Hkept. by rewrite decide_False by done.
Qed.
End CollectionStep.

Section CollectionStepInsight.
Context `{PyLib}.

Lemma insight_keep_recent_single cutoff flag recent entry st :
  JobExtract.keep_recent cutoff (false, []) entry = Ok st →
  JobExtract.keep_recent cutoff (flag, recent) entry
  = Ok (flag || fst st, (recent ++ snd st)%list) ∧
  (if insight_fresh cutoff entry
   then ∃ r, st = (true, [r]) ∧ insight_posting_of entry r
   else st = (false, [])).
Proof.
  unfold JobExtract.keep_recent, insight_fresh, insight_posting_of.
  destruct entry as [[title href] meta]. simpl.
  destruct (py_get meta "PostedDate" (JStr "")) as [raw|e]; simpl; [|discriminate].
  destruct (JobExtract.parse_posted_date raw) as [[d|]|e] eqn:Hd; simpl;
    [| |discriminate].
  - destruct (dt_lt d cutoff) as [[|]|e]; simpl; [| |discriminate].
    + intros [= <-]. simpl. by rewrite app_nil_r, orb_false_r.
    + destruct (JobExtract.make_job title href meta d) as [r|e] eqn:Hr; simpl;
        [|discriminate].
      intros [= <-]. simpl. rewrite orb_true_r. split; [done|].
      exists r. split; [done|]. by exists raw, d.
  - intros [= <-]. simpl. by rewrite app_nil_r, orb_false_r.
Qed.

Lemma insight_collection_step cutoff page : ∀ flag recent,
  Forall (insight_processable cutoff) page →
  ∃ kept,
    for_each (JobExtract.keep_recent cutoff) page (flag, recent)
    = Ok (flag || bool_decide (kept ≠ []), (recent ++ kept)%list) ∧
    Forall2 insight_posting_of
      (filter (λ entry, insight_fresh cutoff entry = true) page) kept.
Proof.
  induction page as [|entry rest IH]; intros flag recent Hall.
  - exists []. split; [|constructor].
    simpl. by rewrite app_nil_r, orb_false_r.
  - apply Forall_cons in Hall as [[st Hentry] Hrest].
    destruct (insight_keep_recent_single cutoff flag recent entry st Hentry)
      as [Hstep Hkept].
    destruct (IH (flag || fst st) (recent ++ snd st)%list Hrest)
      as (kept & Hrun & Hmade).
    exists (snd st ++ kept)%list. split.
    + simpl. rewrite Hstep. simpl. rewrite Hrun, app_assoc. do 2 f_equal.
      rewrite <- orb_assoc. f_equal.
      destruct (insight_fresh cutoff entry).
      * by destruct Hkept as (r & -> & _).
      * by rewrite Hkept.
    + rewrite filter_cons. destruct (insight_fresh cutoff entry).
      * destruct Hkept as (r & -> & Hr). rewrite decide_True by done.
        by constructor.
      * rewrite Hkept. by rewrite decide_False by done.
Qed.
End CollectionStepInsight.

(** C3, as stated, fails on a page with a record the step cannot process:
    of the two records of this Judge page one is at or after the cutoff,
    but the step raises [KeyError] on the record without [opened] and
    produces no output at all. *)
Lemma collection_size_counterexample :
  length (filter (λ j, judge_fresh (H:=sample_lib) (day_cutoff sample_now) j = true)
                 judge_page_with_undated) = 1%nat ∧
  for_each (Judge.keep_recent (H:=sample_lib) (day_cutoff sample_now))
           judge_page_with_undated []
  = Raise KeyError.
Proof. split; reflexivity. Qed.


(** ** Records without a parsable timestamp *)

Lemma for_each_app {A S} (body : S → A → result S) (l1 l2 : list A) (s : S) :
  for_each body (l1 ++ l2) s = for_each body l1 s ≫= for_each body l2.
Proof.
  revert s. induction l1 as [|x rest IH]; intros s; simpl; [done|].
  destruct (body s x) as [s'|e]; simpl; [apply IH | done].
Qed.

Lemma for_each_skip {A S} (body : S → A → result S) (pre post : list A) (x : A)
    (s : S) :
  (∀ s', body s' x = Ok s') →
  for_each body (pre ++ x :: post) s = for_each body (pre ++ post) s.
Proof.
  intros Hskip. rewrite !for_each_app.
  destruct (for_each body pre s) as [s'|e]; simpl; [|done].
  by rewrite Hskip.
Qed.

Section UnparsedFacts.
Context `{PyLib}.

Lemma hays_unparsed_skipped cutoff recent j :
  hays_unparsed j → Hays.keep_recent cutoff recent j = Ok recent.
Proof.
  intros (raw & Hraw & Hnone). unfold Hays.keep_recent.
  rewrite Hraw. simpl. by rewrite Hnone.
Qed.

Lemma insight_unparsed_skipped cutoff st entry :
  insight_unparsed entry → JobExtract.keep_recent cutoff st entry = Ok st.
Proof.
  destruct entry as [[title href] meta]. intros (raw & Hraw & Hnone).
  unfold JobExtract.keep_recent. simpl in Hraw. rewrite Hraw. simpl.
  by rewrite Hnone.
Qed.

Lemma yoh_unparsed_skipped cutoff recent j :
  yoh_unparsed j → Yoh.keep_recent cutoff recent j = Ok recent.
Proof. intros Hnone. unfold Yoh.keep_recent. by rewrite Hnone. Qed.

Lemma hays_parse_missing_or_malformed raw :
  missing_or_malformed (λ s, fromisoformat (replace_Z s) = None) raw →
  Hays.parse_posted_date raw = Ok None.
Proof.
  unfold Hays.parse_posted_date. intros [Hfalsy|(s & -> & Hbad)].
  - by rewrite Hfalsy.
  - destruct (negb (truthy (JStr s))); [done|]. simpl. by rewrite Hbad.
Qed.

Lemma hays_parse_wrong_type raw :
  truthy_non_string raw → Hays.parse_posted_date raw = Raise AttributeError.
Proof.
  intros [Htruthy Hnot]. unfold Hays.parse_posted_date. rewrite Htruthy. simpl.
  destruct raw; try done. by destruct (Hnot s).
Qed.

Lemma insight_parse_malformed s :
  search_Date s = None → JobExtract.parse_posted_date (JStr s) = Ok None.
Proof. intros Hs. unfold JobExtract.parse_posted_date. by rewrite Hs. Qed.

Lemma insight_parse_wrong_type raw :
  (∀ s, raw ≠ JStr s) → JobExtract.parse_posted_date raw = Raise TypeError.
Proof. intros Hnot. destruct raw; try done. by destruct (Hnot s). Qed.

Lemma yoh_parse_missing_or_malformed j data changed posted :
  py_getitem j "data" = Ok data →
  py_get data "changedOnUTC" JNull = Ok changed →
  py_get data "postedDate" JNull = Ok posted →
  missing_or_malformed (λ s, fromisoformat (replace_Z s) = None) changed →
  missing_or_malformed (λ s, strptime_dmy s = None) posted →
  Yoh.parse_timestamp j = Ok None.
Proof.
  intros Hdata Hchanged Hposted Hc Hp. unfold Yoh.parse_timestamp.
  rewrite Hdata. simpl. rewrite Hchanged. simpl.
  assert ((if truthy (py_or changed (JStr ""))
           then s ← str_receiver (py_or changed (JStr ""));
                match fromisoformat (replace_Z s) with
                | Some dt_obj =>
                    Ok (Some (match tzinfo dt_obj with
                              | Some _ => dt_obj
                              | None => replace_tzinfo_utc dt_obj
                              end))
                | None => Ok None
                end
           else Ok None) = Ok None) as ->.
  { destruct Hc as [Hfalsy|(s & -> & Hbad)].
    - unfold py_or. by rewrite Hfalsy.
    - unfold py_or. destruct (truthy (JStr s)) eqn:Hs; [|done]. rewrite Hs.
      simpl. by rewrite Hbad. }
  simpl. rewrite Hposted. simpl.
  destruct Hp as [Hfalsy|(s & -> & Hbad)].
  - unfold py_or. by rewrite Hfalsy.
  - unfold py_or. destruct (truthy (JStr s)) eqn:Hs; [|done]. rewrite Hs.
    by rewrite Hbad.
Qed.

Lemma yoh_parse_wrong_type j data changed :
  py_getitem j "data" = Ok data →
  py_get data "changedOnUTC" JNull = Ok changed →
  truthy_non_string changed →
  Yoh.parse_timestamp j = Raise AttributeError.
Proof.
  intros Hdata Hchanged [Htruthy Hnot]. unfold Yoh.parse_timestamp.
  rewrite Hdata. simpl. rewrite Hchanged. simpl.
  unfold py_or. rewrite Htruthy, Htruthy.
  destruct changed; try done. by destruct (Hnot s).
Qed.

Lemma yoh_parse_posted_wrong_type j data changed posted :
  py_getitem j "data" = Ok data →
  py_get data "changedOnUTC" JNull = Ok changed →
  missing_or_malformed (λ s, fromisoformat (replace_Z s) = None) changed →
  py_get data "postedDate" JNull = Ok posted →
  truthy_non_string posted →
  Yoh.parse_timestamp j = Raise TypeError.
Proof.
  intros Hdata Hchanged Hc Hposted [Htruthy Hnot]. unfold Yoh.parse_timestamp.
  rewrite Hdata. simpl. rewrite Hchanged. simpl.
  assert ((if truthy (py_or changed (JStr ""))
           then s ← str_receiver (py_or changed (JStr ""));
                match fromisoformat (replace_Z s) with
                | Some dt_obj =>
                    Ok (Some (match tzinfo dt_obj with
                              | Some _ => dt_obj
                              | None => replace_tzinfo_utc dt_obj
                              end))
                | None => Ok None
                end
           else Ok None) = Ok None) as ->.
  { destruct Hc as [Hfalsy|(s & -> & Hbad)].
    - unfold py_or. by rewrite Hfalsy.
    - unfold py_or. destruct (truthy (JStr s)) eqn:Hs; [|done]. rewrite Hs.
      simpl. by rewrite Hbad. }
  simpl. rewrite Hposted. simpl.
  unfold py_or. rewrite Htruthy, Htruthy.
  destruct posted; try done. by destruct (Hnot s).
Qed.

Lemma judge_missing_opened_raises cutoff recent kvs :
  assoc "opened" kvs = None →
  Judge.keep_recent cutoff recent (JDict kvs) = Raise KeyError.
Proof. intros Hnone. unfold Judge.keep_recent. simpl. by rewrite Hnone. Qed.

Lemma judge_parse_wrong_type ts :
  as_int ts = None → Judge.parse_opened ts = Raise TypeError.
Proof. intros Hts. unfold Judge.parse_opened. by rewrite Hts. Qed.

Lemma judge_parse_out_of_range ms e :
  fromtimestamp_ms ms = Raise e → Judge.parse_opened (JInt ms) = Raise e.
Proof. intros Hms. unfold Judge.parse_opened. simpl. by rewrite Hms. Qed.
End UnparsedFacts.

Lemma insight_scrape_pages_silent `{PyLib} web cutoff pages recent :
  (∀ url e, web url = Raise e → is_URLError e = false) →
  preserves stderr (JobExtract.scrape_pages web cutoff pages recent).
Proof.
  intros Hweb. revert recent.
  induction pages as [|page rest IH]; simpl; intros recent.
  - auto with quiet.
  - apply preserves_bind.
    + intros w. unfold try_except, mbind, io_bind, JobExtract.fetch, send.
      destruct (web (JobExtract.page_url page)) as [html_text|e] eqn:Hpage;
        simpl; [done|].
      by rewrite (Hweb _ _ Hpage).
    + intros fetched. repeat quiet_step; auto.
Qed.

Lemma insight_scrape_silent `{PyLib} web cutoff :
  (∀ url e, web url = Raise e → is_URLError e = false) →
  preserves stderr (JobExtract.scrape_recent_jobs web cutoff).
Proof.
  intros Hweb. unfold JobExtract.scrape_recent_jobs.
  apply preserves_bind; [by apply insight_scrape_pages_silent|]. auto with quiet.
Qed.

(** C6, as stated, fails for a timestamp of the wrong type: in each of the
    four scripts such a record makes the processing raise instead of being
    dropped. *)
Lemma unparsable_timestamp_counterexample :
  Hays.keep_recent (H:=sample_lib) (hays_cutoff sample_now) []
    hays_record_with_numeric_date = Raise AttributeError ∧
  JobExtract.keep_recent (H:=sample_lib) (day_cutoff sample_now) (false, [])
    insight_entry_with_null_date = Raise TypeError ∧
  Yoh.keep_recent (H:=sample_lib) (day_cutoff sample_now) []
    yoh_record_with_numeric_date = Raise AttributeError ∧
  Judge.keep_recent (H:=sample_lib) (day_cutoff sample_now) []
    judge_record_with_text_date = Raise TypeError.
Proof. repeat split; reflexivity. Qed.

(** C6, amended.  In the Hays, Insight Global and Yoh scripts a record for
    which the timestamp parser returns [None] is dropped: the page is
    processed as if the record were not on it, without raising, and the
    records after it are processed as before.  The collection of these
    three scripts writes neither to standard output nor to the diagnostic
    stream (Insight Global: apart from its handler of [URLError]).

    The Hays parser returns [None] for a value that is falsy (an absent
    field reads as [None]; null, the empty string, 0, false and an empty
    list or object are falsy) and for a string the ISO parser refuses; a
    truthy value that is not a string raises [AttributeError].  The
    Insight Global parser returns [None] for a string in which the pattern
    is not found (an absent field reads as the empty string); every value
    that is not a string, null included, raises [TypeError].  The Yoh
    parser returns [None] when [changedOnUTC] is falsy or refused by the
    ISO parser and [postedDate] is falsy or refused by [strptime]; a
    truthy [changedOnUTC] that is not a string raises [AttributeError],
    and when [changedOnUTC] gave nothing a truthy [postedDate] that is not
    a string raises [TypeError].  Judge has no drop path: a record without
    [opened] raises [KeyError], and an [opened] that is not a number
    raises [TypeError]. *)
Theorem unparsable_timestamp_handling `{PyLib} :
  (∀ cutoff pre j post recent,
     hays_unparsed j →
     for_each (Hays.keep_recent cutoff) (pre ++ j :: post) recent
     = for_each (Hays.keep_recent cutoff) (pre ++ post) recent) ∧
  (∀ cutoff pre entry post st,
     insight_unparsed entry →
     for_each (JobExtract.keep_recent cutoff) (pre ++ entry :: post) st
     = for_each (JobExtract.keep_recent cutoff) (pre ++ post) st) ∧
  (∀ cutoff pre j post recent,
     yoh_unparsed j →
     for_each (Yoh.keep_recent cutoff) (pre ++ j :: post) recent
     = for_each (Yoh.keep_recent cutoff) (pre ++ post) recent) ∧
  (∀ raw,
     missing_or_malformed (λ s, fromisoformat (replace_Z s) = None) raw →
     Hays.parse_posted_date raw = Ok None) ∧
  (∀ s, search_Date s = None → JobExtract.parse_posted_date (JStr s) = Ok None) ∧
  (∀ j data changed posted,
     py_getitem j "data" = Ok data →
     py_get data "changedOnUTC" JNull = Ok changed →
     py_get data "postedDate" JNull = Ok posted →
     missing_or_malformed (λ s, fromisoformat (replace_Z s) = None) changed →
     missing_or_malformed (λ s, strptime_dmy s = None) posted →
     Yoh.parse_timestamp j = Ok None) ∧
  (∀ server fuel cutoff, silent (Hays.collect_recent_jobs server fuel cutoff)) ∧
  (∀ server cutoff, silent (Yoh.recent_jobs server cutoff)) ∧
  (∀ web cutoff,
     preserves stdout (JobExtract.scrape_recent_jobs web cutoff) ∧
     ((∀ url e, web url = Raise e → is_URLError e = false) →
      preserves stderr (JobExtract.scrape_recent_jobs web cutoff))) ∧
  (∀ raw, truthy_non_string raw → Hays.parse_posted_date raw = Raise AttributeError) ∧
  (∀ raw, (∀ s, raw ≠ JStr s) → JobExtract.parse_posted_date raw = Raise TypeError) ∧
  (∀ j data changed,
     py_getitem j "data" = Ok data →
     py_get data "changedOnUTC" JNull = Ok changed →
     truthy_non_string changed →
     Yoh.parse_timestamp j = Raise AttributeError) ∧
  (∀ cutoff recent kvs,
     assoc "opened" kvs = None →
     Judge.keep_recent cutoff recent (JDict kvs) = Raise KeyError) ∧
  (∀ ts, as_int ts = None → Judge.parse_opened ts = Raise TypeError) ∧
  (∀ j data changed posted,
     py_getitem j "data" = Ok data →
     py_get data "changedOnUTC" JNull = Ok changed →
     missing_or_malformed (λ s, fromisoformat (replace_Z s) = None) changed →
     py_get data "postedDate" JNull = Ok posted →
     truthy_non_string posted →
     Yoh.parse_timestamp j = Raise TypeError).
Proof.
  repeat apply conj.
  - intros cutoff pre j post recent Hj. apply for_each_skip.
    intros recent'. by apply hays_unparsed_skipped.
  - intros cutoff pre entry post st Hentry. apply for_each_skip.
    intros st'. by apply insight_unparsed_skipped.
  - intros cutoff pre j post recent Hj. apply for_each_skip.
    intros recent'. by apply yoh_unparsed_skipped.
  - apply hays_parse_missing_or_malformed.
  - apply insight_parse_malformed.
  - apply yoh_parse_missing_or_malformed.
  - intros server fuel cutoff. split; apply hays_collect_quiet; auto with quiet.
  - intros server cutoff. split; apply yoh_recent_jobs_quiet; auto with quiet.
  - intros web cutoff. split.
    + apply insight_scrape_quiet; auto with quiet.
    + apply insight_scrape_silent.
  - apply hays_parse_wrong_type.
  - apply insight_parse_wrong_type.
  - apply yoh_parse_wrong_type.
  - apply judge_missing_opened_raises.
  - apply judge_parse_wrong_type.
  - apply yoh_parse_posted_wrong_type.
Qed.

Lemma unparsable_timestamp_handling_witness :
  for_each (Hays.keep_recent (H:=sample_lib) (hays_cutoff sample_now))
    (take 1 sample_hays_records ++ undated_hays_record :: drop 2 sample_hays_records) []
  = for_each (Hays.keep_recent (H:=sample_lib) (hays_cutoff sample_now))
      (take 1 sample_hays_records ++ drop 2 sample_hays_records) [] ∧
  Hays.parse_posted_date (H:=sample_lib) (JStr "03/05/2024") = Ok None ∧
  Yoh.parse_timestamp (H:=sample_lib)
    (JDict [("data", JDict [("changedOnUTC", JStr "soon"); ("postedDate", JNull)])])
  = Ok None ∧
  Hays.parse_posted_date (H:=sample_lib) (JInt 20240503) = Raise AttributeError ∧
  Judge.keep_recent (H:=sample_lib) (day_cutoff sample_now) []
    (JDict [("jobOrderId", JInt 902); ("title", JStr "Rigger")]) = Raise KeyError.
Proof.
  destruct (@unparsable_timestamp_handling sample_lib)
    as (Hdrop & _ & _ & Hnone & _ & Hyoh & _ & _ & _ & Hraise & _ & _ & Hkey & _ & _).
  repeat apply conj.
  - apply Hdrop. exists JNull. split; reflexivity.
  - apply Hnone. right. exists "03/05/2024". split; reflexivity.
  - apply (Hyoh _ (JDict [("changedOnUTC", JStr "soon"); ("postedDate", JNull)])
             (JStr "soon") JNull); try reflexivity.
    + right. exists "soon". split; reflexivity.
    + left. reflexivity.
  - apply Hraise. split; [reflexivity|]. intros s. discriminate.
  - apply Hkey. reflexivity.
Defined.

(** ** A board of one page, from request to sorted result *)

Section SinglePageHays.
Context `{PyLib}.
Variable server : Z → Z → result json.

Lemma hays_processable_parses cutoff j :
  hays_processable cutoff j →
  ∃ raw o, py_get j "PostedDate" JNull = Ok raw ∧
           Hays.parse_posted_date raw = Ok o ∧
           ∀ d, o = Some d → ∃ flag, dt_lt d cutoff = Ok flag.
Proof.
  intros [kept Hkept]. unfold Hays.keep_recent in Hkept.
  apply result_bind_Ok in Hkept as (raw & Hraw & Hkept).
  apply result_bind_Ok in Hkept as (o & Ho & Hkept).
  exists raw, o. repeat split; [done | done |].
  intros d ->. apply result_bind_Ok in Hkept as (flag & Hflag & _). eauto.
Qed.

Lemma hays_oldest_of_processable cutoff records :
  Forall (hays_processable cutoff) records →
  ∃ o, Hays.oldest_of records = Ok o ∧
       ∀ d, o = Some d → ∃ flag, dt_lt d cutoff = Ok flag.
Proof.
  induction 1 as [|j rest Hj _ (o & Ho & Hcmp)]; simpl.
  - exists None. split; [done|]. intros d [=].
  - destruct (hays_processable_parses _ _ Hj) as (raw & oj & Hraw & Hoj & Hcmp_j).
    rewrite Hraw. simpl. rewrite Hoj. simpl.
    destruct oj as [d|]; [|by exists o].
    exists (Some d). split; [done | exact Hcmp_j].
Qed.

Lemma hays_kept_are_fresh cutoff page recent kept :
  aware cutoff →
  Forall (λ r, newer_or_equal (Hays.posted r) cutoff) recent →
  for_each (Hays.keep_recent cutoff) page recent = Ok kept →
  Forall (λ r, newer_or_equal (Hays.posted r) cutoff) kept.
Proof.
  intros Hcut Hrecent Hrun.
  eapply (for_each_invariant
            (Forall (λ r, newer_or_equal (Hays.posted r) cutoff)));
    [|exact Hrecent|exact Hrun].
  intros r0 j r1 Hr0 Hkeep.
  apply hays_keep_recent_inv in Hkeep as [->|(r & -> & Hlt)]; [done|].
  apply Forall_app. split; [done|]. constructor; [|done].
  by apply dt_lt_false_newer.
Qed.

Lemma hays_single_page_run fuel cutoff w page :
  aware cutoff →
  hays_single_page_board server page →
  Forall (hays_processable cutoff) page →
  ∃ out w',
    Hays.collect_recent_jobs server (S (S fuel)) cutoff w = (Some (Ok out), w') ∧
    length out = length (filter (λ j, hays_fresh cutoff j = true) page).
Proof.
  intros Hcut (data & total & data2 & Hfirst & Hopp & Htotal & Htotal_ok
               & Hsecond & Hempty) Hall.
  destruct (hays_collection_step cutoff page [] Hall) as (kept & Hrun & Hmade).
  simpl in Hrun.
  assert (length kept = length (filter (λ j, hays_fresh cutoff j = true) page))
    as Hlen by (symmetry; by eapply Forall2_length).
  assert (∃ w1, Hays.paginate server (S (S fuel)) cutoff 0 JNull [] w
                = (Some (Ok kept), w1)) as [w1 Hloop].
  { destruct page as [|j rest].
    - injection Hrun as <-. eexists.
      apply hays_stale_page_stops with (data := data); [done|].
      left. by exists (JList []).
    - cbn [Hays.paginate].
      erewrite io_bind_run; [|by unfold Hays.fetch_page, send; rewrite Hfirst].
      rewrite Hopp. erewrite io_bind_run; [|reflexivity].
      change (negb (truthy (JList (j :: rest)))) with false. cbv iota.
      erewrite io_bind_run; [|by unfold lift; rewrite Htotal].
      erewrite io_bind_run; [|reflexivity].
      erewrite io_bind_run; [|by unfold lift; rewrite Hrun].
      destruct (hays_oldest_of_processable cutoff (rev (j :: rest)))
        as (o & Ho & Hcmp); [by apply Forall_rev|].
      erewrite io_bind_run; [|by unfold lift; rewrite Ho].
      assert (∃ stop, Hays.stop_paging cutoff o total (0 + Hays.top) = Ok stop)
        as [stop Hstop].
      { unfold Hays.stop_paging.
        assert (∃ past, match o with
                        | Some d => dt_lt d cutoff
                        | None => Ok false
                        end = Ok past) as [past ->].
        { destruct o as [d|]; [by apply Hcmp | by eexists]. }
        simpl. destruct past; [by eexists|].
        destruct Htotal_ok as [->|[t Ht]]; [by eexists|].
        rewrite Ht. destruct total; by eexists. }
      erewrite io_bind_run; [|by unfold lift; rewrite Hstop].
      destruct stop; [by eexists|].
      eexists. apply hays_stale_page_stops with (data := data2); [done|by left]. }
  destruct (sort_desc_total (λ r, Ok (Hays.posted r)) kept) as [out Hsort].
  { eapply Forall_impl;
      [apply (hays_kept_are_fresh cutoff page [] kept Hcut); [constructor|exact Hrun]|].
    intros r Hr. exists (Hays.posted r). split; [done|].
    eapply newer_or_equal_aware_l, Hr. }
  exists out, w1. split.
  - unfold Hays.collect_recent_jobs. erewrite io_bind_run; [|exact Hloop].
    unfold lift. by rewrite Hsort.
  - destruct (sort_desc_spec _ _ _ Hsort) as [Hperm _]. by rewrite Hperm.
Qed.
End SinglePageHays.

Lemma dt_ge_Ok_lt_Ok (a b : datetime) (flag : bool) :
  dt_ge a b = Ok flag → ∃ flag', dt_lt a b = Ok flag'.
Proof.
  unfold dt_ge, dt_lt. destruct (tzinfo a), (tzinfo b); try discriminate; eauto.
Qed.

Section SinglePageJudge.
Context `{PyLib}.
Variable server : Z → result json.

Lemma judge_empty_page_stops fuel cutoff page recent w data :
  server page = Ok data → judge_page_empty data →
  Judge.paginate server (S fuel) cutoff page recent w
  = (Some (Ok recent), after_request w (JudgeRequest page)).
Proof.
  intros Hserver (hits & Hhits & Hfalsy). simpl.
  erewrite io_bind_run; [|by unfold Judge.fetch_page, send; rewrite Hserver].
  rewrite Hhits. erewrite io_bind_run; [|reflexivity].
  by rewrite Hfalsy.
Qed.

Lemma judge_processable_parses cutoff j :
  judge_processable cutoff j →
  ∃ ts d flag, py_getitem j "opened" = Ok ts ∧ Judge.parse_opened ts = Ok d ∧
               dt_lt d cutoff = Ok flag.
Proof.
  intros [kept Hkept]. unfold Judge.keep_recent in Hkept.
  apply result_bind_Ok in Hkept as (ts & Hts & Hkept).
  apply result_bind_Ok in Hkept as (d & Hd & Hkept).
  apply result_bind_Ok in Hkept as (flag & Hflag & _).
  destruct (dt_ge_Ok_lt_Ok _ _ _ Hflag) as [flag' Hlt].
  by exists ts, d, flag'.
Qed.

Lemma judge_kept_are_fresh cutoff page recent kept :
  aware cutoff →
  Forall (λ r, newer_or_equal (Judge.opened r) cutoff) recent →
  for_each (Judge.keep_recent cutoff) page recent = Ok kept →
  Forall (λ r, newer_or_equal (Judge.opened r) cutoff) kept.
Proof.
  intros Hcut Hrecent Hrun.
  eapply (for_each_invariant
            (Forall (λ r, newer_or_equal (Judge.opened r) cutoff)));
    [|exact Hrecent|exact Hrun].
  intros r0 j r1 Hr0 Hkeep.
  apply judge_keep_recent_inv in Hkeep as [->|(r & -> & Hge)]; [done|].
  apply Forall_app. split; [done|]. constructor; [|done].
  by apply dt_ge_true_newer.
Qed.

Lemma judge_single_page_run fuel cutoff w page :
  aware cutoff →
  judge_single_page_board server page →
  Forall (judge_processable cutoff) page →
  ∃ out w',
    Judge.collect_recent_jobs server (S (S fuel)) cutoff w = (Some (Ok out), w') ∧
    length out = length (filter (λ j, judge_fresh cutoff j = true) page).
Proof.
  intros Hcut (data & total & size & max_pages & data2 & Hfirst & Hhits & Htotal
               & Hsize & Hmax & Hsecond & Hempty) Hall.
  destruct (judge_collection_step cutoff page [] Hall) as (kept & Hrun & Hmade).
  simpl in Hrun.
  assert (length kept = length (filter (λ j, judge_fresh cutoff j = true) page))
    as Hlen by (symmetry; by eapply Forall2_length).
  assert (∃ w1, Judge.paginate server (S (S fuel)) cutoff 0 [] w
                = (Some (Ok kept), w1)) as [w1 Hloop].
  { destruct page as [|j rest].
    - injection Hrun as <-. eexists.
      apply judge_empty_page_stops with (data := data); [done|].
      by exists (JList []).
    - cbn [Judge.paginate].
      erewrite io_bind_run; [|by unfold Judge.fetch_page, send; rewrite Hfirst].
      rewrite Hhits. erewrite io_bind_run; [|reflexivity].
      change (negb (truthy (JList (j :: rest)))) with false. cbv iota.
      erewrite io_bind_run; [|reflexivity].
      erewrite io_bind_run; [|by unfold lift; rewrite Hrun].
      destruct (Forall_last _ _ Hall) as (lst & Hlast & Hlst); [done|].
      destruct (judge_processable_parses _ _ Hlst) as (ts & d & past & Hts & Hd & Hpast).
      erewrite io_bind_run; cycle 1.
      { unfold lift, py_last. rewrite Hlast. simpl. rewrite Hts. simpl.
        by rewrite Hd. }
      erewrite io_bind_run; [|by unfold lift; rewrite Htotal].
      erewrite io_bind_run; [|by unfold lift; rewrite Hsize].
      erewrite io_bind_run; [|by unfold lift; rewrite Hmax].
      erewrite io_bind_run; [|by unfold lift; rewrite Hpast].
      destruct (past || _); [by eexists|].
      eexists. by apply judge_empty_page_stops with (data := data2). }
  destruct (sort_desc_total (λ r, Ok (Judge.opened r)) kept) as [out Hsort].
  { eapply Forall_impl;
      [apply (judge_kept_are_fresh cutoff page [] kept Hcut); [constructor|exact Hrun]|].
    intros r Hr. exists (Judge.opened r). split; [done|].
    eapply newer_or_equal_aware_l, Hr. }
  exists out, w1. split.
  - unfold Judge.collect_recent_jobs. erewrite io_bind_run; [|exact Hloop].
    unfold lift. by rewrite Hsort.
  - destruct (sort_desc_spec _ _ _ Hsort) as [Hperm _]. by rewrite Hperm.
Qed.
End SinglePageJudge.

Section SinglePageInsight.
Context `{PyLib}.
Variable web : string → result string.

Lemma insight_kept_are_fresh cutoff page st st' :
  aware cutoff →
  Forall (λ r, newer_or_equal (JobExtract.posted r) cutoff) (snd st) →
  for_each (JobExtract.keep_recent cutoff) page st = Ok st' →
  Forall (λ r, newer_or_equal (JobExtract.posted r) cutoff) (snd st').
Proof.
  intros Hcut Hrecent Hrun.
  eapply (for_each_invariant
            (λ s, Forall (λ r, newer_or_equal (JobExtract.posted r) cutoff) (snd s)));
    [|exact Hrecent|exact Hrun].
  intros s0 entry s1 Hs0 Hkeep.
  apply insight_keep_recent_inv in Hkeep as [->|(r & -> & Hlt)]; [done|].
  simpl. apply Forall_app. split; [done|]. constructor; [|done].
  by apply dt_lt_false_newer.
Qed.

Lemma insight_single_page_run cutoff w page :
  aware cutoff →
  insight_single_page_site web page →
  Forall (insight_processable cutoff) page →
  ∃ out w',
    JobExtract.scrape_recent_jobs web cutoff w = (Some (Ok out), w') ∧
    length out = length (filter (λ entry, insight_fresh cutoff entry = true) page).
Proof.
  intros Hcut (html_text & html_text2 & Hfirst & Hpage & Hsecond & Hempty) Hall.
  destruct (insight_collection_step cutoff page false [] Hall)
    as (kept & Hrun & Hmade).
  simpl in Hrun.
  assert (length kept
          = length (filter (λ entry, insight_fresh cutoff entry = true) page))
    as Hlen by (symmetry; by eapply Forall2_length).
  assert (∃ w1, JobExtract.scrape_pages web cutoff (seq 1 JobExtract.MAX_PAGES) [] w
                = (Some (Ok kept), w1)) as [w1 Hloop].
  { change (seq 1 JobExtract.MAX_PAGES) with (1%nat :: 2%nat :: seq 3 48).
    destruct page as [|entry rest] eqn:Hshape.
    - injection Hrun as _ <-. eexists.
      apply insight_stale_page_stops with (html_text := html_text); [done|by left].
    - cbn [JobExtract.scrape_pages].
      erewrite io_bind_run; cycle 1.
      { unfold try_except. erewrite io_bind_run; [reflexivity|].
        unfold JobExtract.fetch, send. by rewrite Hfirst. }
      cbv beta iota. rewrite Hpage.
      erewrite io_bind_run; [|by unfold lift; rewrite Hrun].
      cbn [fst snd]. destruct (bool_decide (kept ≠ [])); [|by eexists].
      change (negb true) with false. cbv iota. eexists.
      apply insight_stale_page_stops with (html_text := html_text2); [done|by left]. }
  destruct (sort_desc_total (λ r, Ok (JobExtract.posted r)) kept) as [out Hsort].
  { pose proof (insight_kept_are_fresh cutoff page (false, []) _ Hcut
                  (Forall_nil_2 _) Hrun) as Hfresh.
    eapply Forall_impl; [exact Hfresh|].
    intros r Hr. exists (JobExtract.posted r). split; [done|].
    eapply newer_or_equal_aware_l, Hr. }
  exists out, w1. split.
  - unfold JobExtract.scrape_recent_jobs. erewrite io_bind_run; [|exact Hloop].
    unfold lift. by rewrite Hsort.
  - destruct (sort_desc_spec _ _ _ Hsort) as [Hperm _]. by rewrite Hperm.
Qed.
End SinglePageInsight.

(** C3, amended.  In each paginated script, for every fetched page none of
    whose records makes the processing raise, the collection step returns
    and appends to what was collected exactly the postings built from the
    records whose timestamp parses and is at or after the cutoff, one for
    each, in page order: of N records with M qualifying, M are added.  On
    a board that answers the first request with that page and the second
    one with an empty page, the collection of the run returns a list of
    exactly M postings, given an aware cutoff and, for Hays, a first-page
    [totalCount] that is null or a number, for Judge, a [total] and a
    [size] from which the page count is computed without an exception. *)
Theorem collection_step_keeps_the_fresh_records `{PyLib} :
  (∀ cutoff page recent,
     Forall (hays_processable cutoff) page →
     ∃ kept,
       for_each (Hays.keep_recent cutoff) page recent = Ok (recent ++ kept)%list ∧
       Forall2 hays_posting_of (filter (λ j, hays_fresh cutoff j = true) page) kept ∧
       length kept = length (filter (λ j, hays_fresh cutoff j = true) page)) ∧
  (∀ cutoff page recent,
     Forall (judge_processable cutoff) page →
     ∃ kept,
       for_each (Judge.keep_recent cutoff) page recent = Ok (recent ++ kept)%list ∧
       Forall2 judge_posting_of (filter (λ j, judge_fresh cutoff j = true) page) kept ∧
       length kept = length (filter (λ j, judge_fresh cutoff j = true) page)) ∧
  (∀ cutoff page recent,
     Forall (insight_processable cutoff) page →
     ∃ kept,
       for_each (JobExtract.keep_recent cutoff) page (false, recent)
       = Ok (bool_decide (kept ≠ []), (recent ++ kept)%list) ∧
       Forall2 insight_posting_of
         (filter (λ entry, insight_fresh cutoff entry = true) page) kept ∧
       length kept = length (filter (λ entry, insight_fresh cutoff entry = true) page)) ∧
  (∀ server fuel cutoff w page,
     aware cutoff → hays_single_page_board server page →
     Forall (hays_processable cutoff) page →
     ∃ out w',
       Hays.collect_recent_jobs server (S (S fuel)) cutoff w = (Some (Ok out), w') ∧
       length out = length (filter (λ j, hays_fresh cutoff j = true) page)) ∧
  (∀ server fuel cutoff w page,
     aware cutoff → judge_single_page_board server page →
     Forall (judge_processable cutoff) page →
     ∃ out w',
       Judge.collect_recent_jobs server (S (S fuel)) cutoff w = (Some (Ok out), w') ∧
       length out = length (filter (λ j, judge_fresh cutoff j = true) page)) ∧
  (∀ web cutoff w page,
     aware cutoff → insight_single_page_site web page →
     Forall (insight_processable cutoff) page →
     ∃ out w',
       JobExtract.scrape_recent_jobs web cutoff w = (Some (Ok out), w') ∧
       length out = length (filter (λ entry, insight_fresh cutoff entry = true) page)).
Proof.
  split; [|split; [|split; [|split; [|split]]]].
  - intros cutoff page recent Hall.
    destruct (hays_collection_step cutoff page recent Hall) as (kept & Hrun & Hmade).
    exists kept. repeat split; [done | done |].
    symmetry. by eapply Forall2_length.
  - intros cutoff page recent Hall.
    destruct (judge_collection_step cutoff page recent Hall) as (kept & Hrun & Hmade).
    exists kept. repeat split; [done | done |].
    symmetry. by eapply Forall2_length.
  - intros cutoff page recent Hall.
    destruct (insight_collection_step cutoff page false recent Hall)
      as (kept & Hrun & Hmade).
    exists kept. repeat split; [done | done |].
    symmetry. by eapply Forall2_length.
  - intros server fuel cutoff w page. apply hays_single_page_run.
  - intros server fuel cutoff w page. apply judge_single_page_run.
  - intros web cutoff w page. apply insight_single_page_run.
Qed.

Lemma collection_step_keeps_the_fresh_records_witness :
  (∃ kept,
     for_each (Hays.keep_recent (H:=sample_lib) (hays_cutoff sample_now))
              sample_hays_records [] = Ok kept ∧
     length kept = 1%nat) ∧
  (∃ kept,
     for_each (Judge.keep_recent (H:=sample_lib) (day_cutoff sample_now))
              sample_judge_records [] = Ok kept ∧
     length kept = 1%nat) ∧
  (∃ kept,
     for_each (JobExtract.keep_recent (H:=sample_lib) (day_cutoff sample_now))
              (JobExtract.parse_jobs (H:=sample_lib) "<page 1>") (false, [])
     = Ok (true, kept) ∧
     length kept = 1%nat) ∧
  (∃ out w',
     Hays.collect_recent_jobs (H:=sample_lib) sample_hays_server 2
       (hays_cutoff sample_now) empty_world = (Some (Ok out), w') ∧
     length out = 1%nat) ∧
  (∃ out w',
     Judge.collect_recent_jobs (H:=sample_lib) sample_judge_server 2
       (day_cutoff sample_now) empty_world = (Some (Ok out), w') ∧
     length out = 1%nat) ∧
  (∃ out w',
     JobExtract.scrape_recent_jobs (H:=sample_lib) one_page_web
       (day_cutoff sample_now) empty_world = (Some (Ok out), w') ∧
     length out = 1%nat).
Proof.
  destruct (@collection_step_keeps_the_fresh_records sample_lib)
    as (Hh & Hj & Hi & Rh & Rj & Ri).
  split; [|split; [|split; [|split; [|split]]]].
  - destruct (Hh (hays_cutoff sample_now) sample_hays_records [])
      as (kept & Hrun & _ & Hlen).
    { repeat constructor; eexists; reflexivity. }
    exists kept. split; [exact Hrun | exact Hlen].
  - destruct (Hj (day_cutoff sample_now) sample_judge_records [])
      as (kept & Hrun & _ & Hlen).
    { repeat constructor; eexists; reflexivity. }
    exists kept. split; [exact Hrun | exact Hlen].
  - destruct (Hi (day_cutoff sample_now)
                 (JobExtract.parse_jobs (H:=sample_lib) "<page 1>") [])
      as (kept & Hrun & _ & Hlen).
    { repeat constructor; eexists; reflexivity. }
    exists kept. split; [|exact Hlen].
    rewrite Hrun. destruct kept; [discriminate Hlen | reflexivity].
  - apply (Rh sample_hays_server 0%nat (hays_cutoff sample_now) empty_world
              sample_hays_records).
    + by eexists.
    + exists sample_hays_page, (JInt 120), (JDict [("opportunities", JList [])]).
      repeat split; try reflexivity.
      * right. by eexists.
      * by exists (JList []).
    + repeat constructor; eexists; reflexivity.
  - apply (Rj sample_judge_server 0%nat (day_cutoff sample_now) empty_world
              sample_judge_records).
    + by eexists.
    + exists sample_judge_page, (JInt 2), (JInt 20), 1, (JDict [("hits", JList [])]).
      repeat split; try reflexivity. by exists (JList []).
    + repeat constructor; eexists; reflexivity.
  - apply (Ri one_page_web (day_cutoff sample_now) empty_world
              (JobExtract.parse_jobs (H:=sample_lib) "<page 1>")).
    + by eexists.
    + exists "<page 1>", "<no results>". repeat split; reflexivity.
    + repeat constructor; eexists; reflexivity.
Defined.

(** * Further properties of the code *)

(** ** Location labels ([hays_extract.py]) *)

Lemma unique_from (parts acc : list string) :
  NoDup acc →
  ∃ added,
    fold_left (λ (acc : list string) item,
                 if bool_decide (item ∈ acc) then acc else (acc ++ [item])%list)
              parts acc = (acc ++ added)%list ∧
    NoDup (acc ++ added) ∧ sublist added parts ∧
    ∀ x, x ∈ (acc ++ added)%list ↔ x ∈ acc ∨ x ∈ parts.
Proof.
  revert acc. induction parts as [|item rest IH]; intros acc Hacc; simpl.
  - exists []. rewrite app_nil_r. repeat split; [done | done | |].
    + intros Hx. by left.
    + intros [Hx|Hx]; [done|]. by apply elem_of_nil in Hx.
  - destruct (bool_decide (item ∈ acc)) eqn:Hin.
    + apply bool_decide_eq_true in Hin.
      destruct (IH acc Hacc) as (added & Hfold & Hnodup & Hsub & Hmem).
      exists added. repeat split; [done | done | by apply sublist_cons | |].
      * intros Hx. apply Hmem in Hx as [Hx|Hx]; [by left|].
        right. by apply elem_of_cons; right.
      * intros [Hx|Hx]; apply Hmem; [by left|].
        apply elem_of_cons in Hx as [->|Hx]; [by left | by right].
    + apply bool_decide_eq_false in Hin.
      destruct (IH (acc ++ [item])%list) as (added & Hfold & Hnodup & Hsub & Hmem).
      { apply NoDup_app. repeat split; [done| |apply NoDup_singleton].
        intros x Hx Hx'. apply list_elem_of_singleton in Hx' as ->. done. }
      exists (item :: added). rewrite <- app_assoc in Hfold, Hnodup. simpl in *.
      repeat split; [done | done | by apply sublist_skip | |].
      * intros Hx. rewrite (cons_middle item), app_assoc in Hx.
        apply Hmem in Hx as [Hx|Hx]; [|by right; apply elem_of_cons; right].
        apply elem_of_app in Hx as [Hx|Hx]; [by left|].
        apply list_elem_of_singleton in Hx as ->. right. by apply elem_of_cons; left.
      * intros Hx. rewrite (cons_middle item), app_assoc. apply Hmem.
        destruct Hx as [Hx|Hx].
        -- left. apply elem_of_app. by left.
        -- apply elem_of_cons in Hx as [->|Hx]; [|by right].
           left. apply elem_of_app. right. by apply list_elem_of_singleton.
Qed.

Lemma unique_members (parts : list string) :
  NoDup (unique parts) ∧ (∀ x, x ∈ unique parts ↔ x ∈ parts).
Proof.
  destruct (unique_from parts [] (NoDup_nil_2)) as (added & Hfold & Hnodup & _ & Hmem).
  unfold unique. rewrite Hfold. simpl in *. repeat split; [done| |].
  - intros Hx. by apply Hmem in Hx as [Hx|Hx]; [apply elem_of_nil in Hx|].
  - intros Hx. apply Hmem. by right.
Qed.

(** X1.  The de-duplication loop of [format_locations] keeps every label
    at its first occurrence: its result has no repeated entry, holds
    exactly the labels it was given, and a label stands in it right after
    the distinct labels of what came before its first occurrence. *)
Theorem unique_keeps_first_occurrences (parts : list string) :
  NoDup (unique parts) ∧
  (∀ x, x ∈ unique parts ↔ x ∈ parts) ∧
  (∀ before x after,
     parts = (before ++ x :: after)%list → x ∉ before →
     ∃ kept_after, unique parts = (unique before ++ x :: kept_after)%list).
Proof.
  destruct (unique_members parts) as [Hnodup Hmem].
  split; [done|]. split; [done|].
  intros before x after -> Hx.
  destruct (unique_members before) as [Hnodup_before Hmem_before].
  unfold unique at 1. rewrite fold_left_app. fold (unique before). simpl.
  rewrite bool_decide_eq_false_2 by (by rewrite Hmem_before).
  destruct (unique_from after (unique before ++ [x])) as (added & -> & _).
  { apply NoDup_app. repeat split; [done| |apply NoDup_singleton].
    intros y Hy Hy'. apply list_elem_of_singleton in Hy' as ->.
    by apply Hmem_before in Hy. }
  exists added. by rewrite <- app_assoc.
Qed.

Lemma unique_keeps_first_occurrences_witness :
  ∃ kept_after,
    unique ["Tampa, FL"; "Remote"; "Tampa, FL"]
    = (unique ["Tampa, FL"] ++ "Remote" :: kept_after)%list.
Proof.
  apply (proj2 (proj2 (unique_keeps_first_occurrences
                         ["Tampa, FL"; "Remote"; "Tampa, FL"]))
           ["Tampa, FL"] "Remote" ["Tampa, FL"]).
  - reflexivity.
  - intros Hin. apply list_elem_of_singleton in Hin. discriminate Hin.
Defined.

(** One turn of the loop appends to [parts] what the location gives on
    its own: no label or one, which is not empty. *)
Lemma location_label_appends parts loc :
  Hays.location_label parts loc
  = (label ← Hays.location_label [] loc; Ok (parts ++ label)%list).
Proof.
  unfold Hays.location_label.
  repeat match goal with
         | |- (?r ≫= _) = _ => destruct r; simpl; [|reflexivity]
         end.
  match goal with
  | |- context [String.eqb ?label ""] => destruct (String.eqb label "")
  end; simpl; [by rewrite app_nil_r | done].
Qed.

Lemma location_label_alone loc label :
  Hays.location_label [] loc = Ok label →
  (length label ≤ 1)%nat ∧ Forall (λ l, l ≠ "") label.
Proof.
  intros Hrun. unfold Hays.location_label in Hrun.
  repeat (apply result_bind_Ok in Hrun as (? & _ & Hrun)).
  injection Hrun as <-.
  match goal with
  | |- context [String.eqb ?label ""] => destruct (String.eqb_spec label "")
  end; simpl.
  - split; [lia | constructor].
  - split; [lia|]. by repeat constructor.
Qed.

Lemma location_labels_of_items items : ∀ parts parts',
  for_each Hays.location_label items parts = Ok parts' →
  ∃ labels,
    Forall2 (λ loc label, Hays.location_label [] loc = Ok label) items labels ∧
    parts' = (parts ++ concat labels)%list.
Proof.
  induction items as [|loc items IH]; simpl; intros parts parts'.
  - intros [= <-]. exists []. split; [constructor | by rewrite app_nil_r].
  - intros Hrun. apply result_bind_Ok in Hrun as (parts1 & Hloc & Hrun).
    rewrite location_label_appends in Hloc.
    apply result_bind_Ok in Hloc as (label & Hlabel & [= <-]).
    apply IH in Hrun as (labels & Hlabels & ->).
    exists (label :: labels). split; [by constructor|].
    simpl. by rewrite app_assoc.
Qed.

(** X2.  [format_locations], when it returns, gives the labels of the
    locations it was handed, each location giving its label on its own
    (none, or one that is not empty), with every label kept once, at its
    first occurrence, and the kept ones joined by ["; "].  For a missing,
    null or empty list it gives the empty string. *)
Theorem format_locations_joins_the_labels_of_the_locations (locations : json) :
  (∀ text, Hays.format_locations locations = Ok text →
     ∃ items labels,
       py_iter (py_or locations (JList [])) = Ok items ∧
       Forall2 (λ loc label, Hays.location_label [] loc = Ok label ∧
                             (length label ≤ 1)%nat ∧
                             Forall (λ l, l ≠ "") label) items labels ∧
       text = String.concat "; " (unique (concat labels))) ∧
  (truthy locations = false → Hays.format_locations locations = Ok "").
Proof.
  split.
  - intros text Hrun. unfold Hays.format_locations in Hrun.
    apply result_bind_Ok in Hrun as (items & Hitems & Hrun).
    apply result_bind_Ok in Hrun as (parts & Hparts & [= <-]).
    apply location_labels_of_items in Hparts as (labels & Hlabels & ->).
    exists items, labels. split; [done|]. split; [|done].
    eapply Forall2_impl; [exact Hlabels|].
    intros loc label Hlabel. simpl in Hlabel. split; [exact Hlabel|].
    exact (location_label_alone _ _ Hlabel).
  - intros Hfalsy. unfold Hays.format_locations, py_or. by rewrite Hfalsy.
Qed.

Lemma format_locations_joins_the_labels_of_the_locations_witness :
  (∃ items labels,
     py_iter (py_or repeated_locations (JList [])) = Ok items ∧
     Forall2 (λ loc label, Hays.location_label [] loc = Ok label ∧
                           (length label ≤ 1)%nat ∧
                           Forall (λ l, l ≠ "") label) items labels ∧
     "Tampa, FL; Remote" = String.concat "; " (unique (concat labels))) ∧
  Hays.format_locations JNull = Ok "".
Proof.
  split.
  - apply (proj1 (format_locations_joins_the_labels_of_the_locations
                    repeated_locations)).
    reflexivity.
  - apply (proj2 (format_locations_joins_the_labels_of_the_locations JNull)).
    reflexivity.
Defined.

(** X3.  For a location with a city and a state code, the label is
    ["City, CODE"]: the code is used and not the state's name.  A
    description that is not already part of that text follows it in
    parentheses; an empty one, or one the text contains, adds nothing. *)
Theorem location_label_format (parts : list string) (city code name desc : string) :
  city ≠ "" → code ≠ "" →
  Hays.location_label parts (hays_location city code name desc)
  = Ok (parts ++ [if String.eqb desc "" then city +:+ ", " +:+ code
                  else if str_contains desc (city +:+ ", " +:+ code)
                       then city +:+ ", " +:+ code
                       else (city +:+ ", " +:+ code) +:+ " (" +:+ desc +:+ ")"])%list.
Proof.
  intros Hcity Hcode.
  destruct city as [|c1 city]; [done|]. destruct code as [|c2 code]; [done|].
  unfold Hays.location_label, hays_location.
  destruct desc as [|c3 desc]; [reflexivity|].
  cbn -[str_contains]. rewrite !decide_True by done. cbn -[str_contains].
  destruct (str_contains _ _); reflexivity.
Qed.

Lemma location_label_format_witness :
  Hays.location_label [] (hays_location "Tampa" "FL" "Florida" "Hybrid")
  = Ok ["Tampa, FL (Hybrid)"].
Proof.
  apply (location_label_format [] "Tampa" "FL" "Florida" "Hybrid"); discriminate.
Defined.

(** ** The workbook *)

Lemma mapM_result_Forall2 {A B} (f : A → result B) (l : list A) (k : list B) :
  mapM f l = Ok k → Forall2 (λ x y, f x = Ok y) l k.
Proof.
  revert k. induction l as [|x rest IH]; simpl; intros k.
  - intros [= <-]. constructor.
  - intros Hm. apply result_bind_Ok in Hm as (y & Hy & Hm).
    apply result_bind_Ok in Hm as (k' & Hk' & [= <-]).
    constructor; [done | by apply IH].
Qed.

Lemma xlsx_row_Ok (cells row : list json) : xlsx_row cells = Ok row → row = cells.
Proof.
  intros Hrow. apply mapM_result_Forall2 in Hrow.
  induction Hrow as [|c r cells row Hc _ IH]; [done|].
  rewrite IH. f_equal. destruct c; simpl in Hc; congruence.
Qed.

Lemma excel_row_cells {A} (cells_of : A → result (list json)) (j : A)
    (row : list json) :
  (cells ← cells_of j; xlsx_row cells) = Ok row → cells_of j = Ok row.
Proof.
  intros Hrow. apply result_bind_Ok in Hrow as (cells & Hcells & Hrow).
  apply xlsx_row_Ok in Hrow. by subst.
Qed.

Section WorkbookShape.
Context `{PyLib}.

Lemma hays_cells_width j row :
  Hays.excel_cells j = Ok row → length row = length Hays.excel_header.
Proof.
  unfold Hays.excel_cells. intros Hrow.
  apply result_bind_Ok in Hrow as (posted_utc & _ & [= <-]). done.
Qed.

Lemma insight_cells_width j row :
  JobExtract.excel_cells j = Ok row → length row = length JobExtract.excel_header.
Proof.
  unfold JobExtract.excel_cells. intros Hrow.
  do 2 (apply result_bind_Ok in Hrow as (? & _ & Hrow)).
  by injection Hrow as <-.
Qed.

Lemma yoh_cells_width j row :
  Yoh.excel_cells j = Ok row → length row = length Yoh.excel_header.
Proof.
  unfold Yoh.excel_cells. intros Hrow.
  do 9 (apply result_bind_Ok in Hrow as (? & _ & Hrow)).
  by injection Hrow as <-.
Qed.

Lemma rows_are_cells {A} (cells_of : A → result (list json)) (width : nat)
    (jobs : list A) (rows : list (list json)) :
  (∀ j row, cells_of j = Ok row → length row = width) →
  mapM (λ j, cells ← cells_of j; xlsx_row cells) jobs = Ok rows →
  Forall2 (λ j row, cells_of j = Ok row ∧ length row = width) jobs rows.
Proof.
  intros Hwidth Hrows. apply mapM_result_Forall2 in Hrows.
  induction Hrows as [|j row jobs rows Hj _ IH]; constructor; [|done].
  apply excel_row_cells in Hj. split; [done | by eapply Hwidth].
Qed.

(** X4.  When [write_excel] returns, it has put one file at [path] and
    changed nothing else: a workbook of one sheet with the script's title
    and column widths, whose first row is the header and whose other rows
    are the postings in the order of the list, the row of a posting being
    the cells the script computes for it, as many as the header has
    columns. *)
Theorem workbook_rows_are_the_postings_in_order :
  (∀ jobs path w w',
     Hays.write_excel jobs path w = (Some (Ok ()), w') →
     ∃ rows,
       w' = World (requests w)
                  (<[path := XlsxFile (Workbook "Hays Jobs (24h)"
                                         (Hays.excel_header :: rows)
                                         Hays.excel_widths)]> (files w))
                  (stdout w) (stderr w) ∧
       Forall2 (λ j row, Hays.excel_cells j = Ok row ∧
                         length row = length Hays.excel_header) jobs rows) ∧
  (∀ jobs path w w',
     Judge.write_excel jobs path w = (Some (Ok ()), w') →
     w' = World (requests w)
                (<[path := XlsxFile (Workbook "Judge Jobs (24h)"
                                       (Judge.excel_header
                                        :: map Judge.excel_cells jobs)
                                       Judge.excel_widths)]> (files w))
                (stdout w) (stderr w) ∧
     Forall (λ j, length (Judge.excel_cells j) = length Judge.excel_header) jobs) ∧
  (∀ jobs path w w',
     JobExtract.write_excel jobs path w = (Some (Ok ()), w') →
     ∃ rows,
       w' = World (requests w)
                  (<[path := XlsxFile (Workbook "Jobs (last 24h)"
                                         (JobExtract.excel_header :: rows)
                                         JobExtract.excel_widths)]> (files w))
                  (stdout w) (stderr w) ∧
       Forall2 (λ j row, JobExtract.excel_cells j = Ok row ∧
                         length row = length JobExtract.excel_header) jobs rows) ∧
  (∀ jobs path w w',
     Yoh.write_excel jobs path w = (Some (Ok ()), w') →
     ∃ rows,
       w' = World (requests w)
                  (<[path := XlsxFile (Workbook "Yoh Jobs (24h)"
                                         (Yoh.excel_header :: rows)
                                         Yoh.excel_widths)]> (files w))
                  (stdout w) (stderr w) ∧
       Forall2 (λ j row, Yoh.excel_cells j = Ok row ∧
                         length row = length Yoh.excel_header) jobs rows).
Proof.
  split; [|split; [|split]]; intros jobs path w w' Hrun.
  - unfold Hays.write_excel in Hrun. main_inv Hrun.
    eexists. split; [reflexivity|].
    eapply (rows_are_cells Hays.excel_cells); [apply hays_cells_width | eassumption].
  - unfold Judge.write_excel in Hrun. main_inv Hrun.
    match goal with
    | Hr : mapM Judge.excel_row jobs = Ok ?rows |- _ =>
        assert (rows = map Judge.excel_cells jobs) as ->
    end.
    { match goal with Hr : mapM _ _ = Ok _ |- _ => apply mapM_result_Forall2 in Hr;
        induction Hr as [|j row js rows Hj _ IH]; [done|] end.
      simpl. f_equal; [|done]. by apply xlsx_row_Ok in Hj. }
    split; [reflexivity|]. by apply Forall_forall.
  - unfold JobExtract.write_excel in Hrun. main_inv Hrun.
    eexists. split; [reflexivity|].
    eapply (rows_are_cells JobExtract.excel_cells);
      [apply insight_cells_width | eassumption].
  - unfold Yoh.write_excel in Hrun. main_inv Hrun.
    eexists. split; [reflexivity|].
    eapply (rows_are_cells Yoh.excel_cells); [apply yoh_cells_width | eassumption].
Qed.
End WorkbookShape.

Lemma workbook_rows_are_the_postings_in_order_witness :
  snd (Judge.write_excel (H:=sample_lib) [endless_judge_job; endless_judge_job]
         "out.xlsx" empty_world)
  = World [] (<["out.xlsx" :=
                  XlsxFile (Workbook "Judge Jobs (24h)"
                              (Judge.excel_header
                               :: map (Judge.excel_cells (H:=sample_lib))
                                    [endless_judge_job; endless_judge_job])
                              Judge.excel_widths)]> ∅) [] [] ∧
  Forall (λ j, length (Judge.excel_cells (H:=sample_lib) j)
               = length Judge.excel_header)
         [endless_judge_job; endless_judge_job].
Proof.
  destruct (@workbook_rows_are_the_postings_in_order sample_lib) as (_ & Hj & _).
  apply (Hj [endless_judge_job; endless_judge_job] "out.xlsx" empty_world).
  reflexivity.
Defined.

(** ** Failures while the files are written *)

Section WriterFailures.
Context `{PyLib}.

Lemma hays_excel_failure server fuel now w jobs w1 lines e :
  Hays.collect_recent_jobs server fuel (hays_cutoff now) w = (Some (Ok jobs), w1) →
  mapM Hays.text_line jobs = Ok lines →
  mapM Hays.excel_row jobs = Raise e →
  Hays.main server fuel now w
  = (Some (Raise e),
     World (requests w1)
           (<["hays_jobs_last_24h.txt" := TextFile (text_output lines)]> (files w1))
           (stdout w1) (stderr w1)).
Proof.
  intros Hcollect Hlines Hrows. unfold Hays.main.
  erewrite io_bind_run; [|exact Hcollect].
  erewrite io_bind_run; cycle 1.
  { unfold Hays.write_text. erewrite io_bind_run; [reflexivity|].
    unfold lift. by rewrite Hlines. }
  erewrite io_bind_raise; [reflexivity|].
  unfold Hays.write_excel. erewrite io_bind_raise; [reflexivity|].
  unfold lift. by rewrite Hrows.
Qed.

Lemma judge_excel_failure server fuel now w jobs w1 e :
  Judge.collect_recent_jobs server fuel (day_cutoff now) w = (Some (Ok jobs), w1) →
  mapM Judge.excel_row jobs = Raise e →
  Judge.main server fuel now w
  = (Some (Raise e),
     World (requests w1)
           (<["judge_jobs_last_24h.txt" :=
                TextFile (text_output (map Judge.text_line jobs))]> (files w1))
           (stdout w1) (stderr w1)).
Proof.
  intros Hcollect Hrows. unfold Judge.main.
  erewrite io_bind_run; [|exact Hcollect].
  erewrite io_bind_run; [|reflexivity].
  erewrite io_bind_raise; [reflexivity|].
  unfold Judge.write_excel. erewrite io_bind_raise; [reflexivity|].
  unfold lift. by rewrite Hrows.
Qed.

Lemma insight_excel_failure web now w jobs w1 lines e :
  JobExtract.scrape_recent_jobs web (day_cutoff now) w = (Some (Ok jobs), w1) →
  mapM JobExtract.text_line jobs = Ok lines →
  mapM JobExtract.excel_row jobs = Raise e →
  JobExtract.main web now w
  = (Some (Raise e),
     World (requests w1)
           (<["jobs_last_24h.txt" := TextFile (text_output lines)]> (files w1))
           (stdout w1) (stderr w1)).
Proof.
  intros Hcollect Hlines Hrows. unfold JobExtract.main.
  erewrite io_bind_run; [|exact Hcollect].
  erewrite io_bind_run; cycle 1.
  { unfold JobExtract.write_output. erewrite io_bind_run; [reflexivity|].
    unfold lift. by rewrite Hlines. }
  erewrite io_bind_raise; [reflexivity|].
  unfold JobExtract.write_excel. erewrite io_bind_raise; [reflexivity|].
  unfold lift. by rewrite Hrows.
Qed.

Lemma yoh_excel_failure server now w jobs w1 lines e :
  Yoh.recent_jobs server (day_cutoff now) w = (Some (Ok jobs), w1) →
  mapM Yoh.text_line jobs = Ok lines →
  mapM Yoh.excel_row jobs = Raise e →
  Yoh.main server now w
  = (Some (Raise e),
     World (requests w1)
           (<["yoh_jobs_last_24h.txt" := TextFile (text_output lines)]> (files w1))
           (stdout w1) (stderr w1)).
Proof.
  intros Hcollect Hlines Hrows. unfold Yoh.main.
  erewrite io_bind_run; [|exact Hcollect].
  erewrite io_bind_run; cycle 1.
  { unfold Yoh.write_text. erewrite io_bind_run; [reflexivity|].
    unfold lift. by rewrite Hlines. }
  erewrite io_bind_raise; [reflexivity|].
  unfold Yoh.write_excel. erewrite io_bind_raise; [reflexivity|].
  unfold lift. by rewrite Hrows.
Qed.

(** X5.  When every line of the text file can be rendered but a row
    cannot be stored in the workbook (a cell holds a list or an object),
    the run raises after the text file was written: the text file holds
    the new postings, the workbook on disk is left as it was, and the
    closing "Wrote ..." line is not printed. *)
Theorem workbook_failure_leaves_text_file_written :
  (∀ server fuel now w jobs w1 lines e,
     Hays.collect_recent_jobs server fuel (hays_cutoff now) w = (Some (Ok jobs), w1) →
     mapM Hays.text_line jobs = Ok lines →
     mapM Hays.excel_row jobs = Raise e →
     Hays.main server fuel now w
     = (Some (Raise e),
        World (requests w1)
              (<["hays_jobs_last_24h.txt" := TextFile (text_output lines)]> (files w1))
              (stdout w1) (stderr w1))) ∧
  (∀ server fuel now w jobs w1 e,
     Judge.collect_recent_jobs server fuel (day_cutoff now) w = (Some (Ok jobs), w1) →
     mapM Judge.excel_row jobs = Raise e →
     Judge.main server fuel now w
     = (Some (Raise e),
        World (requests w1)
              (<["judge_jobs_last_24h.txt" :=
                   TextFile (text_output (map Judge.text_line jobs))]> (files w1))
              (stdout w1) (stderr w1))) ∧
  (∀ web now w jobs w1 lines e,
     JobExtract.scrape_recent_jobs web (day_cutoff now) w = (Some (Ok jobs), w1) →
     mapM JobExtract.text_line jobs = Ok lines →
     mapM JobExtract.excel_row jobs = Raise e →
     JobExtract.main web now w
     = (Some (Raise e),
        World (requests w1)
              (<["jobs_last_24h.txt" := TextFile (text_output lines)]> (files w1))
              (stdout w1) (stderr w1))) ∧
  (∀ server now w jobs w1 lines e,
     Yoh.recent_jobs server (day_cutoff now) w = (Some (Ok jobs), w1) →
     mapM Yoh.text_line jobs = Ok lines →
     mapM Yoh.excel_row jobs = Raise e →
     Yoh.main server now w
     = (Some (Raise e),
        World (requests w1)
              (<["yoh_jobs_last_24h.txt" := TextFile (text_output lines)]> (files w1))
              (stdout w1) (stderr w1))).
Proof.
  split; [|split; [|split]].
  - apply hays_excel_failure.
  - apply judge_excel_failure.
  - apply insight_excel_failure.
  - apply yoh_excel_failure.
Qed.

(** X6.  In the Insight Global and Yoh scripts a posting whose line cannot
    be rendered (a location part that is neither empty nor a string) makes
    the text writer raise before it opens the file: the run raises and
    neither file is written.  An Insight Global posting with such a city
    raises [TypeError] when its line is rendered, once its timestamp has
    been converted to UTC, which cannot fail for the UTC timestamps the
    script builds.  The Hays text writer also renders every line before it
    opens the file, so a line that cannot be rendered leaves both files
    unwritten there too. *)
Theorem text_failure_writes_nothing :
  (∀ web now w jobs w1 e,
     JobExtract.scrape_recent_jobs web (day_cutoff now) w = (Some (Ok jobs), w1) →
     mapM JobExtract.text_line jobs = Raise e →
     JobExtract.main web now w = (Some (Raise e), w1) ∧ files w1 = files w) ∧
  (∀ server now w jobs w1 e,
     Yoh.recent_jobs server (day_cutoff now) w = (Some (Ok jobs), w1) →
     mapM Yoh.text_line jobs = Raise e →
     Yoh.main server now w = (Some (Raise e), w1) ∧ files w1 = files w) ∧
  (∀ j, truthy_non_string (JobExtract.city j) →
        JobExtract.text_line j
        = (_ ← astimezone_utc (JobExtract.posted j); Raise TypeError) ∧
        (tzinfo (JobExtract.posted j) = Some 0 →
         JobExtract.text_line j = Raise TypeError)) ∧
  (∀ server fuel now w jobs w1 e,
     Hays.collect_recent_jobs server fuel (hays_cutoff now) w = (Some (Ok jobs), w1) →
     mapM Hays.text_line jobs = Raise e →
     Hays.main server fuel now w = (Some (Raise e), w1) ∧ files w1 = files w).
Proof.
  split; [|split; [|split]].
  - intros web now w jobs w1 e Hcollect Hlines. split.
    + unfold JobExtract.main. erewrite io_bind_run; [|exact Hcollect].
      erewrite io_bind_raise; [reflexivity|].
      unfold JobExtract.write_output. erewrite io_bind_raise; [reflexivity|].
      unfold lift. by rewrite Hlines.
    + pose proof (insight_scrape_quiet web files (day_cutoff now)
                    (λ rq answer, send_preserves_files rq answer)
                    print_stderr_preserves_files w) as Hfiles.
      by rewrite Hcollect in Hfiles.
  - intros server now w jobs w1 e Hcollect Hlines. split.
    + unfold Yoh.main. erewrite io_bind_run; [|exact Hcollect].
      erewrite io_bind_raise; [reflexivity|].
      unfold Yoh.write_text. erewrite io_bind_raise; [reflexivity|].
      unfold lift. by rewrite Hlines.
    + pose proof (yoh_recent_jobs_quiet server files (day_cutoff now)
                    (λ rq answer, send_preserves_files rq answer) w) as Hfiles.
      by rewrite Hcollect in Hfiles.
  - intros j [Htruthy Hnot].
    assert (JobExtract.location_of j = Raise TypeError) as Hloc.
    { unfold JobExtract.location_of. rewrite filter_cons_True by done.
      unfold py_join.
      destruct (JobExtract.city j) as [| | |s| |]; try done. by destruct (Hnot s). }
    unfold JobExtract.text_line. rewrite Hloc.
    split; [by destruct (astimezone_utc (JobExtract.posted j))|].
    intros Hutc. unfold astimezone_utc. by rewrite Hutc.
  - intros server fuel now w jobs w1 e Hcollect Hlines. split.
    + unfold Hays.main. erewrite io_bind_run; [|exact Hcollect].
      erewrite io_bind_raise; [reflexivity|].
      unfold Hays.write_text. erewrite io_bind_raise; [reflexivity|].
      unfold lift. by rewrite Hlines.
    + pose proof (hays_collect_quiet server files fuel (hays_cutoff now)
                    (λ rq answer, send_preserves_files rq answer) w) as Hfiles.
      by rewrite Hcollect in Hfiles.
Qed.
End WriterFailures.

Lemma workbook_failure_leaves_text_file_written_witness :
  ∃ w1 jobs lines,
    Hays.collect_recent_jobs (H:=sample_lib) hays_server_with_list_id 3
      (hays_cutoff sample_now) empty_world = (Some (Ok jobs), w1) ∧
    mapM (Hays.text_line (H:=sample_lib)) jobs = Ok lines ∧
    length lines = 1%nat ∧
    Hays.main (H:=sample_lib) hays_server_with_list_id 3 sample_now empty_world
    = (Some (Raise ValueError),
       World (requests w1)
             (<["hays_jobs_last_24h.txt" := TextFile (text_output lines)]> (files w1))
             (stdout w1) (stderr w1)).
Proof.
  eexists _, _, _. split; [vm_compute; reflexivity|].
  split; [vm_compute; reflexivity|]. split; [reflexivity|].
  eapply (proj1 (@workbook_failure_leaves_text_file_written sample_lib)).
  - vm_compute; reflexivity.
  - vm_compute; reflexivity.
  - vm_compute; reflexivity.
Defined.

Lemma text_failure_writes_nothing_witness :
  ∃ w1,
    Yoh.main (H:=sample_lib) (Ok yoh_feed_with_numeric_city) sample_now empty_world
    = (Some (Raise TypeError), w1) ∧
    files w1 = files empty_world.
Proof.
  eexists. destruct (@text_failure_writes_nothing sample_lib) as (_ & Hyoh & _).
  eapply Hyoh.
  - vm_compute. reflexivity.
  - vm_compute. reflexivity.
Defined.

(** ** The request log of a run *)

Lemma after_lift_bind {A B} (P : world → Prop) (r : result A) (k : A → io B) w :
  P w → (∀ a, P (snd (k a w))) → P (snd ((lift r ≫= k) w)).
Proof. intros Hw Hk. unfold mbind, io_bind, lift. destruct r; simpl; auto. Qed.

Lemma after_ret_bind {A B} (P : world → Prop) (a : A) (k : A → io B) w :
  P (snd (k a w)) → P (snd ((mret a ≫= k) w)).
Proof. done. Qed.

Lemma after_send_bind {A B} (P : world → Prop) rq (answer : result A)
    (k : A → io B) w :
  P (after_request w rq) → (∀ a, P (snd (k a (after_request w rq)))) →
  P (snd ((send rq answer ≫= k) w)).
Proof.
  intros Hw Hk. unfold mbind, io_bind, send. destruct answer; simpl; [apply Hk|apply Hw].
Qed.

Lemma after_ret {A} (P : world → Prop) (a : A) w : P w → P (snd (mret (M:=io) a w)).
Proof. done. Qed.

Lemma requests_after_bind {A B} (m : io A) (k : A → io B) w :
  (∀ a, preserves requests (k a)) →
  requests (snd ((m ≫= k) w)) = requests (snd (m w)).
Proof.
  intros Hk. unfold mbind, io_bind. destruct (m w) as [[[a|e]|] w1]; simpl; [|done|done].
  apply Hk.
Qed.

(** A loop body that is a chain of pure steps after its request: every
    way out of it either stops where [Hone] holds or goes round again. *)
Ltac after_steps Hone Hrec :=
  repeat first
    [ exact Hone
    | apply Hrec
    | apply after_ret; exact Hone
    | apply after_lift_bind; [exact Hone | intros ?]
    | apply after_ret_bind
    | match goal with
      | |- _ (snd ((match ?x with _ => _ end ≫= _) _)) => destruct x
      | |- _ (snd ((if ?c then _ else _) _)) => destruct c
      end ].

Lemma string_app_inv_tail (s1 s2 t : string) : s1 +:+ t = s2 +:+ t → s1 = s2.
Proof.
  revert s2. induction s1 as [|c s1 IH]; intros [|d s2] Heq; simpl in Heq.
  - done.
  - apply (f_equal String.length) in Heq.
    rewrite ?string_length_app in Heq. simpl in Heq.
    rewrite ?string_length_app in Heq. lia.
  - apply (f_equal String.length) in Heq.
    rewrite ?string_length_app in Heq. simpl in Heq.
    rewrite ?string_length_app in Heq. lia.
  - injection Heq as -> Heq. f_equal. by apply IH.
Qed.

Lemma page_url_inj (p q : nat) : JobExtract.page_url p = JobExtract.page_url q → p = q.
Proof.
  unfold JobExtract.page_url. intros Heq.
  apply (inj (String.app _)) in Heq. apply string_app_inv_tail in Heq.
  destruct (Nat.eqb p 1) eqn:Hp, (Nat.eqb q 1) eqn:Hq.
  - apply Nat.eqb_eq in Hp, Hq. congruence.
  - destruct (pretty q); discriminate.
  - destruct (pretty p); discriminate.
  - apply string_app_inv_tail in Heq. by apply (inj pretty).
Qed.

Lemma insight_requests_NoDup (pages : list nat) :
  NoDup pages → NoDup (insight_requests pages).
Proof.
  intros Hpages. unfold insight_requests. apply NoDup_fmap_2; [|done].
  intros p q Heq. apply page_url_inj.
  exact (f_equal (λ rq, match rq with HttpGet url => url | _ => "" end) Heq).
Qed.

Section RequestLog.
Context `{PyLib}.

Lemma hays_paginate_requests server fuel cutoff (k : nat) total recent w :
  ∃ n, (n ≤ fuel)%nat ∧ (0 < fuel → 0 < n)%nat ∧
    requests (snd (Hays.paginate server fuel cutoff (Hays.top * Z.of_nat k)
                     total recent w))
    = (requests w ++ hays_requests k n)%list.
Proof.
  revert k total recent w. induction fuel as [|fuel IH]; intros k total recent w.
  - exists 0%nat. simpl. split; [lia|]. split; [lia|]. by rewrite app_nil_r.
  - set (rq := HaysRequest (Hays.top * Z.of_nat k) Hays.top).
    set (P := λ w' : world,
           ∃ n, (n ≤ S fuel)%nat ∧ (0 < S fuel → 0 < n)%nat ∧
                requests w' = (requests w ++ hays_requests k n)%list).
    assert (Hone : P (after_request w rq)).
    { exists 1%nat. split; [lia|]. split; [lia|]. done. }
    assert (Hrec : ∀ total recent,
               P (snd (Hays.paginate server fuel cutoff
                         (Hays.top * Z.of_nat k + Hays.top) total recent
                         (after_request w rq)))).
    { intros total' recent'.
      replace (Hays.top * Z.of_nat k + Hays.top) with (Hays.top * Z.of_nat (S k))
        by (unfold Hays.top; lia).
      destruct (IH (S k) total' recent' (after_request w rq)) as (n & Hn & _ & Hrq).
      exists (S n). split; [lia|]. split; [lia|]. rewrite Hrq. simpl.
      by rewrite <- app_assoc. }
    change (P (snd (Hays.paginate server (S fuel) cutoff (Hays.top * Z.of_nat k)
                      total recent w))).
    cbn [Hays.paginate]. unfold Hays.fetch_page. apply after_send_bind; [exact Hone|]. intros data.
    after_steps Hone Hrec.
Qed.

Lemma judge_paginate_requests server fuel cutoff (k : nat) recent w :
  ∃ n, (n ≤ fuel)%nat ∧ (0 < fuel → 0 < n)%nat ∧
    requests (snd (Judge.paginate server fuel cutoff (Z.of_nat k) recent w))
    = (requests w ++ judge_requests k n)%list.
Proof.
  revert k recent w. induction fuel as [|fuel IH]; intros k recent w.
  - exists 0%nat. simpl. split; [lia|]. split; [lia|]. by rewrite app_nil_r.
  - set (rq := JudgeRequest (Z.of_nat k)).
    set (P := λ w' : world,
           ∃ n, (n ≤ S fuel)%nat ∧ (0 < S fuel → 0 < n)%nat ∧
                requests w' = (requests w ++ judge_requests k n)%list).
    assert (Hone : P (after_request w rq)).
    { exists 1%nat. split; [lia|]. split; [lia|]. done. }
    assert (Hrec : ∀ recent,
               P (snd (Judge.paginate server fuel cutoff (Z.of_nat k + 1) recent
                         (after_request w rq)))).
    { intros recent'.
      replace (Z.of_nat k + 1) with (Z.of_nat (S k)) by lia.
      destruct (IH (S k) recent' (after_request w rq)) as (n & Hn & _ & Hrq).
      exists (S n). split; [lia|]. split; [lia|]. rewrite Hrq. simpl.
      by rewrite <- app_assoc. }
    change (P (snd (Judge.paginate server (S fuel) cutoff (Z.of_nat k) recent w))).
    cbn [Judge.paginate]. unfold Judge.fetch_page. apply after_send_bind; [exact Hone|]. intros data.
    after_steps Hone Hrec.
Qed.

Lemma insight_scrape_pages_requests web cutoff pages recent w :
  ∃ n, (n ≤ length pages)%nat ∧ (0 < length pages → 0 < n)%nat ∧
    requests (snd (JobExtract.scrape_pages web cutoff pages recent w))
    = (requests w ++ insight_requests (take n pages))%list.
Proof.
  revert recent w. induction pages as [|page rest IH]; intros recent w.
  - exists 0%nat. simpl. split; [lia|]. split; [lia|]. by rewrite app_nil_r.
  - set (rq := HttpGet (JobExtract.page_url page)).
    set (P := λ w' : world,
           ∃ n, (n ≤ length (page :: rest))%nat ∧
                (0 < length (page :: rest) → 0 < n)%nat ∧
                requests w' = (requests w ++ insight_requests (take n (page :: rest)))%list).
    assert (Hone : ∀ w1, requests w1 = (requests w ++ [rq])%list → P w1).
    { intros w1 Hw1. exists 1%nat. simpl. split; [lia|]. split; [lia|].
      by rewrite ?take_0. }
    assert (Hrec : ∀ recent',
               P (snd (JobExtract.scrape_pages web cutoff rest recent'
                         (after_request w rq)))).
    { intros recent'.
      destruct (IH recent' (after_request w rq)) as (n & Hn & _ & Hrq).
      exists (S n). simpl. split; [lia|]. split; [lia|]. rewrite Hrq. simpl.
      by rewrite <- app_assoc. }
    change (P (snd (JobExtract.scrape_pages web cutoff (page :: rest) recent w))).
    cbn [JobExtract.scrape_pages].
    unfold mbind at 1. unfold io_bind at 1.
    unfold try_except, JobExtract.fetch, send, mbind at 1, io_bind at 1.
    destruct (web (JobExtract.page_url page)) as [html_text|e]; cbn beta iota.
    + cbn [mret io_ret].
      change (World (requests w ++ [HttpGet (JobExtract.page_url page)])
                    (files w) (stdout w) (stderr w)) with (after_request w rq).
      destruct (JobExtract.parse_jobs html_text) as [|entry entries].
      * by apply Hone.
      * specialize (Hone (after_request w rq) eq_refl).
        after_steps Hone Hrec.
    + destruct (is_URLError e); by apply Hone.
Qed.

(** X7.  The pages of a board are asked for in order, one request each,
    with no page skipped or asked for twice: Hays with [Skip] 0, 50, 100,
    ... and [Top] 50, Judge with pages 0, 1, 2, ..., Insight Global with
    the URLs of pages 1, 2, ..., at least one and at most fifty of them,
    all distinct.  A Yoh run sends exactly one request, to its endpoint.
    This holds however the run ends. *)
Theorem requests_are_successive_pages :
  (∀ server fuel now w,
     ∃ n, (n ≤ fuel)%nat ∧ (0 < fuel → 0 < n)%nat ∧
          requests (snd (Hays.main server fuel now w))
          = (requests w ++ hays_requests 0 n)%list) ∧
  (∀ server fuel now w,
     ∃ n, (n ≤ fuel)%nat ∧ (0 < fuel → 0 < n)%nat ∧
          requests (snd (Judge.main server fuel now w))
          = (requests w ++ judge_requests 0 n)%list) ∧
  (∀ web now w,
     ∃ n, (1 ≤ n ≤ JobExtract.MAX_PAGES)%nat ∧
          requests (snd (JobExtract.main web now w))
          = (requests w ++ insight_requests (seq 1 n))%list ∧
          NoDup (insight_requests (seq 1 n))) ∧
  (∀ server now w,
     requests (snd (Yoh.main server now w))
     = (requests w ++ [HttpGet Yoh.ENDPOINT])%list).
Proof.
  destruct writers_send_no_request as (Hhays & Hjudge & Hinsight).
  split; [|split; [|split]].
  - intros server fuel now w. unfold Hays.main.
    rewrite requests_after_bind; cycle 1.
    { intros jobs.
      destruct (Hhays jobs Hays.txt_path "") as (Htxt & _ & _).
      destruct (Hhays jobs Hays.xlsx_path "") as (_ & Hxlsx & _).
      apply preserves_bind; [exact Htxt|intros ?].
      apply preserves_bind; [exact Hxlsx|intros ?]. apply print_preserves_requests. }
    unfold Hays.collect_recent_jobs. rewrite requests_after_bind; [|by intros].
    apply (hays_paginate_requests server fuel _ 0%nat).
  - intros server fuel now w. unfold Judge.main.
    rewrite requests_after_bind; cycle 1.
    { intros jobs.
      destruct (Hjudge jobs Judge.txt_path) as (Htxt & _).
      destruct (Hjudge jobs Judge.xlsx_path) as (_ & Hxlsx).
      apply preserves_bind; [exact Htxt|intros ?].
      apply preserves_bind; [exact Hxlsx|intros ?]. apply print_preserves_requests. }
    unfold Judge.collect_recent_jobs. rewrite requests_after_bind; [|by intros].
    apply (judge_paginate_requests server fuel _ 0%nat).
  - intros web now w. unfold JobExtract.main.
    rewrite requests_after_bind; cycle 1.
    { intros jobs.
      destruct (Hinsight jobs JobExtract.txt_path) as (Htxt & _).
      destruct (Hinsight jobs JobExtract.xlsx_path) as (_ & Hxlsx).
      apply preserves_bind; [exact Htxt|intros ?].
      apply preserves_bind; [exact Hxlsx|intros ?]. apply print_preserves_requests. }
    unfold JobExtract.scrape_recent_jobs. rewrite requests_after_bind; [|by intros].
    destruct (insight_scrape_pages_requests web (minus_hours (datetime_now_utc now) 24)
                (seq 1 JobExtract.MAX_PAGES) [] w) as (n & Hn & Hpos & Hrq).
    rewrite length_seq in Hn, Hpos. exists n. split.
    { unfold JobExtract.MAX_PAGES in *. lia. }
    rewrite Hrq, take_seq, Nat.min_l by done. split; [done|].
    apply insight_requests_NoDup, NoDup_seq.
  - intros server now w. unfold Yoh.main.
    rewrite requests_after_bind; cycle 1.
    { intros jobs.
      apply preserves_bind.
      { unfold Yoh.write_text. apply preserves_bind; [apply preserves_lift|].
        intros; apply write_file_preserves_requests. }
      intros ?. apply preserves_bind.
      { unfold Yoh.write_excel. apply preserves_bind; [apply preserves_lift|].
        intros; apply write_file_preserves_requests. }
      intros ?. apply print_preserves_requests. }
    unfold Yoh.recent_jobs, Yoh.fetch_jobs.
    set (P := λ w' : world, requests w' = (requests w ++ [HttpGet Yoh.ENDPOINT])%list).
    assert (Hone : P (after_request w (HttpGet Yoh.ENDPOINT))) by done.
    apply (after_send_bind P); [exact Hone|]. intros all_jobs.
    apply after_lift_bind; [exact Hone|]. intros items.
    apply after_lift_bind; [exact Hone|]. intros recent. exact Hone.
Qed.
End RequestLog.

Lemma requests_are_successive_pages_witness :
  ∃ n, (1 ≤ n ≤ 50)%nat ∧
       requests (snd sample_insight_run) = insight_requests (seq 1 n).
Proof.
  destruct (proj1 (proj2 (proj2 (@requests_are_successive_pages sample_lib)))
              sample_web sample_now empty_world) as (n & Hn & Hrq & _).
  exists n. split; [exact Hn | exact Hrq].
Defined.

(** ** Stopping on the reported totals *)

Lemma ends_lift_bind {A B} (r : result A) (k : A → io B) w :
  (∀ a, r = Ok a → is_Some (fst (k a w))) → is_Some (fst ((lift r ≫= k) w)).
Proof.
  intros Hk. unfold mbind, io_bind, lift. destruct r as [a|e]; [by apply Hk | by eexists].
Qed.

Lemma ends_send_bind {A B} rq (answer : result A) (k : A → io B) w :
  (∀ a, answer = Ok a → is_Some (fst (k a (after_request w rq)))) →
  is_Some (fst ((send rq answer ≫= k) w)).
Proof.
  intros Hk. unfold mbind, io_bind, send.
  destruct answer as [a|e]; [by apply Hk | by eexists].
Qed.

Lemma ends_ret_bind {A B} (a : A) (k : A → io B) w :
  is_Some (fst (k a w)) → is_Some (fst ((mret a ≫= k) w)).
Proof. done. Qed.

Lemma ends_bind {A B} (m : io A) (k : A → io B) w :
  is_Some (fst (m w)) → (∀ a, always_ends (k a)) → is_Some (fst ((m ≫= k) w)).
Proof.
  intros Hm Hk. unfold mbind, io_bind.
  destruct (m w) as [[[a|e]|] w1]; simpl in *; [apply Hk | by eexists | done].
Qed.

Lemma always_ends_write_file path f : always_ends (write_file path f).
Proof. intros w. by eexists. Qed.

Lemma always_ends_print line : always_ends (print line).
Proof. intros w. by eexists. Qed.

Section ReportedTotals.
Context `{PyLib}.

Lemma hays_writers_end jobs line :
  always_ends (_ ← Hays.write_text jobs Hays.txt_path;
               _ ← Hays.write_excel jobs Hays.xlsx_path; print line).
Proof.
  apply always_ends_bind.
  { apply always_ends_bind; [apply always_ends_lift|].
    intros ?. apply always_ends_write_file. }
  intros ?.
  apply always_ends_bind; [|intros ?; apply always_ends_print].
  apply always_ends_bind; [apply always_ends_lift|].
  intros ?. apply always_ends_write_file.
Qed.

Lemma judge_writers_end jobs line :
  always_ends (_ ← Judge.write_text jobs Judge.txt_path;
               _ ← Judge.write_excel jobs Judge.xlsx_path; print line).
Proof.
  apply always_ends_bind; [apply always_ends_write_file|]. intros ?.
  apply always_ends_bind; [|intros ?; apply always_ends_print].
  apply always_ends_bind; [apply always_ends_lift|].
  intros ?. apply always_ends_write_file.
Qed.

Lemma hays_stop_by_total cutoff oldest T skip :
  Hays.stop_paging cutoff oldest (JInt T) skip = Ok false → skip < T.
Proof.
  unfold Hays.stop_paging. intros Hstop.
  apply result_bind_Ok in Hstop as (past & _ & Hstop).
  destruct past; [discriminate|]. simpl in Hstop.
  injection Hstop as Hstop. apply bool_decide_eq_false in Hstop. lia.
Qed.

Lemma hays_paginate_ends_by_total server cutoff T fuel : ∀ skip recent w,
  (0 < fuel)%nat → T ≤ skip + Hays.top * Z.of_nat fuel →
  is_Some (fst (Hays.paginate server fuel cutoff skip (JInt T) recent w)).
Proof.
  induction fuel as [|fuel IH]; intros skip recent w Hpos HT; [lia|].
  cbn [Hays.paginate]. unfold Hays.fetch_page.
  apply ends_send_bind. intros data _.
  apply ends_lift_bind. intros opportunities _.
  destruct (negb (truthy opportunities)); [by eexists|].
  cbn iota. apply ends_ret_bind.
  apply ends_lift_bind. intros items _.
  apply ends_lift_bind. intros recent' _.
  apply ends_lift_bind. intros oldest _.
  apply ends_lift_bind. intros stop Hstop.
  destruct stop; [by eexists|].
  apply hays_stop_by_total in Hstop. unfold Hays.top in *.
  apply IH; lia.
Qed.

Lemma hays_paginate_ends_by_first_total server cutoff T fuel data w :
  server 0 Hays.top = Ok data →
  py_get data "totalCount" (JInt 0) = Ok (JInt T) →
  (0 < fuel)%nat → T ≤ Hays.top * Z.of_nat fuel →
  is_Some (fst (Hays.paginate server fuel cutoff 0 JNull [] w)).
Proof.
  intros Hdata Htotal Hpos HT. destruct fuel as [|fuel]; [lia|].
  cbn [Hays.paginate]. unfold Hays.fetch_page.
  apply ends_send_bind. intros data' Hdata'.
  assert (data' = data) as -> by congruence.
  apply ends_lift_bind. intros opportunities _.
  destruct (negb (truthy opportunities)); [by eexists|].
  cbn iota. rewrite Htotal.
  apply ends_lift_bind. intros total [= <-].
  apply ends_lift_bind. intros items _.
  apply ends_lift_bind. intros recent' _.
  apply ends_lift_bind. intros oldest _.
  apply ends_lift_bind. intros stop Hstop.
  destruct stop; [by eexists|].
  apply hays_stop_by_total in Hstop. unfold Hays.top in *.
  apply hays_paginate_ends_by_total; unfold Hays.top; lia.
Qed.

(** X8.  When the first page of the Hays board reports an integer
    [totalCount] of [T], the run ends, normally or with an exception,
    after at most [T / 50] rounded up requests (and at least one):
    given that many turns of the loop it never runs out of them. *)
Theorem hays_total_count_bounds_the_run server fuel now w data (T : Z) :
  server 0 Hays.top = Ok data →
  py_get data "totalCount" (JInt 0) = Ok (JInt T) →
  (0 < fuel)%nat → T ≤ Hays.top * Z.of_nat fuel →
  is_Some (fst (Hays.main server fuel now w)) ∧
  (length (requests (snd (Hays.main server fuel now w)))
   ≤ length (requests w) + fuel)%nat.
Proof.
  intros Hdata Htotal Hpos HT. split.
  - unfold Hays.main. apply ends_bind; [|intros jobs; apply hays_writers_end].
    unfold Hays.collect_recent_jobs.
    apply ends_bind; [|intros recent; apply always_ends_lift].
    by eapply hays_paginate_ends_by_first_total.
  - unfold Hays.main. rewrite requests_after_bind; cycle 1.
    { intros jobs. destruct writers_send_no_request as (Hhays & _).
      destruct (Hhays jobs Hays.txt_path "") as (Htxt & _ & _).
      destruct (Hhays jobs Hays.xlsx_path "") as (_ & Hxlsx & _).
      apply preserves_bind; [exact Htxt|intros ?].
      apply preserves_bind; [exact Hxlsx|intros ?]. apply print_preserves_requests. }
    unfold Hays.collect_recent_jobs. rewrite requests_after_bind; [|by intros].
    destruct (hays_paginate_requests server fuel
                (minus_hours (datetime_now_utc now) (10 * 24)) 0%nat JNull [] w)
      as (n & Hn & _ & Hrq).
    change (Hays.top * Z.of_nat 0) with 0 in Hrq. rewrite Hrq.
    rewrite length_app. unfold hays_requests. rewrite length_map, length_seq. lia.
Qed.

Lemma judge_paginate_ends_by_count server cutoff (M : Z) :
  (∀ page data, server page = Ok data →
     ∃ m, judge_page_count data = Ok m ∧ 0 < m ≤ M) →
  ∀ fuel page recent w,
    (0 < fuel)%nat → M ≤ page + Z.of_nat fuel →
    is_Some (fst (Judge.paginate server fuel cutoff page recent w)).
Proof.
  intros Hserver.
  induction fuel as [|fuel IH]; intros page recent w Hpos Hfuel; [lia|].
  cbn [Judge.paginate]. unfold Judge.fetch_page.
  apply ends_send_bind. intros data Hdata.
  destruct (Hserver page data Hdata) as (m & Hcount & Hmpos & HmM).
  unfold judge_page_count in Hcount.
  apply result_bind_Ok in Hcount as (total & Htotal & Hcount).
  apply result_bind_Ok in Hcount as (size & Hsize & Hm).
  apply ends_lift_bind. intros hits _.
  destruct (negb (truthy hits)); [by eexists|].
  apply ends_lift_bind. intros items _.
  apply ends_lift_bind. intros recent' _.
  apply ends_lift_bind. intros oldest _.
  rewrite Htotal. apply ends_lift_bind. intros ? [= <-].
  rewrite Hsize. apply ends_lift_bind. intros ? [= <-].
  rewrite Hm. apply ends_lift_bind. intros max_pages [= <-].
  apply ends_lift_bind. intros past _.
  destruct (past || negb (m =? 0) && bool_decide (m ≤ page + 1)) eqn:Hstop;
    [by eexists|].
  apply orb_false_iff in Hstop as [_ Hstop].
  apply andb_false_iff in Hstop as [Hzero|Hle].
  - apply negb_false_iff, Z.eqb_eq in Hzero. lia.
  - apply bool_decide_eq_false in Hle. apply IH; lia.
Qed.

(** X9.  When on every page of the Judge search the page count
    [math.ceil(total / size)] computes to a positive number that is at
    most [M], the run ends, normally or with an exception, after at most
    [M] requests: given that many turns of the loop it never runs out of
    them. *)
Theorem judge_page_count_bounds_the_run server (M : nat) now w :
  (0 < M)%nat →
  (∀ page data, server page = Ok data →
     ∃ m, judge_page_count data = Ok m ∧ 0 < m ≤ Z.of_nat M) →
  is_Some (fst (Judge.main server M now w)) ∧
  (length (requests (snd (Judge.main server M now w)))
   ≤ length (requests w) + M)%nat.
Proof.
  intros HM Hserver. rename M into fuel. split.
  - unfold Judge.main. apply ends_bind; [|intros jobs; apply judge_writers_end].
    unfold Judge.collect_recent_jobs.
    apply ends_bind; [|intros recent; apply always_ends_lift].
    eapply judge_paginate_ends_by_count; [exact Hserver | lia | lia].
  - unfold Judge.main. rewrite requests_after_bind; cycle 1.
    { intros jobs. destruct writers_send_no_request as (_ & Hjudge & _).
      destruct (Hjudge jobs Judge.txt_path) as (Htxt & _).
      destruct (Hjudge jobs Judge.xlsx_path) as (_ & Hxlsx).
      apply preserves_bind; [exact Htxt|intros ?].
      apply preserves_bind; [exact Hxlsx|intros ?]. apply print_preserves_requests. }
    unfold Judge.collect_recent_jobs. rewrite requests_after_bind; [|by intros].
    destruct (judge_paginate_requests server fuel
                (minus_hours (datetime_now_utc now) 24) 0%nat [] w)
      as (n & Hn & _ & Hrq).
    change (Z.of_nat 0) with 0 in Hrq. rewrite Hrq.
    rewrite length_app. unfold judge_requests. rewrite length_map, length_seq. lia.
Qed.
End ReportedTotals.

Lemma hays_total_count_bounds_the_run_witness :
  is_Some (fst sample_hays_run) ∧
  (length (requests (snd sample_hays_run)) ≤ length (requests empty_world) + 3)%nat.
Proof.
  apply (@hays_total_count_bounds_the_run sample_lib sample_hays_server 3 sample_now
           empty_world sample_hays_page 120).
  - reflexivity.
  - reflexivity.
  - lia.
  - unfold Hays.top. lia.
Defined.

Lemma judge_page_count_bounds_the_run_witness :
  is_Some (fst (Judge.main (H:=sample_lib) counted_judge_server 2 sample_now
                  empty_world)) ∧
  (length (requests (snd (Judge.main (H:=sample_lib) counted_judge_server 2
                            sample_now empty_world)))
   ≤ length (requests empty_world) + 2)%nat.
Proof.
  apply (@judge_page_count_bounds_the_run sample_lib counted_judge_server 2
           sample_now empty_world).
  - lia.
  - intros page data [= <-]. exists 2. split; [reflexivity | lia].
Defined.

(** ** The closing line *)

Lemma mapM_result_length {A B} (f : A → result B) (l : list A) (k : list B) :
  mapM f l = Ok k → length k = length l.
Proof. intros Hm. symmetry. eapply Forall2_length, mapM_result_Forall2, Hm. Qed.

Section ClosingLine.
Context `{PyLib}.

Lemma hays_closing_line server fuel now w w' :
  Hays.main server fuel now w = (Some (Ok ()), w') →
  ∃ rows,
    files w' !! "hays_jobs_last_24h.xlsx"
    = Some (XlsxFile (Workbook "Hays Jobs (24h)" (Hays.excel_header :: rows)
                               Hays.excel_widths)) ∧
    stdout w' = (stdout w ++
                 ["Wrote " +:+ pretty (length rows) +:+
                  " Hays jobs to hays_jobs_last_24h.txt and hays_jobs_last_24h.xlsx"])%list ∧
    stderr w' = stderr w.
Proof.
  unfold Hays.main, Hays.write_text, Hays.write_excel. intros Hrun.
  main_inv Hrun.
  match goal with
  | Hc : Hays.collect_recent_jobs _ _ _ _ = (Some (Ok ?jobs), ?w1),
    Hr : mapM Hays.excel_row _ = Ok ?rows |- _ =>
      pose proof (hays_collect_quiet server stdout fuel (hays_cutoff now)
                    (λ rq answer, send_preserves_stdout rq answer) w) as Hout;
      pose proof (hays_collect_quiet server stderr fuel (hays_cutoff now)
                    (λ rq answer, send_preserves_stderr rq answer) w) as Herr;
      unfold hays_cutoff in *; rewrite Hc in Hout, Herr; simpl in Hout, Herr;
      exists rows; apply mapM_result_length in Hr; rewrite Hr, Hout, Herr
  end.
  unfold Hays.xlsx_path. rewrite lookup_insert_eq. done.
Qed.

Lemma judge_closing_line server fuel now w w' :
  Judge.main server fuel now w = (Some (Ok ()), w') →
  ∃ rows,
    files w' !! "judge_jobs_last_24h.xlsx"
    = Some (XlsxFile (Workbook "Judge Jobs (24h)" (Judge.excel_header :: rows)
                               Judge.excel_widths)) ∧
    stdout w' = (stdout w ++
                 ["Wrote " +:+ pretty (length rows) +:+
                  " Judge jobs to judge_jobs_last_24h.txt and judge_jobs_last_24h.xlsx"])%list ∧
    stderr w' = stderr w.
Proof.
  unfold Judge.main, Judge.write_text, Judge.write_excel. intros Hrun.
  main_inv Hrun.
  match goal with
  | Hc : Judge.collect_recent_jobs _ _ _ _ = (Some (Ok ?jobs), ?w1),
    Hr : mapM Judge.excel_row _ = Ok ?rows |- _ =>
      pose proof (judge_collect_quiet server stdout fuel (day_cutoff now)
                    (λ rq answer, send_preserves_stdout rq answer) w) as Hout;
      pose proof (judge_collect_quiet server stderr fuel (day_cutoff now)
                    (λ rq answer, send_preserves_stderr rq answer) w) as Herr;
      unfold day_cutoff in *; rewrite Hc in Hout, Herr; simpl in Hout, Herr;
      exists rows; apply mapM_result_length in Hr; rewrite Hr, Hout, Herr
  end.
  unfold Judge.xlsx_path. rewrite lookup_insert_eq. done.
Qed.

Lemma insight_closing_line web now w w' :
  JobExtract.main web now w = (Some (Ok ()), w') →
  ∃ rows,
    files w' !! "jobs_last_24h.xlsx"
    = Some (XlsxFile (Workbook "Jobs (last 24h)" (JobExtract.excel_header :: rows)
                               JobExtract.excel_widths)) ∧
    stdout w' = (stdout w ++
                 ["Wrote " +:+ pretty (length rows) +:+
                  " jobs to jobs_last_24h.txt and jobs_last_24h.xlsx"])%list.
Proof.
  unfold JobExtract.main, JobExtract.write_output, JobExtract.write_excel.
  intros Hrun. main_inv Hrun.
  match goal with
  | Hc : JobExtract.scrape_recent_jobs _ _ _ = (Some (Ok ?jobs), ?w1),
    Hr : mapM JobExtract.excel_row _ = Ok ?rows |- _ =>
      pose proof (insight_scrape_quiet web stdout (day_cutoff now)
                    (λ rq answer, send_preserves_stdout rq answer)
                    print_stderr_preserves_stdout w) as Hout;
      unfold day_cutoff in *; rewrite Hc in Hout; simpl in Hout;
      exists rows; apply mapM_result_length in Hr; rewrite Hr, Hout
  end.
  unfold JobExtract.xlsx_path. rewrite lookup_insert_eq. done.
Qed.

Lemma yoh_closing_line server now w w' :
  Yoh.main server now w = (Some (Ok ()), w') →
  ∃ rows,
    files w' !! "yoh_jobs_last_24h.xlsx"
    = Some (XlsxFile (Workbook "Yoh Jobs (24h)" (Yoh.excel_header :: rows)
                               Yoh.excel_widths)) ∧
    stdout w' = (stdout w ++
                 ["Wrote " +:+ pretty (length rows) +:+
                  " Yoh jobs to yoh_jobs_last_24h.txt and yoh_jobs_last_24h.xlsx"])%list ∧
    stderr w' = stderr w.
Proof.
  unfold Yoh.main, Yoh.write_text, Yoh.write_excel. intros Hrun.
  main_inv Hrun.
  match goal with
  | Hc : Yoh.recent_jobs _ _ _ = (Some (Ok ?jobs), ?w1),
    Hr : mapM Yoh.excel_row _ = Ok ?rows |- _ =>
      pose proof (yoh_recent_jobs_quiet server stdout (day_cutoff now)
                    (λ rq answer, send_preserves_stdout rq answer) w) as Hout;
      pose proof (yoh_recent_jobs_quiet server stderr (day_cutoff now)
                    (λ rq answer, send_preserves_stderr rq answer) w) as Herr;
      unfold day_cutoff in *; rewrite Hc in Hout, Herr; simpl in Hout, Herr;
      exists rows; apply mapM_result_length in Hr; rewrite Hr, Hout, Herr
  end.
  unfold Yoh.xlsx_path. rewrite lookup_insert_eq. done.
Qed.

(** X10.  A run that ends normally prints exactly one line to standard
    output, and the number of jobs it reports there is the number of data
    rows of the workbook it has just saved.  The Hays, Judge and Yoh
    scripts write nothing to the diagnostic stream on such a run. *)
Theorem closing_line_counts_the_workbook_rows :
  (∀ server fuel now w w',
     Hays.main server fuel now w = (Some (Ok ()), w') →
     ∃ rows,
       files w' !! "hays_jobs_last_24h.xlsx"
       = Some (XlsxFile (Workbook "Hays Jobs (24h)" (Hays.excel_header :: rows)
                                  Hays.excel_widths)) ∧
       stdout w' = (stdout w ++
                    ["Wrote " +:+ pretty (length rows) +:+
                     " Hays jobs to hays_jobs_last_24h.txt and hays_jobs_last_24h.xlsx"])%list ∧
       stderr w' = stderr w) ∧
  (∀ server fuel now w w',
     Judge.main server fuel now w = (Some (Ok ()), w') →
     ∃ rows,
       files w' !! "judge_jobs_last_24h.xlsx"
       = Some (XlsxFile (Workbook "Judge Jobs (24h)" (Judge.excel_header :: rows)
                                  Judge.excel_widths)) ∧
       stdout w' = (stdout w ++
                    ["Wrote " +:+ pretty (length rows) +:+
                     " Judge jobs to judge_jobs_last_24h.txt and judge_jobs_last_24h.xlsx"])%list ∧
       stderr w' = stderr w) ∧
  (∀ web now w w',
     JobExtract.main web now w = (Some (Ok ()), w') →
     ∃ rows,
       files w' !! "jobs_last_24h.xlsx"
       = Some (XlsxFile (Workbook "Jobs (last 24h)" (JobExtract.excel_header :: rows)
                                  JobExtract.excel_widths)) ∧
       stdout w' = (stdout w ++
                    ["Wrote " +:+ pretty (length rows) +:+
                     " jobs to jobs_last_24h.txt and jobs_last_24h.xlsx"])%list) ∧
  (∀ server now w w',
     Yoh.main server now w = (Some (Ok ()), w') →
     ∃ rows,
       files w' !! "yoh_jobs_last_24h.xlsx"
       = Some (XlsxFile (Workbook "Yoh Jobs (24h)" (Yoh.excel_header :: rows)
                                  Yoh.excel_widths)) ∧
       stdout w' = (stdout w ++
                    ["Wrote " +:+ pretty (length rows) +:+
                     " Yoh jobs to yoh_jobs_last_24h.txt and yoh_jobs_last_24h.xlsx"])%list ∧
       stderr w' = stderr w).
Proof.
  split; [|split; [|split]].
  - apply hays_closing_line.
  - apply judge_closing_line.
  - apply insight_closing_line.
  - apply yoh_closing_line.
Qed.
End ClosingLine.

Lemma closing_line_counts_the_workbook_rows_witness :
  ∃ rows,
    files (snd sample_yoh_run) !! "yoh_jobs_last_24h.xlsx"
    = Some (XlsxFile (Workbook "Yoh Jobs (24h)" (Yoh.excel_header :: rows)
                               Yoh.excel_widths)) ∧
    stdout (snd sample_yoh_run)
    = (stdout empty_world ++
       ["Wrote " +:+ pretty (length rows) +:+
        " Yoh jobs to yoh_jobs_last_24h.txt and yoh_jobs_last_24h.xlsx"])%list ∧
    stderr (snd sample_yoh_run) = stderr empty_world.
Proof.
  destruct (@closing_line_counts_the_workbook_rows sample_lib) as (_ & _ & _ & Hyoh).
  apply (Hyoh (Ok sample_yoh_feed) sample_now empty_world). reflexivity.
Defined.

(** ** Which record decides whether the loop goes on *)

Section LastRecord.
Context `{PyLib}.

Lemma hays_oldest_of_skips_undated (undated rest : list json) :
  Forall hays_unparsed undated →
  Hays.oldest_of (undated ++ rest) = Hays.oldest_of rest.
Proof.
  induction 1 as [|j undated (raw & Hraw & Hnone) _ IH]; simpl; [done|].
  rewrite Hraw. simpl. by rewrite Hnone.
Qed.

Lemma hays_oldest_of_last_dated pre j d post :
  hays_dated j d → Forall hays_unparsed post →
  Hays.oldest_of (rev (pre ++ j :: post)) = Ok (Some d).
Proof.
  intros (raw & Hraw & Hd) Hpost.
  rewrite rev_app_distr. simpl. rewrite <- app_assoc.
  rewrite hays_oldest_of_skips_undated by (by apply Forall_rev).
  simpl. rewrite Hraw. simpl. by rewrite Hd.
Qed.

Lemma hays_oldest_of_undated items :
  Forall hays_unparsed items → Hays.oldest_of (rev items) = Ok None.
Proof.
  intros Hitems. rewrite <- (app_nil_r (rev items)).
  by rewrite hays_oldest_of_skips_undated by (by apply Forall_rev).
Qed.

Lemma hays_last_dated_older_stops server fuel cutoff skip total recent w data
    pre j post recent' :
  server skip Hays.top = Ok data →
  py_get data "opportunities" (JList []) = Ok (JList (pre ++ j :: post)) →
  hays_record_older cutoff j → Forall hays_unparsed post →
  for_each (Hays.keep_recent cutoff) (pre ++ j :: post) recent = Ok recent' →
  Hays.paginate server (S fuel) cutoff skip total recent w
  = (Some (Ok recent'), after_request w (HaysRequest skip Hays.top)).
Proof.
  intros Hserver Hopp (raw & d & Hraw & Hd & Hold) Hpost Hfor. simpl.
  erewrite io_bind_run; [|by unfold Hays.fetch_page, send; rewrite Hserver].
  fold (after_request w (HaysRequest skip Hays.top)).
  rewrite Hopp. erewrite io_bind_run; [|reflexivity].
  assert (truthy (JList (pre ++ j :: post)) = true) as -> by (by destruct pre).
  change (negb true) with false. cbv iota.
  assert (∃ total', (match total with
                     | JNull => lift (py_get data "totalCount" (JInt 0))
                     | _ => mret total
                     end : io json) (after_request w (HaysRequest skip Hays.top))
                    = (Some (Ok total'), after_request w (HaysRequest skip Hays.top)))
    as [total' Htotal].
  { destruct data; try discriminate. destruct total; by eexists. }
  erewrite io_bind_run; [|exact Htotal].
  erewrite io_bind_run; [|reflexivity].
  erewrite io_bind_run; [|by unfold lift; rewrite Hfor].
  erewrite io_bind_run; cycle 1.
  { unfold lift. rewrite (hays_oldest_of_last_dated pre j d post); [reflexivity| |done].
    by exists raw. }
  erewrite io_bind_run; cycle 1.
  { unfold lift, Hays.stop_paging. rewrite (older_than_dt_lt _ _ Hold). reflexivity. }
  reflexivity.
Qed.

Lemma judge_last_older_stops server fuel cutoff page recent w data pre j recent'
    total size m :
  server page = Ok data →
  py_get data "hits" (JList []) = Ok (JList (pre ++ [j])) →
  judge_record_older cutoff j →
  for_each (Judge.keep_recent cutoff) (pre ++ [j]) recent = Ok recent' →
  py_get data "total" (JInt 0) = Ok total →
  py_get data "size" (JInt 20) = Ok size →
  Judge.max_pages_of total size = Ok m →
  Judge.paginate server (S fuel) cutoff page recent w
  = (Some (Ok recent'), after_request w (JudgeRequest page)).
Proof.
  intros Hserver Hhits (ts & d & Hts & Hd & Hold) Hfor Htotal Hsize Hm. simpl.
  erewrite io_bind_run; [|by unfold Judge.fetch_page, send; rewrite Hserver].
  fold (after_request w (JudgeRequest page)).
  rewrite Hhits. erewrite io_bind_run; [|reflexivity].
  assert (truthy (JList (pre ++ [j])) = true) as -> by (by destruct pre).
  change (negb true) with false. cbv iota.
  erewrite io_bind_run; [|reflexivity].
  erewrite io_bind_run; [|by unfold lift; rewrite Hfor].
  erewrite io_bind_run; cycle 1.
  { unfold lift, py_last. rewrite last_snoc. simpl. rewrite Hts. simpl.
    rewrite Hd. reflexivity. }
  rewrite Htotal. erewrite io_bind_run; [|reflexivity].
  rewrite Hsize. erewrite io_bind_run; [|reflexivity].
  rewrite Hm. erewrite io_bind_run; [|reflexivity].
  erewrite io_bind_run; [|by unfold lift; rewrite (older_than_dt_lt _ _ Hold)].
  reflexivity.
Qed.

(** X11.  The Hays and Judge loops decide on the end of a page alone.
    Hays takes the last record of the page whose date parses, passing over
    undated records behind it (and finds none when no record is dated);
    when that record is older than the cutoff the loop ends with this
    page, and the postings the page contributed are kept.  Judge takes the
    last record of the page: when it is older than the cutoff and the page
    count can be computed, the loop ends with this page in the same way. *)
Theorem last_dated_record_decides_the_stop :
  (∀ pre j d post,
     hays_dated j d → Forall hays_unparsed post →
     Hays.oldest_of (rev (pre ++ j :: post)) = Ok (Some d)) ∧
  (∀ items, Forall hays_unparsed items → Hays.oldest_of (rev items) = Ok None) ∧
  (∀ server fuel cutoff skip total recent w data pre j post recent',
     server skip Hays.top = Ok data →
     py_get data "opportunities" (JList []) = Ok (JList (pre ++ j :: post)) →
     hays_record_older cutoff j → Forall hays_unparsed post →
     for_each (Hays.keep_recent cutoff) (pre ++ j :: post) recent = Ok recent' →
     Hays.paginate server (S fuel) cutoff skip total recent w
     = (Some (Ok recent'), after_request w (HaysRequest skip Hays.top))) ∧
  (∀ server fuel cutoff page recent w data pre j recent' total size m,
     server page = Ok data →
     py_get data "hits" (JList []) = Ok (JList (pre ++ [j])) →
     judge_record_older cutoff j →
     for_each (Judge.keep_recent cutoff) (pre ++ [j]) recent = Ok recent' →
     py_get data "total" (JInt 0) = Ok total →
     py_get data "size" (JInt 20) = Ok size →
     Judge.max_pages_of total size = Ok m →
     Judge.paginate server (S fuel) cutoff page recent w
     = (Some (Ok recent'), after_request w (JudgeRequest page))).
Proof.
  split; [|split; [|split]].
  - apply hays_oldest_of_last_dated.
  - apply hays_oldest_of_undated.
  - apply hays_last_dated_older_stops.
  - apply judge_last_older_stops.
Qed.

(** ** When the Insight Global loop goes on *)

Lemma insight_flag_tracks_additions cutoff entries b recent st :
  for_each (JobExtract.keep_recent cutoff) entries (b, recent) = Ok st →
  ∃ added, snd st = (recent ++ added)%list ∧
           fst st = b || negb (Nat.eqb (length added) 0).
Proof.
  revert b recent. induction entries as [|entry entries IH]; simpl; intros b recent.
  - intros [= <-]. exists []. simpl. by rewrite app_nil_r, orb_false_r.
  - intros Hrun. apply result_bind_Ok in Hrun as (st1 & Hst1 & Hrun).
    destruct st1 as [b1 recent1].
    apply IH in Hrun as (added & Hsnd & Hfst).
    apply insight_keep_recent_inv in Hst1 as [[= -> ->]|(r & [= -> ->] & _)].
    + by exists added.
    + exists (r :: added). simpl in *. rewrite Hsnd, Hfst, <- app_assoc.
      split; [done|]. by rewrite orb_true_r.
Qed.

(** X12.  The Insight Global loop asks for the next page exactly when the
    page just read contributed at least one posting: the flag
    [page_has_newer] is set if and only if the collection grew, whatever
    the order of the entries on the page. *)
Theorem insight_goes_on_iff_page_contributed web cutoff page rest recent w
    html_text st :
  web (JobExtract.page_url page) = Ok html_text →
  JobExtract.parse_jobs html_text ≠ [] →
  for_each (JobExtract.keep_recent cutoff) (JobExtract.parse_jobs html_text)
    (false, recent) = Ok st →
  (∃ added, snd st = (recent ++ added)%list ∧
            fst st = negb (Nat.eqb (length added) 0)) ∧
  JobExtract.scrape_pages web cutoff (page :: rest) recent w
  = if fst st
    then JobExtract.scrape_pages web cutoff rest (snd st)
           (after_request w (HttpGet (JobExtract.page_url page)))
    else (Some (Ok (snd st)), after_request w (HttpGet (JobExtract.page_url page))).
Proof.
  intros Hweb Hne Hfor. split.
  - by apply insight_flag_tracks_additions in Hfor.
  - cbn [JobExtract.scrape_pages].
    erewrite io_bind_run; cycle 1.
    { unfold try_except, JobExtract.fetch, send, mbind, io_bind.
      rewrite Hweb. reflexivity. }
    fold (after_request w (HttpGet (JobExtract.page_url page))). cbv beta iota.
    destruct (JobExtract.parse_jobs html_text) as [|entry entries] eqn:Hparse; [done|].
    erewrite io_bind_run; [|by unfold lift; rewrite Hfor].
    by destruct (fst st).
Qed.

(** ** What the Yoh run keeps *)

Lemma yoh_keep_recent_filter cutoff items : ∀ recent recent',
  for_each (Yoh.keep_recent cutoff) items recent = Ok recent' →
  recent' = (recent ++ List.filter (yoh_fresh cutoff) items)%list.
Proof.
  induction items as [|j items IH]; simpl; intros recent recent'.
  - intros [= <-]. by rewrite app_nil_r.
  - intros Hrun. apply result_bind_Ok in Hrun as (recent1 & Hkeep & Hrun).
    apply IH in Hrun as ->. unfold Yoh.keep_recent in Hkeep. unfold yoh_fresh.
    destruct (Yoh.parse_timestamp j) as [[d|]|e]; simpl in Hkeep; [| |done].
    + destruct (dt_ge d cutoff) as [[|]|e]; simpl in Hkeep; [| |done].
      * injection Hkeep as <-. by rewrite <- app_assoc.
      * by injection Hkeep as <-.
    + by injection Hkeep as <-.
Qed.

(** X13.  A Yoh run that gets through its collection returns the
    postings of the feed themselves, unchanged: exactly those whose
    timestamp parses and is at or after the cutoff, each as often as the
    feed has it, in some order. *)
Theorem yoh_keeps_exactly_the_fresh_postings feed cutoff w out w' :
  Yoh.recent_jobs (Ok feed) cutoff w = (Some (Ok out), w') →
  ∃ items, py_iter feed = Ok items ∧
           out ≡ₚ List.filter (yoh_fresh cutoff) items.
Proof.
  unfold Yoh.recent_jobs, Yoh.fetch_jobs. intros Hrun. io_inv.
  match goal with
  | Hi : py_iter _ = Ok ?items, Hf : for_each _ _ _ = Ok _ |- _ =>
      exists items; apply yoh_keep_recent_filter in Hf; simpl in Hf; subst
  end.
  match goal with
  | Hs : sort_desc _ _ = Ok _ |- _ => apply sort_desc_spec in Hs as [Hperm _]
  end.
  split; [congruence | exact Hperm].
Qed.
End LastRecord.

Lemma last_dated_record_decides_the_stop_witness :
  Hays.oldest_of (H:=sample_lib) (rev mixed_hays_records)
  = Ok (Some (DateTime 1711929600000000 (Some 0))) ∧
  (∃ kept,
     for_each (Hays.keep_recent (H:=sample_lib) (hays_cutoff sample_now))
       mixed_hays_records [] = Ok kept ∧
     length kept = 1%nat ∧
     Hays.paginate (H:=sample_lib) mixed_hays_server 3 (hays_cutoff sample_now)
       0 JNull [] empty_world
     = (Some (Ok kept), World [HaysRequest 0 50] ∅ [] [])) ∧
  (∃ kept,
     for_each (Judge.keep_recent (H:=sample_lib) (day_cutoff sample_now))
       sample_judge_records [] = Ok kept ∧
     length kept = 1%nat ∧
     Judge.paginate (H:=sample_lib) sample_judge_server 3 (day_cutoff sample_now)
       0 [] empty_world
     = (Some (Ok kept), World [JudgeRequest 0] ∅ [] [])).
Proof.
  destruct (@last_dated_record_decides_the_stop sample_lib)
    as (Hlast & _ & Hhays & Hjudge).
  split; [|split].
  - unfold mixed_hays_records.
    match goal with
    | |- Hays.oldest_of (rev [?a; ?b; ?c]) = _ => apply (Hlast [a] b _ [c])
    end.
    + eexists. split; reflexivity.
    + constructor; [|constructor]. eexists. split; reflexivity.
  - eexists. split; [vm_compute; reflexivity|]. split; [reflexivity|].
    apply (Hhays mixed_hays_server 2%nat (hays_cutoff sample_now) 0 JNull []
             empty_world mixed_hays_page
             (take 1 mixed_hays_records)
             (JDict [("Id", JStr "a3"); ("Title", JStr "Old");
                     ("PostedDate", JStr "2024-04-01T00:00:00Z")])
             (drop 2 mixed_hays_records)).
    + reflexivity.
    + reflexivity.
    + exists (JStr "2024-04-01T00:00:00Z"), (DateTime 1711929600000000 (Some 0)).
      split; [reflexivity|]. split; [reflexivity|].
      exists 1711929600000000, 1713873600000000. repeat split; lia.
    + constructor; [|constructor]. eexists. split; reflexivity.
    + vm_compute. reflexivity.
  - eexists. split; [vm_compute; reflexivity|]. split; [reflexivity|].
    apply (Hjudge sample_judge_server 2%nat (day_cutoff sample_now) 0 []
             empty_world sample_judge_page
             (take 1 sample_judge_records)
             (JDict [("jobOrderId", JInt 901); ("title", JStr "Fitter");
                     ("opened", JInt 1711929600000)])
             _ (JInt 2) (JInt 20) 1).
    + reflexivity.
    + reflexivity.
    + exists (JInt 1711929600000), (DateTime 1711929600000000 (Some 0)).
      split; [reflexivity|]. split; [reflexivity|].
      exists 1711929600000000, 1714651200000000. repeat split; lia.
    + vm_compute. reflexivity.
    + reflexivity.
    + reflexivity.
    + reflexivity.
Defined.

Lemma insight_goes_on_iff_page_contributed_witness :
  ∃ st,
    for_each (JobExtract.keep_recent (H:=sample_lib) (day_cutoff sample_now))
      (JobExtract.parse_jobs (H:=sample_lib) "<page 1>") (false, []) = Ok st ∧
    fst st = true ∧
    JobExtract.scrape_pages (H:=sample_lib) sample_web (day_cutoff sample_now)
      [1; 2]%nat [] empty_world
    = if fst st
      then JobExtract.scrape_pages (H:=sample_lib) sample_web (day_cutoff sample_now)
             [2%nat] (snd st)
             (after_request empty_world (HttpGet (JobExtract.page_url 1)))
      else (Some (Ok (snd st)),
            after_request empty_world (HttpGet (JobExtract.page_url 1))).
Proof.
  eexists. split; [vm_compute; reflexivity|]. split; [reflexivity|].
  eapply proj2, (@insight_goes_on_iff_page_contributed sample_lib sample_web
                   (day_cutoff sample_now) 1%nat [2%nat] [] empty_world "<page 1>").
  - reflexivity.
  - intros Heq. vm_compute in Heq. discriminate Heq.
  - vm_compute. reflexivity.
Defined.

Lemma yoh_keeps_exactly_the_fresh_postings_witness :
  ∃ out w' items,
    Yoh.recent_jobs (H:=sample_lib) (Ok sample_yoh_feed) (day_cutoff sample_now)
      empty_world = (Some (Ok out), w') ∧
    py_iter sample_yoh_feed = Ok items ∧
    length out = 2%nat ∧
    out ≡ₚ List.filter (yoh_fresh (H:=sample_lib) (day_cutoff sample_now)) items.
Proof.
  eexists _, _, _.
  split; [vm_compute; reflexivity|].
  split; [reflexivity|].
  split; [reflexivity|].
  edestruct (@yoh_keeps_exactly_the_fresh_postings sample_lib sample_yoh_feed
               (day_cutoff sample_now) empty_world) as (items & Hitems & Hperm);
    [vm_compute; reflexivity|].
  injection Hitems as <-. exact Hperm.
Defined.

(** ** Which date a Yoh posting gets *)

(** X14.  [parse_timestamp] of the Yoh script prefers [changedOnUTC]:
    when that field is a string the ISO parser accepts, its value is the
    timestamp (made aware in UTC when it carries no offset) and
    [postedDate] is not looked at.  When [changedOnUTC] is missing, null,
    empty or refused by the parser, a [postedDate] that reads as
    dd-mm-YYYY gives midnight UTC of that day. *)
Theorem yoh_prefers_changed_on_over_posted_date `{PyLib} (j data : json) :
  py_getitem j "data" = Ok data →
  (∀ s d0,
     py_get data "changedOnUTC" JNull = Ok (JStr s) → s ≠ "" →
     fromisoformat (replace_Z s) = Some d0 →
     Yoh.parse_timestamp j
     = Ok (Some (match tzinfo d0 with
                 | Some _ => d0
                 | None => replace_tzinfo_utc d0
                 end))) ∧
  (∀ changed p w,
     py_get data "changedOnUTC" JNull = Ok changed →
     missing_or_malformed (λ s, fromisoformat (replace_Z s) = None) changed →
     py_get data "postedDate" JNull = Ok (JStr p) → p ≠ "" →
     strptime_dmy p = Some w →
     Yoh.parse_timestamp j = Ok (Some (DateTime w (Some 0)))).
Proof.
  intros Hdata. split.
  - intros s d0 Hchanged Hs Hiso. unfold Yoh.parse_timestamp.
    rewrite Hdata. simpl. rewrite Hchanged. simpl.
    assert (truthy (JStr s) = true) as Htruthy.
    { simpl. by destruct (String.eqb_spec s ""). }
    unfold py_or. rewrite Htruthy, Htruthy. simpl. by rewrite Hiso.
  - intros changed p w Hchanged Hc Hposted Hp Hdmy. unfold Yoh.parse_timestamp.
    rewrite Hdata. simpl. rewrite Hchanged. simpl.
    assert ((if truthy (py_or changed (JStr ""))
             then s ← str_receiver (py_or changed (JStr ""));
                  match fromisoformat (replace_Z s) with
                  | Some dt_obj =>
                      Ok (Some (match tzinfo dt_obj with
                                | Some _ => dt_obj
                                | None => replace_tzinfo_utc dt_obj
                                end))
                  | None => Ok None
                  end
             else Ok None) = Ok None) as ->.
    { destruct Hc as [Hfalsy|(s & -> & Hbad)].
      - unfold py_or. by rewrite Hfalsy.
      - unfold py_or. destruct (truthy (JStr s)) eqn:Hs; [|done]. rewrite Hs.
        simpl. by rewrite Hbad. }
    simpl. rewrite Hposted. simpl.
    assert (truthy (JStr p) = true) as Htruthy.
    { simpl. by destruct (String.eqb_spec p ""). }
    unfold py_or. rewrite Htruthy, Htruthy. by rewrite Hdmy.
Qed.

Lemma yoh_prefers_changed_on_over_posted_date_witness :
  Yoh.parse_timestamp (H:=sample_lib)
    (JDict [("data", JDict [("jobName", JStr "Buyer");
                            ("postedDate", JStr "03-05-2024")])])
  = Ok (Some (DateTime 1714694400000000 (Some 0))).
Proof.
  apply (proj2 (@yoh_prefers_changed_on_over_posted_date sample_lib
                  (JDict [("data", JDict [("jobName", JStr "Buyer");
                                          ("postedDate", JStr "03-05-2024")])])
                  (JDict [("jobName", JStr "Buyer"); ("postedDate", JStr "03-05-2024")])
                  eq_refl) JNull "03-05-2024" 1714694400000000).
  - reflexivity.
  - left. reflexivity.
  - reflexivity.
  - discriminate.
  - reflexivity.
Defined.
